(** * Feature engineering of [playground_series_s6e1_kaggle/features.py]

    A shallow embedding of [create_features] and [main] over a small model of
    the pandas objects they use: a [DataFrame] is an ordered list of named,
    dtype-tagged columns over a positional index; float64 cells are IEEE
    binary64 numbers (Rocq's primitive floats), int64 cells are integers with
    their wrap-around written out. *)

From Stdlib Require Import ZArith List String Ascii Bool Lia Sorted.
From Stdlib Require Import Floats Numbers.Cyclic.Int63.Uint63.
Import ListNotations.

Local Open Scope string_scope.
Local Open Scope list_scope.

(** ** Errors *)

(** [KeyError missing]: a label lookup failed; [missing] are the labels pandas
    names in the message.  [ValueError]: the length of assigned values differs
    from the length of the index.  [Unsupported]: the operands leave the
    fragment of pandas that is modelled: arithmetic on an object or bool
    column (pandas raises TypeError as soon as a str meets a float), one-hot
    encoding of a column whose dtype is not object, a concatenation that
    changes the dtype of a column.  No statement below says what pandas does
    there. *)
Inductive error : Type :=
| KeyError (missing : list string)
| ValueError
| Unsupported.

Inductive result (A : Type) : Type :=
| Ok (a : A)
| Err (e : error).
Arguments Ok {A} a.
Arguments Err {A} e.

Definition bind {A B : Type} (r : result A) (k : A -> result B) : result B :=
  match r with
  | Ok a => k a
  | Err e => Err e
  end.

Notation "x <- r ;; k" := (bind r (fun x => k))
  (at level 61, r at next level, right associativity).

Fixpoint mapM {A B : Type} (f : A -> result B) (l : list A) : result (list B) :=
  match l with
  | [] => Ok []
  | a :: r => b <- f a ;; bs <- mapM f r ;; Ok (b :: bs)
  end.

(** ** Cells and columns *)

(** A cell of an object column as [read_csv] builds it: a str, or the missing
    marker (the float NaN). *)
Inductive obj : Type :=
| OStr (s : string)
| ONaN.

(** A column with its dtype. *)
Inductive column : Type :=
| ColObj (xs : list obj)
| ColInt (xs : list Z)
| ColFloat (xs : list float)
| ColBool (xs : list bool).

(** A cell as one reads it at a row of a column. *)
Inductive cell : Type :=
| CStr (s : string)
| CInt (z : Z)
| CFloat (f : float)
| CBool (b : bool).

Definition obj_cell (o : obj) : cell :=
  match o with
  | OStr s => CStr s
  | ONaN => CFloat nan
  end.

Definition col_len (c : column) : nat :=
  match c with
  | ColObj xs => List.length xs
  | ColInt xs => List.length xs
  | ColFloat xs => List.length xs
  | ColBool xs => List.length xs
  end.

Definition cell_at (c : column) (i : nat) : option cell :=
  match c with
  | ColObj xs => option_map obj_cell (nth_error xs i)
  | ColInt xs => option_map CInt (nth_error xs i)
  | ColFloat xs => option_map CFloat (nth_error xs i)
  | ColBool xs => option_map CBool (nth_error xs i)
  end.

(** The missing marker is a float NaN. *)
Definition is_missing (c : cell) : bool :=
  match c with
  | CFloat f => is_nan f
  | _ => false
  end.

(** ** int64 and float64 *)

Definition wrap64 (z : Z) : Z := ((z + 2 ^ 63) mod 2 ^ 64 - 2 ^ 63)%Z.

(** Conversion of an int64 to float64 (round to nearest). *)
Definition of_int64 (z : Z) : float :=
  if (z =? - 2 ^ 63)%Z then (-9223372036854775808)%float
  else if (z <? 0)%Z then PrimFloat.opp (of_uint63 (Uint63.of_Z (- z)))
  else of_uint63 (Uint63.of_Z z).

(** The literal [1e-6] of the source: the binary64 number nearest to it. *)
Definition eps : float := 0x1.0c6f7a0b5ed8dp-20%float.

Definition is_finite (f : float) : bool :=
  negb (is_nan f) && negb (is_infinity f).

(** ** Data frames *)

Record DataFrame : Type := mkDF {
  nrows : nat;
  cols : list (string * column)
}.

Definition names (df : DataFrame) : list string := map fst (cols df).

Fixpoint lookup (name : string) (l : list (string * column)) : option column :=
  match l with
  | [] => None
  | (n, c) :: r => if String.eqb name n then Some c else lookup name r
  end.

Definition has_col (df : DataFrame) (name : string) : bool :=
  match lookup name (cols df) with
  | Some _ => true
  | None => false
  end.

(** [df[name]] *)
Definition getitem (df : DataFrame) (name : string) : result column :=
  match lookup name (cols df) with
  | Some c => Ok c
  | None => Err (KeyError [name])
  end.

Fixpoint replace_col (name : string) (c : column) (l : list (string * column))
  : list (string * column) :=
  match l with
  | [] => []
  | (n, c') :: r =>
      if String.eqb name n then (n, c) :: r else (n, c') :: replace_col name c r
  end.

(** [df[name] = series], the series sharing the frame's index: an existing
    column is overwritten where it stands, a new one goes last. *)
Definition setitem (df : DataFrame) (name : string) (c : column) : DataFrame :=
  if has_col df name
  then mkDF (nrows df) (replace_col name c (cols df))
  else mkDF (nrows df) (cols df ++ [(name, c)]).

(** [df[name] = values] for a bare array: its length must be that of the
    index. *)
Definition setitem_values (df : DataFrame) (name : string) (c : column)
  : result DataFrame :=
  if Nat.eqb (col_len c) (nrows df) then Ok (setitem df name c)
  else Err ValueError.

Fixpoint mem (s : string) (l : list string) : bool :=
  match l with
  | [] => false
  | x :: r => String.eqb s x || mem s r
  end.

Definition remove_cols (labels : list string) (l : list (string * column))
  : list (string * column) :=
  filter (fun nc => negb (mem (fst nc) labels)) l.

(** [df.drop(columns=labels)] *)
Definition drop (df : DataFrame) (labels : list string) : result DataFrame :=
  match filter (fun n => negb (has_col df n)) labels with
  | [] => Ok (mkDF (nrows df) (remove_cols labels (cols df)))
  | missing => Err (KeyError missing)
  end.

(** Uniqueness of the column labels and agreement of every column with the
    index: the frames [read_csv] builds, and the only ones on which the
    lookups of this model are those of pandas. *)
Fixpoint nodupb (l : list string) : bool :=
  match l with
  | [] => true
  | x :: r => negb (mem x r) && nodupb r
  end.

Definition wf (df : DataFrame) : bool :=
  nodupb (names df)
  && forallb (fun nc => Nat.eqb (col_len (snd nc)) (nrows df)) (cols df).

(** ** The pandas operations that [features.py] calls *)

Definition dict : Type := list (string * Z).

Fixpoint dict_get (d : dict) (k : string) : option Z :=
  match d with
  | [] => None
  | (k', v) :: r => if String.eqb k k' then Some v else dict_get r k
  end.

(** The value a dict with str keys has for a cell: only a str can be a key. *)
Definition cell_code (d : dict) (c : cell) : option Z :=
  match c with
  | CStr s => dict_get d s
  | _ => None
  end.

Definition col_cells (c : column) : list cell :=
  match c with
  | ColObj xs => map obj_cell xs
  | ColInt xs => map CInt xs
  | ColFloat xs => map CFloat xs
  | ColBool xs => map CBool xs
  end.

Definition is_some {A : Type} (o : option A) : bool :=
  match o with
  | Some _ => true
  | None => false
  end.

Definition code_int (o : option Z) : Z :=
  match o with
  | Some z => z
  | None => 0%Z
  end.

Definition code_float (o : option Z) : float :=
  match o with
  | Some z => of_int64 z
  | None => nan
  end.

(** [series.map(d)]: every cell is looked up in [d]; a cell that is no key
    becomes NaN.  The result is int64 when every cell was found and float64
    as soon as one NaN is needed. *)
Definition series_map (d : dict) (c : column) : column :=
  let found := map (cell_code d) (col_cells c) in
  if forallb is_some found
  then ColInt (map code_int found)
  else ColFloat (map code_float found).

(** The categories of a column, sorted and without repetition; missing cells
    are no category. *)
Fixpoint insert_level (s : string) (l : list string) : list string :=
  match l with
  | [] => [s]
  | x :: r =>
      match String.compare s x with
      | Lt => s :: l
      | Eq => l
      | Gt => x :: insert_level s r
      end
  end.

Fixpoint observed (xs : list obj) : list string :=
  match xs with
  | [] => []
  | OStr s :: r => s :: observed r
  | ONaN :: r => observed r
  end.

Definition levels (xs : list obj) : list string :=
  fold_right insert_level [] (observed xs).

Definition obj_is (l : string) (o : obj) : bool :=
  match o with
  | OStr s => String.eqb s l
  | ONaN => false
  end.

Definition dummy_name (prefix level : string) : string :=
  (prefix ++ "_" ++ level)%string.

Definition indicator (l : string) (xs : list obj) : column :=
  ColBool (map (obj_is l) xs).

(** [_get_dummies_1d(col, prefix, prefix_sep="_", drop_first=True)] with the
    default bool dtype: one indicator per level but the first; no column at
    all when the column has no level or a single one. *)
Definition get_dummies_1d (prefix : string) (c : column)
  : result (list (string * column)) :=
  match c with
  | ColObj xs =>
      match levels xs with
      | [] => Ok []
      | _ :: rest =>
          Ok (map (fun l => (dummy_name prefix l, indicator l xs)) rest)
      end
  | _ => Err Unsupported
  end.

(** [pd.get_dummies(df, columns=columns, prefix=columns, drop_first=True)]:
    the columns to encode are taken out of the frame and their indicator
    blocks are put after the columns that stay, in the order of [columns]. *)
Definition get_dummies (df : DataFrame) (columns : list string)
  : result DataFrame :=
  match filter (fun n => negb (has_col df n)) columns with
  | [] =>
      blocks <- mapM (fun n => c <- getitem df n ;; get_dummies_1d n c)
                     columns ;;
      Ok (mkDF (nrows df) (remove_cols columns (cols df) ++ List.concat blocks))
  | missing => Err (KeyError missing)
  end.

Fixpoint zip_with {A B C : Type} (f : A -> B -> C) (l : list A) (l' : list B)
  : list C :=
  match l, l' with
  | a :: r, b :: r' => f a b :: zip_with f r r'
  | _, _ => []
  end.

(** [series + e] for a float [e] *)
Definition add_scalar (c : column) (e : float) : result column :=
  match c with
  | ColFloat xs => Ok (ColFloat (map (fun x => x + e) xs))
  | ColInt xs => Ok (ColFloat (map (fun z => of_int64 z + e) xs))
  | _ => Err Unsupported
  end%float.

(** The float64 view of a numeric column *)
Definition as_floats (c : column) : option (list float) :=
  match c with
  | ColFloat xs => Some xs
  | ColInt xs => Some (map of_int64 xs)
  | _ => None
  end.

(** [a / b]: true division, always float64 *)
Definition col_div (a b : column) : result column :=
  match as_floats a, as_floats b with
  | Some xs, Some ys => Ok (ColFloat (zip_with PrimFloat.div xs ys))
  | _, _ => Err Unsupported
  end.

(** [a * b]: int64 (wrapping) when both are, float64 otherwise *)
Definition col_mul (a b : column) : result column :=
  match a, b with
  | ColInt xs, ColInt ys =>
      Ok (ColInt (zip_with (fun x y => wrap64 (x * y)) xs ys))
  | _, _ =>
      match as_floats a, as_floats b with
      | Some xs, Some ys => Ok (ColFloat (zip_with PrimFloat.mul xs ys))
      | _, _ => Err Unsupported
      end
  end.

(** [a ** 2] *)
Definition col_sq (a : column) : result column :=
  match a with
  | ColInt xs => Ok (ColInt (map (fun x => wrap64 (x * x)) xs))
  | ColFloat xs => Ok (ColFloat (map (fun x => x * x)%float xs))
  | _ => Err Unsupported
  end.

(** One column of [pd.concat([a, b], ignore_index=True)]: the cells of [a]
    then those of [b]; where a frame lacks the label its rows are NaN.  Only
    the cases that keep the dtype are modelled. *)
Definition concat_col (n m : nat) (a b : option column) : result column :=
  match a, b with
  | Some (ColObj xs), Some (ColObj ys) => Ok (ColObj (xs ++ ys))
  | Some (ColInt xs), Some (ColInt ys) => Ok (ColInt (xs ++ ys))
  | Some (ColFloat xs), Some (ColFloat ys) => Ok (ColFloat (xs ++ ys))
  | Some (ColBool xs), Some (ColBool ys) => Ok (ColBool (xs ++ ys))
  | Some (ColObj xs), None => Ok (ColObj (xs ++ repeat ONaN m))
  | Some (ColFloat xs), None => Ok (ColFloat (xs ++ repeat nan m))
  | None, Some (ColObj ys) => Ok (ColObj (repeat ONaN n ++ ys))
  | None, Some (ColFloat ys) => Ok (ColFloat (repeat nan n ++ ys))
  | _, _ => Err Unsupported
  end.

(** [pd.concat([a, b], ignore_index=True)]: the labels of [a], then the
    labels only [b] has. *)
Definition concat_frames (a b : DataFrame) : result DataFrame :=
  let labels :=
    names a ++ filter (fun n => negb (has_col a n)) (names b) in
  cs <- mapM (fun n =>
                c <- concat_col (nrows a) (nrows b)
                       (lookup n (cols a)) (lookup n (cols b)) ;;
                Ok (n, c))
             labels ;;
  Ok (mkDF (nrows a + nrows b) cs).

Definition col_firstn (n : nat) (c : column) : column :=
  match c with
  | ColObj xs => ColObj (firstn n xs)
  | ColInt xs => ColInt (firstn n xs)
  | ColFloat xs => ColFloat (firstn n xs)
  | ColBool xs => ColBool (firstn n xs)
  end.

Definition col_skipn (n : nat) (c : column) : column :=
  match c with
  | ColObj xs => ColObj (skipn n xs)
  | ColInt xs => ColInt (skipn n xs)
  | ColFloat xs => ColFloat (skipn n xs)
  | ColBool xs => ColBool (skipn n xs)
  end.

(** [df.iloc[:n]] *)
Definition iloc_to (n : nat) (df : DataFrame) : DataFrame :=
  mkDF (Nat.min n (nrows df))
       (map (fun nc => (fst nc, col_firstn n (snd nc))) (cols df)).

(** [df.iloc[n:]] *)
Definition iloc_from (n : nat) (df : DataFrame) : DataFrame :=
  mkDF (nrows df - n)
       (map (fun nc => (fst nc, col_skipn n (snd nc))) (cols df)).

(** ** [features.py] *)

Definition sleep_quality_mapping : dict :=
  [("poor", 0%Z); ("average", 1%Z); ("good", 2%Z)].
Definition facility_rating_mapping : dict :=
  [("low", 0%Z); ("medium", 1%Z); ("high", 2%Z)].
Definition exam_difficulty_mapping : dict :=
  [("easy", 0%Z); ("moderate", 1%Z); ("hard", 2%Z)].

Definition nominal_cols : list string :=
  ["gender"; "course"; "internet_access"; "study_method"].

Definition create_features (df : DataFrame) : result DataFrame :=
  let df_featured := df in
  (* 1. Ordinal Feature Encoding *)
  c <- getitem df_featured "sleep_quality" ;;
  let df_featured :=
    setitem df_featured "sleep_quality" (series_map sleep_quality_mapping c) in
  c <- getitem df_featured "facility_rating" ;;
  let df_featured :=
    setitem df_featured "facility_rating"
            (series_map facility_rating_mapping c) in
  c <- getitem df_featured "exam_difficulty" ;;
  let df_featured :=
    setitem df_featured "exam_difficulty"
            (series_map exam_difficulty_mapping c) in
  (* 2. Nominal Feature Encoding (One-Hot) *)
  df_featured <- get_dummies df_featured nominal_cols ;;
  (* 3. Interaction and Polynomial Features *)
  ca <- getitem df_featured "class_attendance" ;;
  sh <- getitem df_featured "study_hours" ;;
  den <- add_scalar sh eps ;;
  q <- col_div ca den ;;
  let df_featured := setitem df_featured "study_efficiency" q in
  sh <- getitem df_featured "study_hours" ;;
  sl <- getitem df_featured "sleep_hours" ;;
  p <- col_mul sh sl ;;
  let df_featured := setitem df_featured "study_sleep_interaction" p in
  sh <- getitem df_featured "study_hours" ;;
  s <- col_sq sh ;;
  let df_featured := setitem df_featured "study_hours_sq" s in
  ca <- getitem df_featured "class_attendance" ;;
  s <- col_sq ca ;;
  let df_featured := setitem df_featured "class_attendance_sq" s in
  Ok df_featured.

(** [main], from the two frames [read_csv] returns to the two frames handed
    to [to_csv].  The two slices of [featured_df] are frames of their own:
    the column assigned to [train_featured] is added to that slice only. *)
Definition main (train_df test_df : DataFrame)
  : result (DataFrame * DataFrame) :=
  target <- getitem train_df "exam_score" ;;
  train_df_processed <- drop train_df ["exam_score"] ;;
  combined_df <- concat_frames train_df_processed test_df ;;
  featured_df <- create_features combined_df ;;
  let train_featured := iloc_to (nrows train_df) featured_df in
  let test_featured := iloc_from (nrows train_df) featured_df in
  train_featured <- setitem_values train_featured "exam_score" target ;;
  Ok (train_featured, test_featured).

(** ** The columns of the raw tables and of the result *)

Definition ordinal_cols : list string :=
  ["sleep_quality"; "facility_rating"; "exam_difficulty"].

Definition ordinal_mappings : list (string * dict) :=
  [("sleep_quality", sleep_quality_mapping);
   ("facility_rating", facility_rating_mapping);
   ("exam_difficulty", exam_difficulty_mapping)].

Definition numeric_cols : list string :=
  ["study_hours"; "class_attendance"; "sleep_hours"].

Definition source_cols : list string :=
  ordinal_cols ++ nominal_cols ++ numeric_cols.

Definition derived_cols : list string :=
  ["study_efficiency"; "study_sleep_interaction"; "study_hours_sq";
   "class_attendance_sq"].

Definition is_numeric (c : column) : bool :=
  match c with
  | ColInt _ | ColFloat _ => true
  | _ => false
  end.

Definition is_object (c : column) : bool :=
  match c with
  | ColObj _ => true
  | _ => false
  end.

Definition has_dtype (p : column -> bool) (df : DataFrame) (name : string)
  : bool :=
  match lookup name (cols df) with
  | Some c => p c
  | None => false
  end.

(** The raw table of the data model: the nine source columns are there, the
    nominal ones hold strings and the numeric ones numbers. *)
Definition raw_ok (df : DataFrame) : bool :=
  forallb (has_col df) ordinal_cols
  && forallb (has_dtype is_object df) nominal_cols
  && forallb (has_dtype is_numeric df) numeric_cols.

(** A label that looks like an indicator of a nominal column. *)
Definition starts_with_nominal (n : string) : bool :=
  existsb (fun p => String.prefix (p ++ "_") n) nominal_cols.

(** No label of the frame collides with a label [create_features] makes. *)
Definition fresh_labels (df : DataFrame) : bool :=
  forallb (fun n => negb (starts_with_nominal n) && negb (mem n derived_cols))
          (names df).

(** No label of the frame is the label of a derived column. *)
Definition no_derived_labels (df : DataFrame) : bool :=
  forallb (fun n => negb (mem n derived_cols)) (names df).

(** The labels of the indicators of nominal column [p] of [df]. *)
Definition dummy_labels (df : DataFrame) (p : string) : list string :=
  match lookup p (cols df) with
  | Some (ColObj xs) => map (dummy_name p) (tl (levels xs))
  | _ => []
  end.

(** The category whose indicator is dropped. *)
Definition baseline (xs : list obj) : option string := hd_error (levels xs).

(** Row arithmetic in the dtype of the cells. *)
Definition as_float (c : cell) : option float :=
  match c with
  | CInt z => Some (of_int64 z)
  | CFloat f => Some f
  | _ => None
  end.

Definition cell_div (a b : cell) : option cell :=
  match as_float a, as_float b with
  | Some x, Some y => Some (CFloat (x / y))
  | _, _ => None
  end.

Definition cell_add_float (a : cell) (e : float) : option cell :=
  match as_float a with
  | Some x => Some (CFloat (x + e))
  | None => None
  end.



Definition is_zero (c : cell) : bool :=
  match c with
  | CInt z => (z =? 0)%Z
  | CFloat f => (f =? 0)%float
  | _ => false
  end.

(** dtypes and schemas *)
Inductive dtype : Type := DObject | DInt64 | DFloat64 | DBool.

Definition dtype_of (c : column) : dtype :=
  match c with
  | ColObj _ => DObject
  | ColInt _ => DInt64
  | ColFloat _ => DFloat64
  | ColBool _ => DBool
  end.

Definition dtype_eqb (a b : dtype) : bool :=
  match a, b with
  | DObject, DObject | DInt64, DInt64 | DFloat64, DFloat64 | DBool, DBool =>
      true
  | _, _ => false
  end.

Fixpoint schema_eqb (l l' : list (string * column)) : bool :=
  match l, l' with
  | [], [] => true
  | (n, c) :: r, (n', c') :: r' =>
      String.eqb n n' && dtype_eqb (dtype_of c) (dtype_of c') && schema_eqb r r'
  | _, _ => false
  end.

(** The two tables of the pipeline: the train table is the test table plus
    the label [exam_score]. *)
Definition pipeline_ok (train_df test_df : DataFrame) : bool :=
  wf train_df && wf test_df
  && has_col train_df "exam_score"
  && negb (has_col test_df "exam_score")
  && schema_eqb (remove_cols ["exam_score"] (cols train_df)) (cols test_df)
  && raw_ok test_df.

(** The three stages of [create_features] in closed form, as the proofs use
    them. *)
Definition encode_ordinals (df : DataFrame) (c1 c2 c3 : column) : DataFrame :=
  setitem
    (setitem
       (setitem df "sleep_quality" (series_map sleep_quality_mapping c1))
       "facility_rating" (series_map facility_rating_mapping c2))
    "exam_difficulty" (series_map exam_difficulty_mapping c3).

Definition block (p : string) (xs : list obj) : list (string * column) :=
  map (fun l => (dummy_name p l, indicator l xs)) (tl (levels xs)).

Definition one_hot (df : DataFrame) (g co ia sm : list obj) : DataFrame :=
  mkDF (nrows df)
       (remove_cols nominal_cols (cols df)
        ++ block "gender" g ++ block "course" co
        ++ block "internet_access" ia ++ block "study_method" sm).

Definition derive (df : DataFrame) (q p s1 s2 : column) : DataFrame :=
  setitem
    (setitem
       (setitem (setitem df "study_efficiency" q) "study_sleep_interaction" p)
       "study_hours_sq" s1)
    "class_attendance_sq" s2.

(** What [create_features] reads of its input ([c1] to [sl]), the columns it
    computes ([den] to [s2]) and the frame it returns. *)
Record stages (df : DataFrame) (c1 c2 c3 : column) (g co ia sm : list obj)
       (ca sh sl den q p s1 s2 : column) (out : DataFrame) : Prop := mkStages {
  st_l1 : lookup "sleep_quality" (cols df) = Some c1;
  st_l2 : lookup "facility_rating" (cols df) = Some c2;
  st_l3 : lookup "exam_difficulty" (cols df) = Some c3;
  st_lg : lookup "gender" (cols df) = Some (ColObj g);
  st_lco : lookup "course" (cols df) = Some (ColObj co);
  st_lia : lookup "internet_access" (cols df) = Some (ColObj ia);
  st_lsm : lookup "study_method" (cols df) = Some (ColObj sm);
  st_lca : lookup "class_attendance" (cols df) = Some ca;
  st_lsh : lookup "study_hours" (cols df) = Some sh;
  st_lsl : lookup "sleep_hours" (cols df) = Some sl;
  st_den : add_scalar sh eps = Ok den;
  st_q : col_div ca den = Ok q;
  st_p : col_mul sh sl = Ok p;
  st_s1 : col_sq sh = Ok s1;
  st_s2 : col_sq ca = Ok s2;
  st_out : out =
           derive (one_hot (encode_ordinals df c1 c2 c3) g co ia sm) q p s1 s2
}.

(** The lexical order of str, on the bytes of the UTF-8 encoding. *)
Definition str_lt (a b : string) : Prop := String.compare a b = Lt.

(** The columns [create_features] writes: every other column is only
    carried along. *)
Definition written_cols : list string :=
  ordinal_cols ++ nominal_cols ++ derived_cols.

(** Every column agrees with the index. *)
Definition lens_ok (df : DataFrame) : Prop :=
  forall n c, In (n, c) (cols df) -> col_len c = nrows df.

(** The intermediate frames of [main]: the label column [target], the
    combined frame [C] and the featured frame [F]. *)
Record pipeline (train_df test_df : DataFrame) (target : column)
       (C F : DataFrame) : Prop := mkPipeline {
  pl_target : lookup "exam_score" (cols train_df) = Some target;
  pl_target_len : col_len target = nrows train_df;
  pl_concat :
    concat_frames
      (mkDF (nrows train_df) (remove_cols ["exam_score"] (cols train_df)))
      test_df = Ok C;
  pl_rows : nrows C = nrows train_df + nrows test_df;
  pl_names : names C = names test_df;
  pl_cols :
    forall l x,
      l <> "exam_score" -> lookup l (cols train_df) = Some x ->
      exists y z,
        lookup l (cols test_df) = Some y /\ lookup l (cols C) = Some z
        /\ col_firstn (nrows train_df) z = x
        /\ col_skipn (nrows train_df) z = y
        /\ col_cells z = col_cells x ++ col_cells y;
  pl_cols_test :
    forall l y,
      lookup l (cols test_df) = Some y ->
      exists x, l <> "exam_score" /\ lookup l (cols train_df) = Some x;
  pl_nolabel : lookup "exam_score" (cols C) = None;
  pl_lens : lens_ok C;
  pl_raw : raw_ok C = true;
  pl_features : create_features C = Ok F;
  pl_main :
    main train_df test_df =
    Ok (setitem (iloc_to (nrows train_df) F) "exam_score" target,
        iloc_from (nrows train_df) F)
}.

(** The nominal and numeric source columns that are there have the dtype
    of the data model. *)
Definition dtype_if_present (p : column -> bool) (df : DataFrame)
           (name : string) : bool :=
  match lookup name (cols df) with
  | Some c => p c
  | None => true
  end.

Definition typed_where_present (df : DataFrame) : bool :=
  forallb (dtype_if_present is_object df) nominal_cols
  && forallb (dtype_if_present is_numeric df) numeric_cols.

(** ** Sample tables *)

(** A raw table from its cells, in the column order of the competition
    files. *)
Definition raw_table (ids : list Z) (gender course : list obj)
           (study_hours class_attendance : list float)
           (internet_access : list obj) (sleep_hours : list float)
           (sleep_quality study_method facility_rating exam_difficulty
            : list obj) : DataFrame :=
  mkDF (List.length ids)
       [("id", ColInt ids);
        ("gender", ColObj gender);
        ("course", ColObj course);
        ("study_hours", ColFloat study_hours);
        ("class_attendance", ColFloat class_attendance);
        ("internet_access", ColObj internet_access);
        ("sleep_hours", ColFloat sleep_hours);
        ("sleep_quality", ColObj sleep_quality);
        ("study_method", ColObj study_method);
        ("facility_rating", ColObj facility_rating);
        ("exam_difficulty", ColObj exam_difficulty)].

Definition sample_test : DataFrame :=
  raw_table [3; 4]%Z
            [OStr "male"; ONaN] [OStr "ba"; OStr "b.sc"]
            [1; 0]%float [50; 10]%float
            [OStr "yes"; OStr "no"] [7; 6]%float
            [OStr "average"; OStr "great"] [OStr "self"; OStr "group"]
            [OStr "low"; OStr "high"] [OStr "easy"; OStr "hard"].

Definition sample_train : DataFrame :=
  let t :=
    raw_table [0; 1; 2]%Z
              [OStr "male"; OStr "female"; OStr "other"]
              [OStr "b.sc"; OStr "b.sc"; OStr "b.tech"]
              [0; 2.5; 4]%float [10; 90.5; 75]%float
              [OStr "yes"; OStr "no"; OStr "yes"] [7; 8; 6.5]%float
              [OStr "poor"; OStr "good"; OStr "average"]
              [OStr "self"; OStr "group"; OStr "self"]
              [OStr "low"; OStr "high"; OStr "medium"]
              [OStr "easy"; OStr "hard"; OStr "moderate"] in
  mkDF (nrows t) (cols t ++ [("exam_score", ColFloat [70; 85; 90]%float)]).

(** A table with a missing gender. *)
Definition missing_gender_table : DataFrame :=
  raw_table [0; 1; 2]%Z
            [OStr "male"; ONaN; OStr "female"]
            [OStr "b.sc"; OStr "b.sc"; OStr "b.tech"]
            [0; 2.5; 4]%float [10; 90.5; 75]%float
            [OStr "yes"; OStr "no"; OStr "yes"] [7; 8; 6.5]%float
            [OStr "poor"; OStr "good"; OStr "average"]
            [OStr "self"; OStr "group"; OStr "self"]
            [OStr "low"; OStr "high"; OStr "medium"]
            [OStr "easy"; OStr "hard"; OStr "moderate"].

(** A table whose rows all have study_hours 0: the attendance is missing in
    the first, huge in the second and 0 in the third. *)
Definition zero_hours_table : DataFrame :=
  raw_table [0; 1; 2]%Z
            [OStr "male"; OStr "female"; OStr "other"]
            [OStr "b.sc"; OStr "b.sc"; OStr "b.tech"]
            [0; 0; 0]%float [nan; 0x1p1020; 0]%float
            [OStr "yes"; OStr "no"; OStr "yes"] [7; 8; 6.5]%float
            [OStr "poor"; OStr "good"; OStr "average"]
            [OStr "self"; OStr "group"; OStr "self"]
            [OStr "low"; OStr "high"; OStr "medium"]
            [OStr "easy"; OStr "hard"; OStr "moderate"].

(** A table with one more column, labelled like a derived one. *)
Definition clash_table : DataFrame :=
  mkDF (nrows sample_test)
       (cols sample_test ++ [("study_hours_sq", ColFloat [7; 7]%float)]).

(** A table without the sleep_hours column. *)
Definition no_sleep_hours_table : DataFrame :=
  mkDF (nrows sample_test) (remove_cols ["sleep_hours"] (cols sample_test)).

(** * The report script [reports/0_01_rab_raw_features_eda.py]

    The script draws with matplotlib and seaborn and writes a PDF with fpdf.
    Its functions are modelled by the calls they make into these libraries,
    in order, and by the value they return.  A library call that raises ends
    the run there (the script catches nothing), so the calls of a run are a
    prefix of the modelled list, and all of it when the run comes to its
    end.  Calls to [print] are left out. *)

Module Eda.

Definition TARGET : string := "exam_score".
Definition ID_COL : string := "id".

(** ** Paths and strings *)

(** A path by its components.  [split_on] and [parts] cut a relative
    POSIX path string the way pathlib does: at the slashes, dropping empty
    components and single dots. *)
Definition path : Type := list string.

Fixpoint split_on (sep : ascii) (s : string) : list string :=
  match s with
  | EmptyString => [EmptyString]
  | String c r =>
      if Ascii.eqb c sep then EmptyString :: split_on sep r
      else match split_on sep r with
           | h :: t => String c h :: t
           | [] => [String c EmptyString]
           end
  end.

Definition parts (s : string) : list string :=
  filter (fun x => negb (String.eqb x "") && negb (String.eqb x "."))
         (split_on "/"%char s).

(** [p / s] for a string [s] that does not start with a slash, as every
    right operand in the script. *)
Definition joinpath (p : path) (s : string) : path := p ++ parts s.

(** [p.name] *)
Definition name (p : path) : string := last p "".

(** [s.replace(old, new)] for a non-empty [old]: the occurrences of [old]
    are found from the left and do not overlap.  [skip] counts the characters
    of an occurrence still to pass over. *)
Fixpoint replace_from (old new : string) (skip : nat) (s : string) : string :=
  match s with
  | EmptyString => EmptyString
  | String c r =>
      match skip with
      | S k => replace_from old new k r
      | O =>
          if String.prefix old s
          then (new ++ replace_from old new (String.length old - 1) r)%string
          else String c (replace_from old new 0 r)
      end
  end.

Definition replace (old new s : string) : string := replace_from old new 0 s.

(** ** The feature lists of [main] *)

(** [[col for col in train_df.columns if col not in [TARGET, ID_COL]]] *)
Definition features (train_df : DataFrame) : list string :=
  filter (fun col => negb (mem col [TARGET; ID_COL])) (names train_df).

(** [df[labels].select_dtypes(include=...).columns.tolist()]: the labels,
    in their order, whose column has a dtype that is asked for. *)
Definition select_dtypes (include : column -> bool) (df : DataFrame)
           (labels : list string) : list string :=
  filter (has_dtype include df) labels.

(** [np.number] takes int64 and float64, not bool and not object. *)
Definition numerical_features (train_df : DataFrame) : list string :=
  select_dtypes is_numeric train_df (features train_df).

(** ['object', 'category'] *)
Definition categorical_features (train_df : DataFrame) : list string :=
  select_dtypes is_object train_df (features train_df).

(** ** The plotting functions *)

Inductive plot_call : Type :=
| Figure (w h : Z)                       (* plt.figure(figsize=(w, h)) *)
| Histplot (col : string) (bins : Z) (kde : bool)
| Countplot (y : string)                 (* order: value_counts of df[y] *)
| Jointplot (x y : string) (height : Z)  (* kind="hex"; opens its figure *)
| Suptitle (s : string)
| Boxplot (y x : string)                 (* order: value_counts of df[y] *)
| Corr (labels : list string)            (* df_corr[labels].corr() *)
| Heatmap
| Title (s : string)
| Xlabel (s : string)
| Ylabel (s : string)
| TightLayout
| Savefig (p : path)
| Close.

(** The calls of a function and the [image_paths] it returns. *)
Definition plotted : Type := (list plot_call * list path)%type.

(** The [for col in features] loops: the calls of the iterations one after
    the other, and the paths appended. *)
Definition for_each (body : string -> list plot_call * path)
           (cols : list string) : plotted :=
  (flat_map (fun col => fst (body col)) cols,
   map (fun col => snd (body col)) cols).

Definition plot_numerical_distributions (cols : list string)
           (figures_path : path) : plotted :=
  for_each
    (fun col =>
       let image_path :=
         joinpath figures_path ("numerical_dist_" ++ col ++ ".png") in
       ([Figure 10 6; Histplot col 30 true;
         Title ("Distribution of " ++ col); Xlabel col; Ylabel "Frequency";
         Savefig image_path; Close],
        image_path))
    cols.

Definition plot_categorical_distributions (cols : list string)
           (figures_path : path) : plotted :=
  for_each
    (fun col =>
       let image_path :=
         joinpath figures_path ("categorical_dist_" ++ col ++ ".png") in
       ([Figure 12 8; Countplot col;
         Title ("Distribution of " ++ col); Xlabel "Count"; Ylabel col;
         TightLayout; Savefig image_path; Close],
        image_path))
    cols.

Definition plot_numerical_vs_target (cols : list string) (target : string)
           (figures_path : path) : plotted :=
  for_each
    (fun col =>
       let image_path :=
         joinpath figures_path ("numerical_vs_target_" ++ col ++ ".png") in
       ([Jointplot target col 8; Suptitle (col ++ " vs. " ++ target);
         Savefig image_path; Close],
        image_path))
    cols.

Definition plot_categorical_vs_target (cols : list string) (target : string)
           (figures_path : path) : plotted :=
  for_each
    (fun col =>
       let image_path :=
         joinpath figures_path ("categorical_vs_target_" ++ col ++ ".png") in
       ([Figure 12 8; Boxplot col target;
         Title (col ++ " vs. " ++ target ++ " Distribution");
         Xlabel ("Valor do " ++ target); Ylabel col;
         TightLayout; Savefig image_path; Close],
        image_path))
    cols.

Definition plot_correlation_matrix (cols : list string) (target : string)
           (figures_path : path) : plotted :=
  let corr_features := cols ++ [target] in
  let image_path := joinpath figures_path "correlation_matrix.png" in
  ([Corr corr_features; Figure 10 8; Heatmap;
    Title "Correlation Matrix of Numerical Features and Target";
    Savefig image_path; Close],
   [image_path]).

(** ** The PDF *)

Inductive pdf_call : Type :=
| SetAutoPageBreak (auto : bool) (margin : Z)
| AddPage
| SetFont (family style : string) (size : Z)
| Cell (w h : Z) (txt : string) (border ln : Z) (align : string)
| Ln (h : Z)
| Image (p : path) (x w : Z)
| Output (p : path).

(** [PDF.chapter_title] *)
Definition chapter_title (title : string) : list pdf_call :=
  [SetFont "Arial" "B" 12; Cell 0 10 title 0 1 "L"; Ln 5].

(** The text under which a figure is put:
    [image_path.name.replace('_', ' ').replace('.png', '')] behind
    ["Figure: "]. *)
Definition caption (image_path : path) : string :=
  ("Figure: " ++ replace ".png" "" (replace "_" " " (name image_path)))%string.

(** [PDF.chapter_body] *)
Definition chapter_body (images : list path) : list pdf_call :=
  flat_map (fun image_path =>
              [SetFont "Arial" "" 10; Ln 5;
               Cell 0 10 (caption image_path) 0 1 "L";
               Image image_path 10 190])
           images.

(** The body of the loop of [generate_pdf_report] over the items of the
    dict, [keys] being all its keys. *)
Definition section_calls (keys : list string) (item : string * list path)
  : list pdf_call :=
  chapter_title (fst item) ++ chapter_body (snd item)
  ++ (if negb (String.eqb (fst item) (last keys "")) then [AddPage] else []).

(** [generate_pdf_report]; [fpdf] tells whether the import of fpdf
    succeeded, [image_sections] is the dict as the list of its items.  (The
    statement [class PDF(FPDF)] of the module comes before, so a run of the
    script gets here with fpdf imported.) *)
Definition generate_pdf_report (fpdf : bool)
           (image_sections : list (string * list path)) (output_path : path)
  : list pdf_call :=
  if fpdf then
    [SetAutoPageBreak true 15; AddPage]
    ++ flat_map (section_calls (map fst image_sections)) image_sections
    ++ [Output (joinpath output_path "eda_report.pdf")]
  else [].

(** ** [main] *)

(** The five sections of the report, in the order of their insertion, with
    the calls that draw them. *)
Definition sections (train_df : DataFrame) (figures_path : path)
  : list (string * plotted) :=
  let numerical := numerical_features train_df in
  let categorical := categorical_features train_df in
  [("Numerical Feature Distributions",
    plot_numerical_distributions numerical figures_path);
   ("Categorical Feature Distributions",
    plot_categorical_distributions categorical figures_path);
   ("Numerical Features vs. Target",
    plot_numerical_vs_target numerical TARGET figures_path);
   ("Categorical Features vs. Target",
    plot_categorical_vs_target categorical TARGET figures_path);
   ("Correlation Matrix",
    plot_correlation_matrix numerical TARGET figures_path)].

(** [main], from the frame [read_csv] returns: the plotting calls, then the
    calls on the PDF. *)
Definition main (fpdf : bool) (train_df : DataFrame)
           (figures_path outputs_path : path)
  : list plot_call * list pdf_call :=
  let secs := sections train_df figures_path in
  let image_sections := map (fun s => (fst s, snd (snd s))) secs in
  (flat_map (fun s => fst (snd s)) secs,
   generate_pdf_report fpdf image_sections outputs_path).

(** The files a list of plotting calls saves and the files a list of PDF
    calls places. *)
Definition saved (calls : list plot_call) : list path :=
  flat_map (fun c => match c with Savefig p => [p] | _ => [] end) calls.

Definition placed (calls : list pdf_call) : list path :=
  flat_map (fun c => match c with Image p _ _ => [p] | _ => [] end) calls.

Definition pages (calls : list pdf_call) : nat :=
  List.length (filter (fun c => match c with AddPage => true | _ => false end)
                      calls).

(** Labels without a given character: a label without a slash is one
    path component. *)
Fixpoint has_char (c : ascii) (s : string) : bool :=
  match s with
  | EmptyString => false
  | String a r => Ascii.eqb a c || has_char c r
  end.

Definition plain_labels (df : DataFrame) : bool :=
  forallb (fun n => negb (has_char "/"%char n)) (names df).

(** The use a list of plotting calls makes of matplotlib's current figure,
    [open] telling whether one is open: [plt.figure] and [sns.jointplot]
    open a figure, the drawing calls, the labels and [savefig] need the one
    that is open, [close] closes it, and [corr] is a computation on the
    table.  The check fails where a figure is opened over another, where a
    call finds none, and where one is left open at the end. *)
Fixpoint figures_ok (open : bool) (calls : list plot_call) : bool :=
  match calls with
  | [] => negb open
  | (Figure _ _ | Jointplot _ _ _) :: r => negb open && figures_ok true r
  | Close :: r => open && figures_ok false r
  | Corr _ :: r => figures_ok open r
  | _ :: r => open && figures_ok open r
  end.

(** The file names of the figures, by the kind of plot. *)
Definition file_prefixes : list string :=
  ["numerical_dist_"; "categorical_dist_"; "numerical_vs_target_";
   "categorical_vs_target_"].

End Eda.

(** * Properties *)

(** ** Labels and lookups *)

Lemma mem_In (s : string) (l : list string) : mem s l = true <-> In s l.
Proof.
  induction l as [|x r IH]; simpl.
  - split; [discriminate | tauto].
  - rewrite orb_true_iff, IH, String.eqb_eq. split; intros [H|H]; auto.
Qed.

Lemma mem_false (s : string) (l : list string) : mem s l = false <-> ~ In s l.
Proof.
  rewrite <- mem_In. destruct (mem s l); split; congruence.
Qed.

Lemma nodupb_NoDup (l : list string) : nodupb l = true -> NoDup l.
Proof.
  induction l as [|x r IH]; simpl; intros H.
  - constructor.
  - apply andb_true_iff in H as [Hx Hr]. constructor; auto.
    apply negb_true_iff in Hx. now apply mem_false.
Qed.

Lemma lookup_None (n : string) (l : list (string * column)) :
  lookup n l = None <-> ~ In n (map fst l).
Proof.
  induction l as [|[m c] r IH]; simpl.
  - tauto.
  - destruct (String.eqb_spec n m) as [->|Hne].
    + split; [discriminate | tauto].
    + rewrite IH. split; [intros H [E|I]; [congruence | auto] | tauto].
Qed.

Lemma lookup_Some_In (n : string) (l : list (string * column)) (c : column) :
  lookup n l = Some c -> In (n, c) l.
Proof.
  induction l as [|[m c'] r IH]; simpl; [discriminate|].
  destruct (String.eqb_spec n m) as [->|Hne]; intros H.
  - left. congruence.
  - right. auto.
Qed.

Lemma has_col_In (df : DataFrame) (n : string) :
  has_col df n = true <-> In n (names df).
Proof.
  unfold has_col, names. destruct (lookup n (cols df)) eqn:E.
  - split; [intros _ | reflexivity].
    apply lookup_Some_In in E. now apply (in_map fst) in E.
  - apply lookup_None in E. split; [discriminate | contradiction].
Qed.

Lemma lookup_app (n : string) (l l' : list (string * column)) :
  lookup n (l ++ l') =
  match lookup n l with
  | Some c => Some c
  | None => lookup n l'
  end.
Proof.
  induction l as [|[m c] r IH]; simpl; [reflexivity|].
  destruct (String.eqb n m); auto.
Qed.

Lemma lookup_replace_same (n : string) (c : column) (l : list (string * column)) :
  lookup n (replace_col n c l) =
  match lookup n l with
  | Some _ => Some c
  | None => None
  end.
Proof.
  induction l as [|[m c'] r IH]; simpl; [reflexivity|].
  destruct (String.eqb n m) eqn:E; simpl; rewrite E; auto.
Qed.

Lemma lookup_replace_other (n n' : string) (c : column)
      (l : list (string * column)) :
  n' <> n -> lookup n' (replace_col n c l) = lookup n' l.
Proof.
  intros Hne. induction l as [|[m c'] r IH]; simpl; [reflexivity|].
  destruct (String.eqb_spec n m) as [->|Hnm]; simpl.
  - destruct (String.eqb_spec n' m); [contradiction | reflexivity].
  - destruct (String.eqb n' m); auto.
Qed.

Lemma names_replace (n : string) (c : column) (l : list (string * column)) :
  map fst (replace_col n c l) = map fst l.
Proof.
  induction l as [|[m c'] r IH]; simpl; [reflexivity|].
  destruct (String.eqb n m); simpl; congruence.
Qed.

Lemma nrows_setitem (df : DataFrame) (n : string) (c : column) :
  nrows (setitem df n c) = nrows df.
Proof. unfold setitem. now destruct (has_col df n). Qed.

Lemma lookup_setitem_same (df : DataFrame) (n : string) (c : column) :
  lookup n (cols (setitem df n c)) = Some c.
Proof.
  unfold setitem, has_col. destruct (lookup n (cols df)) eqn:E; simpl.
  - now rewrite lookup_replace_same, E.
  - rewrite lookup_app, E. simpl. now rewrite String.eqb_refl.
Qed.

Lemma lookup_setitem_other (df : DataFrame) (n n' : string) (c : column) :
  n' <> n -> lookup n' (cols (setitem df n c)) = lookup n' (cols df).
Proof.
  intros Hne. unfold setitem. destruct (has_col df n); simpl.
  - now apply lookup_replace_other.
  - rewrite lookup_app. destruct (lookup n' (cols df)); [reflexivity|].
    simpl. destruct (String.eqb_spec n' n); [contradiction | reflexivity].
Qed.

Lemma names_setitem_old (df : DataFrame) (n : string) (c : column) :
  has_col df n = true -> names (setitem df n c) = names df.
Proof.
  intros H. unfold setitem, names. rewrite H. simpl. apply names_replace.
Qed.

Lemma names_setitem_new (df : DataFrame) (n : string) (c : column) :
  has_col df n = false -> names (setitem df n c) = names df ++ [n].
Proof.
  intros H. unfold setitem, names. rewrite H. simpl. now rewrite map_app.
Qed.

Lemma lookup_remove_cols (n : string) (ls : list string)
      (l : list (string * column)) :
  lookup n (remove_cols ls l) = if mem n ls then None else lookup n l.
Proof.
  induction l as [|[m c] r IH]; simpl.
  - now destruct (mem n ls).
  - destruct (mem m ls) eqn:Em; simpl.
    + rewrite IH. destruct (String.eqb_spec n m) as [->|Hne]; [|reflexivity].
      now rewrite Em.
    + rewrite IH. destruct (String.eqb_spec n m) as [->|Hne]; [|reflexivity].
      now rewrite Em.
Qed.

Lemma names_remove_cols (ls : list string) (l : list (string * column)) :
  map fst (remove_cols ls l) = filter (fun n => negb (mem n ls)) (map fst l).
Proof.
  induction l as [|[m c] r IH]; simpl; [reflexivity|].
  destruct (mem m ls); simpl; congruence.
Qed.

Lemma getitem_Ok (df : DataFrame) (n : string) (c : column) :
  getitem df n = Ok c <-> lookup n (cols df) = Some c.
Proof.
  unfold getitem. destruct (lookup n (cols df)); split; congruence.
Qed.

(** ** The closed form of [create_features] on a raw table *)

Ltac neq_lit := let H := fresh in intro H; discriminate H.

Lemma has_dtype_lookup (p : column -> bool) (df : DataFrame) (n : string) :
  has_dtype p df n = true ->
  exists c, lookup n (cols df) = Some c /\ p c = true.
Proof.
  unfold has_dtype. destruct (lookup n (cols df)) as [c|]; [|discriminate].
  intros H. now exists c.
Qed.

Lemma has_col_lookup (df : DataFrame) (n : string) :
  has_col df n = true -> exists c, lookup n (cols df) = Some c.
Proof.
  unfold has_col. destruct (lookup n (cols df)) as [c|]; [|discriminate].
  intros _. now exists c.
Qed.

Lemma is_object_inv (c : column) :
  is_object c = true -> exists xs, c = ColObj xs.
Proof. destruct c; try discriminate. intros _. now eexists. Qed.

Lemma get_dummies_1d_obj (p : string) (xs : list obj) :
  get_dummies_1d p (ColObj xs) = Ok (block p xs).
Proof.
  unfold get_dummies_1d, block. now destruct (levels xs).
Qed.

Lemma lookup_encode_other (df : DataFrame) (c1 c2 c3 : column) (n : string) :
  mem n ordinal_cols = false ->
  lookup n (cols (encode_ordinals df c1 c2 c3)) = lookup n (cols df).
Proof.
  intros H. simpl in H. apply orb_false_iff in H as [H1 H].
  apply orb_false_iff in H as [H2 H]. apply orb_false_iff in H as [H3 _].
  apply String.eqb_neq in H1, H2, H3.
  unfold encode_ordinals. now rewrite !lookup_setitem_other.
Qed.

Lemma nrows_encode (df : DataFrame) (c1 c2 c3 : column) :
  nrows (encode_ordinals df c1 c2 c3) = nrows df.
Proof. unfold encode_ordinals. now rewrite !nrows_setitem. Qed.

Lemma prefix_append (p s : string) : String.prefix p (p ++ s) = true.
Proof.
  induction p as [|a p IH]; simpl.
  - now destruct s.
  - destruct (ascii_dec a a); [assumption | contradiction].
Qed.

Lemma append_assoc (a b c : string) : ((a ++ b) ++ c = a ++ b ++ c)%string.
Proof. induction a; simpl; congruence. Qed.

Lemma prefix_dummy_name (p l : string) :
  String.prefix (p ++ "_") (dummy_name p l) = true.
Proof.
  unfold dummy_name. rewrite <- append_assoc. apply prefix_append.
Qed.

Lemma lookup_block_prefix (p : string) (xs : list obj) (n : string) (c : column) :
  lookup n (block p xs) = Some c -> String.prefix (p ++ "_") n = true.
Proof.
  unfold block. induction (tl (levels xs)) as [|l r IH]; simpl; [discriminate|].
  destruct (String.eqb_spec n (dummy_name p l)) as [->|Hne]; [|exact IH].
  intros _. apply prefix_dummy_name.
Qed.

Lemma lookup_block_none (p : string) (xs : list obj) (n : string) :
  String.prefix (p ++ "_") n = false -> lookup n (block p xs) = None.
Proof.
  intros H. destruct (lookup n (block p xs)) eqn:E; [|reflexivity].
  apply lookup_block_prefix in E. congruence.
Qed.


Lemma lookup_one_hot_kept (df : DataFrame) (g co ia sm : list obj) (n : string)
      (c : column) :
  mem n nominal_cols = false -> lookup n (cols df) = Some c ->
  lookup n (cols (one_hot df g co ia sm)) = Some c.
Proof.
  intros Hm Hl. unfold one_hot. simpl cols.
  now rewrite lookup_app, lookup_remove_cols, Hm, Hl.
Qed.

Lemma lookup_derive_other (df : DataFrame) (q p s1 s2 : column) (n : string) :
  mem n derived_cols = false ->
  lookup n (cols (derive df q p s1 s2)) = lookup n (cols df).
Proof.
  intros H. simpl in H. apply orb_false_iff in H as [H1 H].
  apply orb_false_iff in H as [H2 H]. apply orb_false_iff in H as [H3 H].
  apply orb_false_iff in H as [H4 _].
  apply String.eqb_neq in H1, H2, H3, H4.
  unfold derive. now rewrite !lookup_setitem_other.
Qed.

Lemma nrows_derive (df : DataFrame) (q p s1 s2 : column) :
  nrows (derive df q p s1 s2) = nrows df.
Proof. unfold derive. now rewrite !nrows_setitem. Qed.

Lemma getitem_lookup (df : DataFrame) (n : string) (c : column) :
  lookup n (cols df) = Some c -> getitem df n = Ok c.
Proof. apply getitem_Ok. Qed.

Lemma add_scalar_numeric (c : column) (e : float) :
  is_numeric c = true -> exists d, add_scalar c e = Ok d /\ is_numeric d = true.
Proof. destruct c; try discriminate; intros _; eexists; split; reflexivity. Qed.

Lemma col_div_numeric (a b : column) :
  is_numeric a = true -> is_numeric b = true -> exists q, col_div a b = Ok q.
Proof.
  destruct a, b; try discriminate; intros _ _; eexists; reflexivity.
Qed.

Lemma col_mul_numeric (a b : column) :
  is_numeric a = true -> is_numeric b = true -> exists q, col_mul a b = Ok q.
Proof.
  destruct a, b; try discriminate; intros _ _; eexists; reflexivity.
Qed.

Lemma col_sq_numeric (a : column) :
  is_numeric a = true -> exists q, col_sq a = Ok q.
Proof. destruct a; try discriminate; intros _; eexists; reflexivity. Qed.

Lemma has_col_of_lookup (df : DataFrame) (n : string) (c : column) :
  lookup n (cols df) = Some c -> has_col df n = true.
Proof. unfold has_col. now intros ->. Qed.

Lemma create_features_stages (df : DataFrame) :
  raw_ok df = true ->
  exists c1 c2 c3 g co ia sm ca sh sl den q p s1 s2 out,
    stages df c1 c2 c3 g co ia sm ca sh sl den q p s1 s2 out
    /\ create_features df = Ok out.
Proof.
  intros H. unfold raw_ok in H. simpl in H.
  repeat rewrite andb_true_iff in H.
  destruct H as [[(H1 & H2 & H3 & _) (Hg & Hco & Hia & Hsm & _)]
                   (Hsh & Hca & Hsl & _)].
  apply has_col_lookup in H1 as [c1 L1], H2 as [c2 L2], H3 as [c3 L3].
  apply has_dtype_lookup in Hg as (? & Lg & [g ->]%is_object_inv).
  apply has_dtype_lookup in Hco as (? & Lco & [co ->]%is_object_inv).
  apply has_dtype_lookup in Hia as (? & Lia & [ia ->]%is_object_inv).
  apply has_dtype_lookup in Hsm as (? & Lsm & [sm ->]%is_object_inv).
  apply has_dtype_lookup in Hsh as (sh & Lsh & Nsh).
  apply has_dtype_lookup in Hca as (ca & Lca & Nca).
  apply has_dtype_lookup in Hsl as (sl & Lsl & Nsl).
  destruct (add_scalar_numeric sh eps Nsh) as (den & Eden & Nden).
  destruct (col_div_numeric ca den Nca Nden) as (q & Eq).
  destruct (col_mul_numeric sh sl Nsh Nsl) as (p & Ep).
  destruct (col_sq_numeric sh Nsh) as (s1 & Es1).
  destruct (col_sq_numeric ca Nca) as (s2 & Es2).
  exists c1, c2, c3, g, co, ia, sm, ca, sh, sl, den, q, p, s1, s2.
  eexists. split; [constructor; try eassumption; reflexivity|].
  unfold create_features.
  rewrite (getitem_lookup _ _ _ L1). cbn [bind].
  erewrite getitem_lookup
    by (rewrite ?lookup_setitem_other by neq_lit; eassumption).
  cbn [bind].
  erewrite getitem_lookup
    by (rewrite ?lookup_setitem_other by neq_lit; eassumption).
  cbn [bind].
  fold (encode_ordinals df c1 c2 c3).
  set (E := encode_ordinals df c1 c2 c3).
  assert (Eg : lookup "gender" (cols E) = Some (ColObj g))
    by (unfold E; now rewrite lookup_encode_other).
  assert (Eco : lookup "course" (cols E) = Some (ColObj co))
    by (unfold E; now rewrite lookup_encode_other).
  assert (Eia : lookup "internet_access" (cols E) = Some (ColObj ia))
    by (unfold E; now rewrite lookup_encode_other).
  assert (Esm : lookup "study_method" (cols E) = Some (ColObj sm))
    by (unfold E; now rewrite lookup_encode_other).
  unfold get_dummies, nominal_cols. cbn [filter].
  rewrite (has_col_of_lookup _ _ _ Eg), (has_col_of_lookup _ _ _ Eco),
    (has_col_of_lookup _ _ _ Eia), (has_col_of_lookup _ _ _ Esm).
  cbn [negb mapM].
  rewrite (getitem_lookup _ _ _ Eg), (getitem_lookup _ _ _ Eco),
    (getitem_lookup _ _ _ Eia), (getitem_lookup _ _ _ Esm).
  cbn [bind]. rewrite !get_dummies_1d_obj. cbn [bind List.concat].
  rewrite app_nil_r.
  fold nominal_cols. fold (one_hot E g co ia sm).
  set (D := one_hot E g co ia sm).
  assert (Dca : lookup "class_attendance" (cols D) = Some ca)
    by (apply lookup_one_hot_kept; [reflexivity|];
        unfold E; now rewrite lookup_encode_other).
  assert (Dsh : lookup "study_hours" (cols D) = Some sh)
    by (apply lookup_one_hot_kept; [reflexivity|];
        unfold E; now rewrite lookup_encode_other).
  assert (Dsl : lookup "sleep_hours" (cols D) = Some sl)
    by (apply lookup_one_hot_kept; [reflexivity|];
        unfold E; now rewrite lookup_encode_other).
  rewrite (getitem_lookup _ _ _ Dca), (getitem_lookup _ _ _ Dsh).
  cbn [bind]. rewrite Eden. cbn [bind]. rewrite Eq. cbn [bind].
  do 2 (erewrite getitem_lookup
         by (rewrite ?lookup_setitem_other by neq_lit; eassumption);
        cbn [bind]).
  rewrite Ep. cbn [bind].
  erewrite getitem_lookup
    by (rewrite ?lookup_setitem_other by neq_lit; eassumption).
  cbn [bind]. rewrite Es1. cbn [bind].
  erewrite getitem_lookup
    by (rewrite ?lookup_setitem_other by neq_lit; eassumption).
  cbn [bind]. rewrite Es2. cbn [bind].
  reflexivity.
Qed.

(** ** Ordinal encoding *)

Lemma cell_at_cells (c : column) (i : nat) :
  cell_at c i = nth_error (col_cells c) i.
Proof. destruct c; simpl; now rewrite nth_error_map. Qed.

Lemma col_len_cells (c : column) : col_len c = List.length (col_cells c).
Proof. destruct c; simpl; now rewrite length_map. Qed.

Lemma col_len_series_map (d : dict) (c : column) :
  col_len (series_map d c) = col_len c.
Proof.
  unfold series_map. rewrite (col_len_cells c).
  destruct (forallb _ _); simpl; now rewrite !length_map.
Qed.

Lemma series_map_cell (d : dict) (c : column) (i : nat) (v : cell) :
  cell_at c i = Some v ->
  match cell_code d v with
  | Some z =>
      cell_at (series_map d c) i = Some (CInt z)
      \/ cell_at (series_map d c) i = Some (CFloat (of_int64 z))
  | None => cell_at (series_map d c) i = Some (CFloat nan)
  end.
Proof.
  rewrite cell_at_cells. intros Hv. unfold series_map.
  assert (Hf : nth_error (map (cell_code d) (col_cells c)) i
               = Some (cell_code d v))
    by (now rewrite nth_error_map, Hv).
  destruct (forallb is_some (map (cell_code d) (col_cells c))) eqn:Hall.
  - rewrite forallb_forall in Hall.
    specialize (Hall _ (nth_error_In _ _ Hf)).
    destruct (cell_code d v) as [z|]; [|discriminate].
    left. simpl. now rewrite nth_error_map, Hf.
  - destruct (cell_code d v) as [z|]; [right|];
      simpl; now rewrite nth_error_map, Hf.
Qed.

Lemma lookup_encode_ordinal (df : DataFrame) (c1 c2 c3 : column)
      (n : string) (d : dict) (c : column) :
  lookup "sleep_quality" (cols df) = Some c1 ->
  lookup "facility_rating" (cols df) = Some c2 ->
  lookup "exam_difficulty" (cols df) = Some c3 ->
  In (n, d) ordinal_mappings -> lookup n (cols df) = Some c ->
  lookup n (cols (encode_ordinals df c1 c2 c3)) = Some (series_map d c).
Proof.
  intros L1 L2 L3 Hin Hl. unfold encode_ordinals.
  destruct Hin as [E|[E|[E|[]]]]; injection E as <- <-.
  - rewrite !lookup_setitem_other by neq_lit.
    rewrite lookup_setitem_same. congruence.
  - rewrite lookup_setitem_other by neq_lit.
    rewrite lookup_setitem_same. congruence.
  - rewrite lookup_setitem_same. congruence.
Qed.

Lemma stages_ordinal (df : DataFrame) (c1 c2 c3 : column) (g co ia sm : list obj)
      (ca sh sl den q p s1 s2 : column) (out : DataFrame)
      (n : string) (d : dict) (c : column) :
  stages df c1 c2 c3 g co ia sm ca sh sl den q p s1 s2 out ->
  In (n, d) ordinal_mappings -> lookup n (cols df) = Some c ->
  lookup n (cols out) = Some (series_map d c).
Proof.
  intros St Hin Hl.
  assert (Hn : In n ordinal_cols)
    by (apply (in_map fst) in Hin; exact Hin).
  destruct St as [L1 L2 L3 ? ? ? ? ? ? ? ? ? ? ? ? ->].
  rewrite lookup_derive_other
    by (destruct Hn as [<-|[<-|[<-|[]]]]; reflexivity).
  apply lookup_one_hot_kept;
    [destruct Hn as [<-|[<-|[<-|[]]]]; reflexivity|].
  now apply lookup_encode_ordinal.
Qed.

(** A cell that is a key gets the code of the dict, a cell that is none
    gets NaN. *)
Lemma series_map_key (d : dict) (c : column) (i : nat) (s : string) (z : Z) :
  cell_at c i = Some (CStr s) -> dict_get d s = Some z ->
  cell_at (series_map d c) i = Some (CInt z)
  \/ cell_at (series_map d c) i = Some (CFloat (of_int64 z)).
Proof.
  intros Hv Hd. pose proof (series_map_cell d c i _ Hv) as H.
  cbn [cell_code] in H. now rewrite Hd in H.
Qed.

Lemma series_map_no_key (d : dict) (c : column) (i : nat) (v : cell) :
  cell_at c i = Some v ->
  (forall s, v = CStr s -> dict_get d s = None) ->
  cell_at (series_map d c) i = Some (CFloat nan).
Proof.
  intros Hv Hd. pose proof (series_map_cell d c i _ Hv) as H.
  destruct v as [s| | |]; cbn [cell_code] in H; try exact H.
  now rewrite (Hd s eq_refl) in H.
Qed.

Lemma of_int64_codes :
  of_int64 0 = 0%float /\ of_int64 1 = 1%float /\ of_int64 2 = 2%float.
Proof. split; [|split]; vm_compute; reflexivity. Qed.

Lemma dict_get_three (k0 k1 k2 : string) (s : string) :
  CStr s <> CStr k0 -> CStr s <> CStr k1 -> CStr s <> CStr k2 ->
  dict_get [(k0, 0%Z); (k1, 1%Z); (k2, 2%Z)] s = None.
Proof.
  intros H0 H1 H2. cbn [dict_get].
  destruct (String.eqb s k0) eqn:E0;
    [apply String.eqb_eq in E0; congruence|].
  destruct (String.eqb s k1) eqn:E1;
    [apply String.eqb_eq in E1; congruence|].
  destruct (String.eqb s k2) eqn:E2;
    [apply String.eqb_eq in E2; congruence|].
  reflexivity.
Qed.

(** C1.  On a raw table [create_features] returns a frame in which each of
    the three ordinal columns holds, row by row, the code of the input cell:
    0 for poor, low and easy, 1 for average, medium and moderate, 2 for good,
    high and hard (as an int64, or as the same number in float64 when the
    column needs a NaN), and NaN, the missing marker, for every cell that is
    none of the three keys of its column, be it another string, a missing
    value or a number: never one of the codes, none of which is missing. *)
Theorem create_features_ordinal_codes (df : DataFrame) :
  wf df = true -> raw_ok df = true ->
  exists out,
    create_features df = Ok out
    /\ (forall n k0 k1 k2 c,
          In (n, [k0; k1; k2])
             [("sleep_quality", ["poor"; "average"; "good"]);
              ("facility_rating", ["low"; "medium"; "high"]);
              ("exam_difficulty", ["easy"; "moderate"; "hard"])] ->
          lookup n (cols df) = Some c ->
          exists c',
            lookup n (cols out) = Some c'
            /\ col_len c' = col_len c
            /\ forall i v,
                cell_at c i = Some v ->
                (v = CStr k0 ->
                 cell_at c' i = Some (CInt 0)
                 \/ cell_at c' i = Some (CFloat 0))
                /\ (v = CStr k1 ->
                    cell_at c' i = Some (CInt 1)
                    \/ cell_at c' i = Some (CFloat 1))
                /\ (v = CStr k2 ->
                    cell_at c' i = Some (CInt 2)
                    \/ cell_at c' i = Some (CFloat 2))
                /\ (v <> CStr k0 -> v <> CStr k1 -> v <> CStr k2 ->
                    cell_at c' i = Some (CFloat nan)))
    /\ is_missing (CFloat nan) = true
    /\ forallb (fun code => negb (is_missing code))
               [CInt 0; CInt 1; CInt 2; CFloat 0; CFloat 1; CFloat 2] = true.
Proof.
  intros _ Hraw.
  destruct (create_features_stages df Hraw)
    as (c1 & c2 & c3 & g & co & ia & sm & ca & sh & sl & den & q & p & s1
        & s2 & out & St & Hout).
  exists out. split; [exact Hout|]. split; [|split; reflexivity].
  destruct of_int64_codes as (F0 & F1 & F2).
  intros n k0 k1 k2 c Hin Hl.
  assert (Hd : In (n, [(k0, 0%Z); (k1, 1%Z); (k2, 2%Z)]) ordinal_mappings
               /\ k0 <> k1 /\ k0 <> k2 /\ k1 <> k2).
  { destruct Hin as [E|[E|[E|[]]]]; injection E as <- <- <- <-;
      (split; [simpl; auto|repeat split; discriminate]). }
  destruct Hd as (Hd & N01 & N02 & N12).
  exists (series_map [(k0, 0%Z); (k1, 1%Z); (k2, 2%Z)] c).
  split; [eapply stages_ordinal; eauto|].
  split; [apply col_len_series_map|].
  intros i v Hv. repeat split.
  - intros ->. rewrite <- F0. apply (series_map_key _ _ _ _ _ Hv).
    cbn [dict_get]. now rewrite String.eqb_refl.
  - intros ->. rewrite <- F1. apply (series_map_key _ _ _ _ _ Hv).
    cbn [dict_get]. apply not_eq_sym, String.eqb_neq in N01.
    now rewrite N01, String.eqb_refl.
  - intros ->. rewrite <- F2. apply (series_map_key _ _ _ _ _ Hv).
    cbn [dict_get]. apply not_eq_sym, String.eqb_neq in N02, N12.
    now rewrite N02, N12, String.eqb_refl.
  - intros H0 H1 H2. apply (series_map_no_key _ _ _ _ Hv).
    intros s ->. now apply dict_get_three.
Qed.

(** ** The categories of a nominal column *)

Lemma ascii_compare_refl (a : ascii) : Ascii.compare a a = Eq.
Proof. unfold Ascii.compare. apply N.compare_refl. Qed.

Lemma str_compare_refl (a : string) : String.compare a a = Eq.
Proof.
  induction a as [|x a IH]; simpl; [reflexivity|].
  now rewrite ascii_compare_refl.
Qed.

Lemma str_lt_irrefl (a : string) : ~ str_lt a a.
Proof. unfold str_lt. rewrite str_compare_refl. discriminate. Qed.

Lemma str_lt_trans (a b c : string) : str_lt a b -> str_lt b c -> str_lt a c.
Proof.
  unfold str_lt. revert b c.
  induction a as [|x a IH]; intros [|y b] [|z c]; simpl; try discriminate;
    auto.
  unfold Ascii.compare.
  destruct (N_of_ascii x ?= N_of_ascii y)%N eqn:Exy; try discriminate;
    destruct (N_of_ascii y ?= N_of_ascii z)%N eqn:Eyz; try discriminate;
    intros H1 H2.
  - apply N.compare_eq_iff in Exy. rewrite Exy, Eyz. eauto.
  - apply N.compare_eq_iff in Exy. now rewrite Exy, Eyz.
  - apply N.compare_eq_iff in Eyz. now rewrite <- Eyz, Exy.
  - apply N.compare_lt_iff in Exy, Eyz.
    replace (N_of_ascii x ?= N_of_ascii z)%N with Lt; [reflexivity|].
    symmetry. apply N.compare_lt_iff. eapply N.lt_trans; eassumption.
Qed.

Lemma str_gt_lt (a b : string) : String.compare a b = Gt -> str_lt b a.
Proof.
  unfold str_lt. intros H. rewrite String.compare_antisym, H. reflexivity.
Qed.

Lemma In_insert_level (x s : string) (l : list string) :
  In x (insert_level s l) <-> x = s \/ In x l.
Proof.
  induction l as [|y r IH]; simpl.
  - intuition.
  - destruct (String.compare s y) eqn:E; simpl.
    + apply String.compare_eq_iff in E. subst y. intuition.
    + intuition.
    + rewrite IH. intuition.
Qed.

Lemma insert_level_sorted (s : string) (l : list string) :
  StronglySorted str_lt l -> StronglySorted str_lt (insert_level s l).
Proof.
  induction 1 as [|y r Hr IH Hy]; simpl.
  - repeat constructor.
  - destruct (String.compare s y) eqn:E.
    + now constructor.
    + constructor; [now constructor|].
      constructor; [exact E|].
      rewrite Forall_forall in *. intros z Hz.
      apply (str_lt_trans s y z); auto.
    + constructor; [exact IH|].
      rewrite Forall_forall in *. intros z Hz.
      apply In_insert_level in Hz as [->|Hz]; [now apply str_gt_lt | auto].
Qed.

Lemma levels_sorted (xs : list obj) : StronglySorted str_lt (levels xs).
Proof.
  unfold levels. induction (observed xs) as [|s r IH]; simpl.
  - constructor.
  - now apply insert_level_sorted.
Qed.

Lemma In_observed (s : string) (xs : list obj) :
  In s (observed xs) <-> In (OStr s) xs.
Proof.
  induction xs as [|[t|] r IH]; simpl.
  - tauto.
  - rewrite IH. split; intros [H|H]; auto; left; congruence.
  - rewrite IH. split; [auto | intros [H|H]; [discriminate | auto]].
Qed.

Lemma In_levels (s : string) (xs : list obj) :
  In s (levels xs) <-> In (OStr s) xs.
Proof.
  rewrite <- In_observed. unfold levels.
  induction (observed xs) as [|t r IH]; simpl; [tauto|].
  rewrite In_insert_level, IH. intuition.
Qed.

Lemma sorted_NoDup (l : list string) : StronglySorted str_lt l -> NoDup l.
Proof.
  induction 1 as [|y r Hr IH Hy]; constructor; auto.
  intros Hin. rewrite Forall_forall in Hy.
  exact (str_lt_irrefl y (Hy y Hin)).
Qed.

Lemma levels_NoDup (xs : list obj) : NoDup (levels xs).
Proof. apply sorted_NoDup, levels_sorted. Qed.

(** The dropped category is the lexically first of the observed ones. *)
Lemma baseline_first (xs : list obj) (b : string) :
  baseline xs = Some b ->
  In (OStr b) xs /\ forall s, In (OStr s) xs -> s = b \/ str_lt b s.
Proof.
  unfold baseline. intros Hb.
  pose proof (levels_sorted xs) as Hs.
  assert (Hin : forall s, In s (levels xs) <-> In (OStr s) xs)
    by (intros s; apply In_levels).
  destruct (levels xs) as [|b' r]; [discriminate|].
  injection Hb as ->. split.
  - apply Hin. now left.
  - intros s Hs'. apply Hin in Hs' as [->|Hr]; [now left|].
    right. inversion Hs as [|? ? _ Hall]; subst.
    rewrite Forall_forall in Hall. auto.
Qed.

Lemma baseline_None (xs : list obj) :
  baseline xs = None -> forall s, ~ In (OStr s) xs.
Proof.
  unfold baseline. intros Hb s Hs. apply In_levels in Hs.
  destruct (levels xs); [contradiction | discriminate].
Qed.

(** The indicators are those of the observed categories but the baseline. *)
Lemma In_tl_levels (xs : list obj) (l : string) :
  In l (tl (levels xs)) <-> In (OStr l) xs /\ baseline xs <> Some l.
Proof.
  unfold baseline. rewrite <- In_levels.
  pose proof (levels_NoDup xs) as Hn.
  destruct (levels xs) as [|b r]; simpl.
  - tauto.
  - inversion Hn as [|? ? Hb Hr]; subst. split.
    + intros Hl. split; [now right|]. intros E. injection E as ->. auto.
    + intros [[->|Hl] Hne]; [congruence | exact Hl].
Qed.

Lemma obj_is_true (l : string) (o : obj) : obj_is l o = true <-> o = OStr l.
Proof.
  destruct o as [s|]; simpl.
  - rewrite String.eqb_eq. split; congruence.
  - split; discriminate.
Qed.

(** A row has no indicator set exactly when its cell is missing or holds the
    baseline. *)
Lemma all_indicators_false (xs : list obj) (o : obj) :
  In o xs ->
  (forall l, In l (tl (levels xs)) -> obj_is l o = false)
  <-> (o = ONaN \/ exists b, baseline xs = Some b /\ o = OStr b).
Proof.
  intros Ho. split.
  - intros Hall. destruct o as [s|]; [right | now left].
    destruct (baseline xs) as [b|] eqn:Hb.
    + exists b. split; [reflexivity|].
      destruct (String.eqb_spec s b) as [->|Hne]; [reflexivity|].
      assert (Hs : In s (tl (levels xs)))
        by (apply In_tl_levels; split; [exact Ho | congruence]).
      specialize (Hall s Hs). simpl in Hall. rewrite String.eqb_refl in Hall.
      discriminate.
    + exfalso. exact (baseline_None xs Hb s Ho).
  - intros [->|(b & Hb & ->)] l Hl; [reflexivity|].
    apply In_tl_levels in Hl as [_ Hne]. simpl.
    apply String.eqb_neq. congruence.
Qed.

(** ** The labels of the result *)

Lemma has_col_setitem (df : DataFrame) (n n' : string) (c : column) :
  has_col (setitem df n c) n' = (String.eqb n' n || has_col df n').
Proof.
  unfold has_col at 1. destruct (String.eqb_spec n' n) as [->|Hne]; simpl.
  - now rewrite lookup_setitem_same.
  - now rewrite lookup_setitem_other.
Qed.

Lemma names_encode (df : DataFrame) (c1 c2 c3 : column) :
  has_col df "sleep_quality" = true ->
  has_col df "facility_rating" = true ->
  has_col df "exam_difficulty" = true ->
  names (encode_ordinals df c1 c2 c3) = names df.
Proof.
  intros H1 H2 H3. unfold encode_ordinals.
  rewrite !names_setitem_old; auto; rewrite ?has_col_setitem;
    rewrite ?H2, ?H3; now rewrite ?orb_true_r.
Qed.

Lemma names_block (p : string) (xs : list obj) :
  map fst (block p xs) = map (dummy_name p) (tl (levels xs)).
Proof. unfold block. now rewrite map_map. Qed.

Lemma names_one_hot (df : DataFrame) (g co ia sm : list obj) :
  names (one_hot df g co ia sm) =
  filter (fun n => negb (mem n nominal_cols)) (names df)
  ++ map (dummy_name "gender") (tl (levels g))
  ++ map (dummy_name "course") (tl (levels co))
  ++ map (dummy_name "internet_access") (tl (levels ia))
  ++ map (dummy_name "study_method") (tl (levels sm)).
Proof.
  unfold one_hot, names. simpl cols.
  now rewrite !map_app, names_remove_cols, !names_block.
Qed.

Lemma names_derive (df : DataFrame) (q p s1 s2 : column) :
  (forall n, In n derived_cols -> has_col df n = false) ->
  names (derive df q p s1 s2) = names df ++ derived_cols.
Proof.
  intros H. unfold derive.
  rewrite !names_setitem_new; rewrite ?has_col_setitem.
  - now rewrite <- !app_assoc.
  - apply H. simpl. tauto.
  - rewrite H by (simpl; tauto). reflexivity.
  - rewrite H by (simpl; tauto). reflexivity.
  - rewrite H by (simpl; tauto). reflexivity.
Qed.

Lemma fresh_labels_spec (df : DataFrame) (n : string) :
  fresh_labels df = true -> In n (names df) ->
  starts_with_nominal n = false /\ mem n derived_cols = false.
Proof.
  unfold fresh_labels. rewrite forallb_forall. intros H Hn.
  specialize (H n Hn). apply andb_true_iff in H as [H1 H2].
  now rewrite negb_true_iff in H1, H2.
Qed.

Lemma fresh_no_dummy (df : DataFrame) (n : string) :
  fresh_labels df = true -> starts_with_nominal n = true ->
  lookup n (cols df) = None.
Proof.
  intros Hf Hn. apply lookup_None. intros Hin.
  destruct (fresh_labels_spec df n Hf Hin). congruence.
Qed.


Lemma lookup_one_hot_no_prefix (df : DataFrame) (g co ia sm : list obj)
      (n : string) :
  starts_with_nominal n = false ->
  lookup n (cols (one_hot df g co ia sm)) =
  if mem n nominal_cols then None else lookup n (cols df).
Proof.
  intros Hs. unfold one_hot. simpl cols.
  rewrite lookup_app, lookup_remove_cols.
  unfold starts_with_nominal in Hs. simpl in Hs.
  apply orb_false_iff in Hs as [H1 Hs]. apply orb_false_iff in Hs as [H2 Hs].
  apply orb_false_iff in Hs as [H3 Hs]. apply orb_false_iff in Hs as [H4 _].
  rewrite !lookup_app.
  rewrite (lookup_block_none "gender"), (lookup_block_none "course"),
    (lookup_block_none "internet_access"), (lookup_block_none "study_method");
    auto.
  destruct (mem n nominal_cols); [reflexivity|].
  now destruct (lookup n (cols df)).
Qed.

Lemma dummy_name_inj (p l l' : string) :
  dummy_name p l = dummy_name p l' -> l = l'.
Proof.
  unfold dummy_name. induction p as [|a p IH]; simpl; intros H.
  - now injection H.
  - injection H as H. auto.
Qed.

Lemma lookup_block_same (p : string) (xs : list obj) (l : string) :
  In l (tl (levels xs)) ->
  lookup (dummy_name p l) (block p xs) = Some (indicator l xs).
Proof.
  unfold block. induction (tl (levels xs)) as [|l0 r IH]; simpl; [tauto|].
  intros Hin.
  destruct (String.eqb_spec (dummy_name p l) (dummy_name p l0)) as [E|Hne].
  - apply dummy_name_inj in E. now subst.
  - destruct Hin as [->|Hin]; [contradiction | auto].
Qed.

Lemma starts_dummy_name (p l : string) :
  In p nominal_cols -> starts_with_nominal (dummy_name p l) = true.
Proof.
  intros Hp. unfold starts_with_nominal. apply existsb_exists.
  exists p. split; [exact Hp | apply prefix_dummy_name].
Qed.

Lemma lookup_dummy_one_hot (df : DataFrame) (g co ia sm : list obj)
      (p : string) (xs : list obj) (l : string) :
  In (p, xs)
     [("gender", g); ("course", co); ("internet_access", ia);
      ("study_method", sm)] ->
  (forall n, starts_with_nominal n = true -> lookup n (cols df) = None) ->
  In l (tl (levels xs)) ->
  lookup (dummy_name p l) (cols (one_hot df g co ia sm))
  = Some (indicator l xs).
Proof.
  intros Hp Hfresh Hl.
  assert (Hn : In p nominal_cols)
    by (apply (in_map fst) in Hp; exact Hp).
  unfold one_hot. simpl cols.
  rewrite lookup_app, lookup_remove_cols,
    (Hfresh _ (starts_dummy_name p l Hn)).
  replace (if mem (dummy_name p l) nominal_cols then None else None)
    with (@None column) by (now destruct (mem _ _)).
  rewrite !lookup_app.
  destruct Hp as [E|[E|[E|[E|[]]]]]; injection E as <- <-.
  - now rewrite lookup_block_same.
  - rewrite (lookup_block_none "gender") by reflexivity.
    now rewrite lookup_block_same.
  - rewrite (lookup_block_none "gender"), (lookup_block_none "course")
      by reflexivity.
    now rewrite lookup_block_same.
  - rewrite (lookup_block_none "gender"), (lookup_block_none "course"),
      (lookup_block_none "internet_access") by reflexivity.
    now rewrite lookup_block_same.
Qed.

Lemma stages_nominal (df : DataFrame) (c1 c2 c3 : column) (g co ia sm : list obj)
      (ca sh sl den q p s1 s2 : column) (out : DataFrame) (n : string)
      (xs : list obj) :
  stages df c1 c2 c3 g co ia sm ca sh sl den q p s1 s2 out ->
  In n nominal_cols -> lookup n (cols df) = Some (ColObj xs) ->
  In (n, xs)
     [("gender", g); ("course", co); ("internet_access", ia);
      ("study_method", sm)].
Proof.
  intros St Hn Hl. destruct St. simpl.
  destruct Hn as [<-|[<-|[<-|[<-|[]]]]].
  - left. congruence.
  - right. left. congruence.
  - right. right. left. congruence.
  - right. right. right. left. congruence.
Qed.

Lemma no_derived_lookup (df : DataFrame) (n : string) :
  no_derived_labels df = true -> In n derived_cols ->
  lookup n (cols df) = None.
Proof.
  unfold no_derived_labels. rewrite forallb_forall. intros H Hn.
  apply lookup_None. intros Hin. specialize (H n Hin).
  apply negb_true_iff in H. apply mem_In in Hn. congruence.
Qed.

Lemma fresh_no_derived_labels (df : DataFrame) :
  fresh_labels df = true -> no_derived_labels df = true.
Proof.
  unfold fresh_labels, no_derived_labels. rewrite !forallb_forall.
  intros H n Hn. specialize (H n Hn). now apply andb_true_iff in H as [_ H].
Qed.

Lemma stages_has_derived (df : DataFrame) (c1 c2 c3 : column)
      (g co ia sm : list obj) (n : string) :
  no_derived_labels df = true -> In n derived_cols ->
  has_col (one_hot (encode_ordinals df c1 c2 c3) g co ia sm) n = false.
Proof.
  intros Hf Hn. unfold has_col.
  rewrite lookup_one_hot_no_prefix
    by (destruct Hn as [<-|[<-|[<-|[<-|[]]]]]; reflexivity).
  replace (mem n nominal_cols) with false
    by (destruct Hn as [<-|[<-|[<-|[<-|[]]]]]; reflexivity).
  rewrite lookup_encode_other
    by (destruct Hn as [<-|[<-|[<-|[<-|[]]]]]; reflexivity).
  now rewrite (no_derived_lookup df n Hf Hn).
Qed.

Lemma stages_names (df : DataFrame) (c1 c2 c3 : column) (g co ia sm : list obj)
      (ca sh sl den q p s1 s2 : column) (out : DataFrame) :
  stages df c1 c2 c3 g co ia sm ca sh sl den q p s1 s2 out ->
  no_derived_labels df = true ->
  names out =
  filter (fun n => negb (mem n nominal_cols)) (names df)
  ++ flat_map (dummy_labels df) nominal_cols ++ derived_cols.
Proof.
  intros St Hf. destruct St. subst out.
  rewrite names_derive by (intros n Hn; now apply stages_has_derived).
  rewrite names_one_hot, names_encode by (eapply has_col_of_lookup; eauto).
  unfold dummy_labels, nominal_cols, flat_map.
  rewrite st_lg0, st_lco0, st_lia0, st_lsm0.
  now rewrite app_nil_r, <- !app_assoc.
Qed.

Lemma filter_map_none {A B : Type} (f : B -> bool) (g : A -> B) (l : list A) :
  (forall a, f (g a) = false) -> filter f (map g l) = [].
Proof.
  intros H. induction l as [|a r IH]; simpl; [reflexivity|].
  now rewrite H.
Qed.

Lemma filter_map_all {A B : Type} (f : B -> bool) (g : A -> B) (l : list A) :
  (forall a, f (g a) = true) -> filter f (map g l) = map g l.
Proof.
  intros H. induction l as [|a r IH]; simpl; [reflexivity|].
  rewrite H. congruence.
Qed.

Lemma filter_none {A : Type} (f : A -> bool) (l : list A) :
  (forall a, In a l -> f a = false) -> filter f l = [].
Proof.
  intros H. induction l as [|a r IH]; simpl; [reflexivity|].
  rewrite H by (now left). apply IH. intros; apply H. now right.
Qed.

Lemma no_prefix_of_fresh (p n : string) :
  In p nominal_cols -> starts_with_nominal n = false ->
  String.prefix (p ++ "_") n = false.
Proof.
  intros Hp Hs. destruct (String.prefix (p ++ "_") n) eqn:E; [|reflexivity].
  assert (starts_with_nominal n = true); [|congruence].
  apply existsb_exists. now exists p.
Qed.

Lemma stages_dummy_labels_exact (df : DataFrame) (c1 c2 c3 : column)
      (g co ia sm : list obj) (ca sh sl den q p s1 s2 : column)
      (out : DataFrame) (n : string) :
  stages df c1 c2 c3 g co ia sm ca sh sl den q p s1 s2 out ->
  fresh_labels df = true -> In n nominal_cols ->
  filter (String.prefix (n ++ "_")) (names out) = dummy_labels df n.
Proof.
  intros St Hf Hn.
  rewrite (stages_names _ _ _ _ _ _ _ _ _ _ _ _ _ _ _ _ _ St
                        (fresh_no_derived_labels _ Hf)).
  rewrite filter_app.
  rewrite (filter_none _ (filter _ (names df))).
  2:{ intros a Ha. apply filter_In in Ha as [Ha _].
      apply no_prefix_of_fresh; [exact Hn|].
      now destruct (fresh_labels_spec df a Hf Ha). }
  destruct St. unfold dummy_labels, nominal_cols, flat_map.
  rewrite st_lg0, st_lco0, st_lia0, st_lsm0. rewrite app_nil_r.
  rewrite !filter_app. simpl app at 1.
  destruct Hn as [<-|[<-|[<-|[<-|[]]]]].
  - rewrite st_lg0.
    rewrite (filter_map_all _ (dummy_name "gender"))
      by (intros; apply prefix_dummy_name).
    rewrite !filter_map_none by reflexivity.
    now rewrite !app_nil_r.
  - rewrite st_lco0.
    rewrite (filter_map_all _ (dummy_name "course"))
      by (intros; apply prefix_dummy_name).
    rewrite !filter_map_none by reflexivity.
    now rewrite !app_nil_r.
  - rewrite st_lia0.
    rewrite (filter_map_all _ (dummy_name "internet_access"))
      by (intros; apply prefix_dummy_name).
    rewrite !filter_map_none by reflexivity.
    now rewrite !app_nil_r.
  - rewrite st_lsm0.
    rewrite (filter_map_all _ (dummy_name "study_method"))
      by (intros; apply prefix_dummy_name).
    rewrite !filter_map_none by reflexivity.
    now rewrite !app_nil_r.
Qed.

(** ** One-hot encoding *)

Lemma indicator_cell (l : string) (xs : list obj) (i : nat) (o : obj) :
  nth_error xs i = Some o ->
  cell_at (indicator l xs) i = Some (CBool (obj_is l o)).
Proof. intros H. simpl. now rewrite nth_error_map, H. Qed.

Lemma length_tl {A : Type} (l : list A) :
  List.length (tl l) = List.length l - 1.
Proof. destruct l; simpl; lia. Qed.

(** C2, as the code has it.  On a raw table whose labels do not collide with
    the generated ones, each nominal column with [k] observed categories is
    taken out and [k - 1] bool indicator columns are added for it (none when
    no category is observed), one per observed category but the lexically
    first, labelled column, underscore, category.  In every row at most one
    of them is set; none is set exactly when the cell holds the dropped
    category or is missing. *)
Theorem create_features_one_hot (df : DataFrame) :
  wf df = true -> raw_ok df = true -> fresh_labels df = true ->
  exists out,
    create_features df = Ok out
    /\ names out =
       filter (fun n => negb (mem n nominal_cols)) (names df)
       ++ flat_map (dummy_labels df) nominal_cols ++ derived_cols
    /\ forall p xs,
        In p nominal_cols -> lookup p (cols df) = Some (ColObj xs) ->
        has_col out p = false
        /\ filter (String.prefix (p ++ "_")) (names out)
           = map (dummy_name p) (tl (levels xs))
        /\ List.length (tl (levels xs)) = List.length (levels xs) - 1
        /\ StronglySorted str_lt (levels xs)
        /\ (forall s, In s (levels xs) <-> In (OStr s) xs)
        /\ (forall l, In l (tl (levels xs))
                      <-> In (OStr l) xs /\ baseline xs <> Some l)
        /\ (forall b, baseline xs = Some b ->
                      In (OStr b) xs
                      /\ forall s, In (OStr s) xs -> s = b \/ str_lt b s)
        /\ (forall l, In l (tl (levels xs)) ->
                      lookup (dummy_name p l) (cols out)
                      = Some (indicator l xs))
        /\ forall i o,
            nth_error xs i = Some o ->
            (forall l, cell_at (indicator l xs) i = Some (CBool (obj_is l o)))
            /\ (forall l l', obj_is l o = true -> obj_is l' o = true -> l = l')
            /\ ((forall l, In l (tl (levels xs)) -> obj_is l o = false)
                <-> (o = ONaN
                     \/ exists b, baseline xs = Some b /\ o = OStr b)).
Proof.
  intros _ Hraw Hf.
  destruct (create_features_stages df Hraw)
    as (c1 & c2 & c3 & g & co & ia & sm & ca & sh & sl & den & q & r & s1
        & s2 & out & St & Hout).
  exists out. split; [exact Hout|].
  split; [exact (stages_names _ _ _ _ _ _ _ _ _ _ _ _ _ _ _ _ _ St
                               (fresh_no_derived_labels _ Hf))|].
  intros p xs Hp Hl.
  pose proof (stages_nominal _ _ _ _ _ _ _ _ _ _ _ _ _ _ _ _ _ _ _ St Hp Hl)
    as Hpx.
  pose proof (stages_dummy_labels_exact _ _ _ _ _ _ _ _ _ _ _ _ _ _ _ _ _ p
                St Hf Hp) as Hex.
  unfold dummy_labels in Hex. rewrite Hl in Hex.
  destruct St as [? ? ? ? ? ? ? ? ? ? ? ? ? ? ? ->].
  repeat split.
  - unfold has_col.
    rewrite lookup_derive_other
      by (destruct Hp as [<-|[<-|[<-|[<-|[]]]]]; reflexivity).
    rewrite lookup_one_hot_no_prefix
      by (destruct Hp as [<-|[<-|[<-|[<-|[]]]]]; reflexivity).
    apply mem_In in Hp. now rewrite Hp.
  - exact Hex.
  - apply length_tl.
  - apply levels_sorted.
  - apply In_levels.
  - apply In_levels.
  - now apply In_tl_levels.
  - now apply In_tl_levels.
  - intros [H1 H2]. now apply In_tl_levels.
  - now apply baseline_first.
  - now apply baseline_first.
  - intros l Hin.
    rewrite lookup_derive_other
      by (destruct Hp as [<-|[<-|[<-|[<-|[]]]]]; reflexivity).
    apply lookup_dummy_one_hot; auto.
    intros n Hn. rewrite lookup_encode_other.
    + now apply fresh_no_dummy.
    + destruct (mem n ordinal_cols) eqn:Em; [|reflexivity].
      apply mem_In in Em.
      destruct Em as [<-|[<-|[<-|[]]]]; discriminate Hn.
  - intros l. now apply indicator_cell.
  - intros l l' H1 H2. apply obj_is_true in H1, H2. congruence.
  - apply all_indicators_false. eapply nth_error_In; eauto.
  - apply all_indicators_false. eapply nth_error_In; eauto.
Qed.

(** ** Derived columns *)

Lemma nth_error_zip_with {A B C : Type} (f : A -> B -> C) (l : list A)
      (l' : list B) (i : nat) (a : A) (b : B) :
  nth_error l i = Some a -> nth_error l' i = Some b ->
  nth_error (zip_with f l l') i = Some (f a b).
Proof.
  revert l' i. induction l as [|x r IH]; intros [|y r'] [|i]; simpl;
    try discriminate; [congruence | auto].
Qed.

Lemma as_floats_cell (c : column) (xs : list float) (i : nat) (a : cell) :
  as_floats c = Some xs -> cell_at c i = Some a ->
  exists x, as_float a = Some x /\ nth_error xs i = Some x.
Proof.
  destruct c as [os|zs|fs|bs]; simpl; try discriminate;
    intros E; injection E as <-.
  - rewrite nth_error_map. destruct (nth_error zs i) as [z|]; [|discriminate].
    simpl. intros E. injection E as <-. now eexists.
  - destruct (nth_error fs i) as [f|]; [|discriminate].
    simpl. intros E. injection E as <-. now eexists.
Qed.

Lemma add_scalar_cell (c : column) (e : float) (d : column) (i : nat) (h : cell) :
  add_scalar c e = Ok d -> cell_at c i = Some h ->
  exists y, as_float h = Some y /\ cell_at d i = Some (CFloat (y + e)).
Proof.
  destruct c as [os|zs|fs|bs]; simpl; try discriminate;
    intros E; injection E as <-; simpl; rewrite nth_error_map.
  - destruct (nth_error zs i) as [z|]; [|discriminate].
    simpl. intros E. injection E as <-. now eexists.
  - destruct (nth_error fs i) as [f|]; [|discriminate].
    simpl. intros E. injection E as <-. now eexists.
Qed.

Lemma col_div_cell (a b q : column) (i : nat) (va vb : cell) :
  col_div a b = Ok q -> cell_at a i = Some va -> cell_at b i = Some vb ->
  exists x y, as_float va = Some x /\ as_float vb = Some y
              /\ cell_at q i = Some (CFloat (x / y)).
Proof.
  unfold col_div.
  destruct (as_floats a) as [xs|] eqn:Ea; [|discriminate].
  destruct (as_floats b) as [ys|] eqn:Eb; [|discriminate].
  intros E Ha Hb. injection E as <-.
  destruct (as_floats_cell a xs i va Ea Ha) as (x & Hx & Nx).
  destruct (as_floats_cell b ys i vb Eb Hb) as (y & Hy & Ny).
  exists x, y. repeat split; auto. simpl.
  now rewrite (nth_error_zip_with _ _ _ _ _ _ Nx Ny).
Qed.



Lemma lookup_derive (df : DataFrame) (q p s1 s2 : column) :
  lookup "study_efficiency" (cols (derive df q p s1 s2)) = Some q
  /\ lookup "study_sleep_interaction" (cols (derive df q p s1 s2)) = Some p
  /\ lookup "study_hours_sq" (cols (derive df q p s1 s2)) = Some s1
  /\ lookup "class_attendance_sq" (cols (derive df q p s1 s2)) = Some s2.
Proof.
  unfold derive. repeat split.
  - rewrite !lookup_setitem_other by neq_lit. apply lookup_setitem_same.
  - rewrite !lookup_setitem_other by neq_lit. apply lookup_setitem_same.
  - rewrite !lookup_setitem_other by neq_lit. apply lookup_setitem_same.
  - apply lookup_setitem_same.
Qed.



(** ** Rows and the columns that are carried along *)

Lemma wf_lens (df : DataFrame) : wf df = true -> lens_ok df.
Proof.
  unfold wf. intros H. apply andb_true_iff in H as [_ H].
  rewrite forallb_forall in H. intros n c Hin.
  specialize (H _ Hin). simpl in H. now apply Nat.eqb_eq.
Qed.

Lemma lens_lookup (df : DataFrame) (n : string) (c : column) :
  lens_ok df -> lookup n (cols df) = Some c -> col_len c = nrows df.
Proof. intros H Hl. apply (H n). now apply lookup_Some_In. Qed.

Lemma In_replace_col (n : string) (c : column) (l : list (string * column))
      (x : string * column) :
  In x (replace_col n c l) -> x = (n, c) \/ In x l.
Proof.
  induction l as [|[m c'] r IH]; simpl; [tauto|].
  destruct (String.eqb_spec n m) as [->|Hne]; simpl; intuition.
Qed.

Lemma lens_setitem (df : DataFrame) (n : string) (c : column) :
  lens_ok df -> col_len c = nrows df -> lens_ok (setitem df n c).
Proof.
  intros H Hc m c' Hin. rewrite nrows_setitem.
  unfold setitem in Hin. destruct (has_col df n); simpl in Hin.
  - apply In_replace_col in Hin as [E|Hin]; [congruence | eauto].
  - apply in_app_or in Hin as [Hin|[E|[]]]; [eauto | congruence].
Qed.

Lemma lens_encode (df : DataFrame) (c1 c2 c3 : column) :
  lens_ok df ->
  col_len c1 = nrows df -> col_len c2 = nrows df -> col_len c3 = nrows df ->
  lens_ok (encode_ordinals df c1 c2 c3).
Proof.
  intros H H1 H2 H3. unfold encode_ordinals.
  repeat apply lens_setitem; auto;
    rewrite ?nrows_setitem, col_len_series_map; assumption.
Qed.

Lemma lens_block (p : string) (xs : list obj) (n : string) (c : column) :
  In (n, c) (block p xs) -> col_len c = List.length xs.
Proof.
  unfold block. intros Hin. apply in_map_iff in Hin as (l & E & _).
  injection E as _ <-. simpl. apply length_map.
Qed.

Lemma lens_one_hot (df : DataFrame) (g co ia sm : list obj) :
  lens_ok df ->
  List.length g = nrows df -> List.length co = nrows df ->
  List.length ia = nrows df -> List.length sm = nrows df ->
  lens_ok (one_hot df g co ia sm).
Proof.
  intros H Hg Hco Hia Hsm n c Hin. unfold one_hot in *. simpl in *.
  repeat (apply in_app_or in Hin as [Hin|Hin]).
  - apply filter_In in Hin as [Hin _]. eauto.
  - apply lens_block in Hin. congruence.
  - apply lens_block in Hin. congruence.
  - apply lens_block in Hin. congruence.
  - apply lens_block in Hin. congruence.
Qed.

Lemma lens_derive (df : DataFrame) (q p s1 s2 : column) :
  lens_ok df ->
  col_len q = nrows df -> col_len p = nrows df ->
  col_len s1 = nrows df -> col_len s2 = nrows df ->
  lens_ok (derive df q p s1 s2).
Proof.
  intros H H1 H2 H3 H4. unfold derive.
  repeat apply lens_setitem; auto; rewrite ?nrows_setitem; assumption.
Qed.

Lemma length_zip_with {A B C : Type} (f : A -> B -> C) (l : list A)
      (l' : list B) :
  List.length (zip_with f l l') = Nat.min (List.length l) (List.length l').
Proof.
  revert l'. induction l as [|a r IH]; intros [|b r']; simpl; auto.
Qed.

Lemma as_floats_len (c : column) (xs : list float) :
  as_floats c = Some xs -> List.length xs = col_len c.
Proof.
  destruct c; simpl; try discriminate; intros E; injection E as <-;
    now rewrite ?length_map.
Qed.

Lemma col_len_add_scalar (c d : column) (e : float) :
  add_scalar c e = Ok d -> col_len d = col_len c.
Proof.
  destruct c; simpl; try discriminate; intros E; injection E as <-;
    simpl; apply length_map.
Qed.

Lemma col_len_div (a b q : column) :
  col_div a b = Ok q -> col_len q = Nat.min (col_len a) (col_len b).
Proof.
  unfold col_div.
  destruct (as_floats a) as [xs|] eqn:Ea; [|discriminate].
  destruct (as_floats b) as [ys|] eqn:Eb; [|discriminate].
  intros E. injection E as <-. simpl.
  now rewrite length_zip_with, (as_floats_len _ _ Ea), (as_floats_len _ _ Eb).
Qed.

Lemma col_len_mul (a b q : column) :
  col_mul a b = Ok q -> col_len q = Nat.min (col_len a) (col_len b).
Proof.
  destruct a as [os|xs|xs|bs], b as [os'|ys|ys|bs']; simpl;
    try discriminate; intros E; injection E as <-; simpl;
    now rewrite length_zip_with, ?length_map.
Qed.

Lemma col_len_sq (a q : column) : col_sq a = Ok q -> col_len q = col_len a.
Proof.
  destruct a; simpl; try discriminate; intros E; injection E as <-;
    simpl; apply length_map.
Qed.

Lemma stages_rows (df : DataFrame) (c1 c2 c3 : column) (g co ia sm : list obj)
      (ca sh sl den q p s1 s2 : column) (out : DataFrame) :
  stages df c1 c2 c3 g co ia sm ca sh sl den q p s1 s2 out ->
  lens_ok df -> nrows out = nrows df /\ lens_ok out.
Proof.
  intros St Hl. destruct St as [L1 L2 L3 Lg Lco Lia Lsm Lca Lsh Lsl
                                  Hden Hq Hp Hs1 Hs2 ->].
  pose proof (lens_lookup _ _ _ Hl L1) as N1.
  pose proof (lens_lookup _ _ _ Hl L2) as N2.
  pose proof (lens_lookup _ _ _ Hl L3) as N3.
  pose proof (lens_lookup _ _ _ Hl Lg) as Ng.
  pose proof (lens_lookup _ _ _ Hl Lco) as Nco.
  pose proof (lens_lookup _ _ _ Hl Lia) as Nia.
  pose proof (lens_lookup _ _ _ Hl Lsm) as Nsm.
  pose proof (lens_lookup _ _ _ Hl Lca) as Nca.
  pose proof (lens_lookup _ _ _ Hl Lsh) as Nsh.
  pose proof (lens_lookup _ _ _ Hl Lsl) as Nsl.
  simpl in Ng, Nco, Nia, Nsm.
  apply col_len_add_scalar in Hden. apply col_len_div in Hq.
  apply col_len_mul in Hp. apply col_len_sq in Hs1, Hs2.
  split.
  - rewrite nrows_derive. simpl. apply nrows_encode.
  - apply lens_derive.
    + apply lens_one_hot; rewrite ?nrows_encode; auto.
      now apply lens_encode.
    + simpl. rewrite nrows_encode. lia.
    + simpl. rewrite nrows_encode. lia.
    + simpl. rewrite nrows_encode. lia.
    + simpl. rewrite nrows_encode. lia.
Qed.

Lemma stages_passthrough (df : DataFrame) (c1 c2 c3 : column)
      (g co ia sm : list obj) (ca sh sl den q p s1 s2 : column)
      (out : DataFrame) (n : string) (c : column) :
  stages df c1 c2 c3 g co ia sm ca sh sl den q p s1 s2 out ->
  mem n written_cols = false -> lookup n (cols df) = Some c ->
  lookup n (cols out) = Some c.
Proof.
  intros St Hm Hl. destruct St as [? ? ? ? ? ? ? ? ? ? ? ? ? ? ? ->].
  assert (Hmem : mem n ordinal_cols = false /\ mem n nominal_cols = false
                 /\ mem n derived_cols = false).
  { unfold written_cols in Hm. repeat split; apply mem_false; intros Hin;
      apply mem_false in Hm; apply Hm; rewrite !in_app_iff; tauto. }
  destruct Hmem as (Ho & Hn & Hd).
  rewrite lookup_derive_other by exact Hd.
  apply lookup_one_hot_kept; [exact Hn|].
  now rewrite lookup_encode_other.
Qed.

(** C9, as the code has it.  Every column of a raw table that is neither a
    source column nor labelled like one of the four derived columns is in the
    result under its label with the very same cells. *)
Theorem create_features_extra_columns (df : DataFrame) :
  wf df = true -> raw_ok df = true ->
  exists out,
    create_features df = Ok out
    /\ forall n c,
        lookup n (cols df) = Some c ->
        mem n source_cols = false -> mem n derived_cols = false ->
        lookup n (cols out) = Some c.
Proof.
  intros _ Hraw.
  destruct (create_features_stages df Hraw)
    as (c1 & c2 & c3 & g & co & ia & sm & ca & sh & sl & den & q & p & s1
        & s2 & out & St & Hout).
  exists out. split; [exact Hout|].
  intros n c Hl Hs Hd.
  apply (stages_passthrough _ _ _ _ _ _ _ _ _ _ _ _ _ _ _ _ _ _ _ St);
    [|exact Hl].
  apply mem_false. apply mem_false in Hs, Hd. intros Hin.
  unfold written_cols in Hin. unfold source_cols in Hs.
  rewrite !in_app_iff in *. tauto.
Qed.

(** ** Concatenation and slicing *)

Lemma mapM_labelled (g : string -> result column) (l : list string)
      (r : list (string * column)) :
  mapM (fun n => c <- g n ;; Ok (n, c)) l = Ok r ->
  map fst r = l
  /\ forall n, lookup n r =
               if mem n l
               then match g n with Ok c => Some c | Err _ => None end
               else None.
Proof.
  revert r. induction l as [|a l IH]; simpl; intros r H.
  - injection H as <-. split; [reflexivity | intros; reflexivity].
  - destruct (g a) as [c|e] eqn:Ga; [|discriminate]. cbn [bind] in H.
    destruct (mapM _ l) as [r'|e]; [|discriminate]. cbn [bind] in H.
    injection H as <-. destruct (IH r' eq_refl) as [Hn Hl]. split.
    + simpl. congruence.
    + intros n. simpl. destruct (String.eqb_spec n a) as [->|Hne]; simpl.
      * now rewrite Ga.
      * apply Hl.
Qed.

Lemma mapM_total {A B : Type} (f : A -> result B) (l : list A) :
  (forall a, In a l -> exists b, f a = Ok b) -> exists r, mapM f l = Ok r.
Proof.
  induction l as [|a l IH]; simpl; intros H.
  - now eexists.
  - destruct (H a (or_introl eq_refl)) as [b ->].
    destruct IH as [r ->]; [intros; apply H; now right|].
    now eexists.
Qed.

Lemma schema_names (l l' : list (string * column)) :
  schema_eqb l l' = true -> map fst l = map fst l'.
Proof.
  revert l'. induction l as [|[n c] r IH]; intros [|[n' c'] r']; simpl;
    try discriminate; auto.
  intros H. apply andb_true_iff in H as [H Hr].
  apply andb_true_iff in H as [Hn _]. apply String.eqb_eq in Hn.
  subst. f_equal. auto.
Qed.

Lemma dtype_eqb_eq (a b : dtype) : dtype_eqb a b = true -> a = b.
Proof. destruct a, b; simpl; congruence. Qed.

Lemma schema_lookup (l l' : list (string * column)) (n : string) (c : column) :
  schema_eqb l l' = true -> lookup n l = Some c ->
  exists c', lookup n l' = Some c' /\ dtype_of c = dtype_of c'.
Proof.
  revert l'. induction l as [|[m a] r IH]; intros [|[m' a'] r']; simpl;
    try discriminate.
  intros H. apply andb_true_iff in H as [H Hr].
  apply andb_true_iff in H as [Hn Hd]. apply String.eqb_eq in Hn. subst m'.
  apply dtype_eqb_eq in Hd.
  destruct (String.eqb n m).
  - intros E. injection E as <-. now exists a'.
  - now apply IH.
Qed.

Lemma schema_sym (l l' : list (string * column)) :
  schema_eqb l l' = true -> schema_eqb l' l = true.
Proof.
  revert l'. induction l as [|[m a] r IH]; intros [|[m' a'] r']; simpl;
    try discriminate; auto.
  intros H. apply andb_true_iff in H as [H Hr].
  apply andb_true_iff in H as [Hn Hd]. apply String.eqb_eq in Hn. subst m'.
  apply dtype_eqb_eq in Hd. rewrite Hd, String.eqb_refl, IH by exact Hr.
  now destruct (dtype_of a').
Qed.

(** Two columns of one dtype, put one after the other. *)
Lemma concat_col_same (n m : nat) (a b : column) :
  dtype_of a = dtype_of b ->
  exists c,
    concat_col n m (Some a) (Some b) = Ok c
    /\ dtype_of c = dtype_of a
    /\ col_len c = col_len a + col_len b
    /\ col_cells c = col_cells a ++ col_cells b
    /\ col_firstn (col_len a) c = a
    /\ col_skipn (col_len a) c = b.
Proof.
  destruct a as [xs|xs|xs|xs], b as [ys|ys|ys|ys]; simpl; try discriminate;
    intros _; eexists; (split; [reflexivity|]); simpl;
    rewrite length_app, map_app, firstn_app, skipn_app, Nat.sub_diag,
      firstn_all, skipn_all; simpl; now rewrite app_nil_r.
Qed.

Lemma lookup_iloc_to (k : nat) (df : DataFrame) (n : string) :
  lookup n (cols (iloc_to k df)) = option_map (col_firstn k) (lookup n (cols df)).
Proof.
  unfold iloc_to. simpl. induction (cols df) as [|[m c] r IH]; simpl;
    [reflexivity|].
  destruct (String.eqb n m); [reflexivity | exact IH].
Qed.

Lemma lookup_iloc_from (k : nat) (df : DataFrame) (n : string) :
  lookup n (cols (iloc_from k df)) = option_map (col_skipn k) (lookup n (cols df)).
Proof.
  unfold iloc_from. simpl. induction (cols df) as [|[m c] r IH]; simpl;
    [reflexivity|].
  destruct (String.eqb n m); [reflexivity | exact IH].
Qed.

Lemma names_iloc_to (k : nat) (df : DataFrame) :
  names (iloc_to k df) = names df.
Proof. unfold iloc_to, names. simpl. now rewrite map_map. Qed.

Lemma names_iloc_from (k : nat) (df : DataFrame) :
  names (iloc_from k df) = names df.
Proof. unfold iloc_from, names. simpl. now rewrite map_map. Qed.



Lemma col_len_firstn (k : nat) (c : column) :
  col_len (col_firstn k c) = Nat.min k (col_len c).
Proof. destruct c; simpl; apply length_firstn. Qed.

Lemma col_len_skipn (k : nat) (c : column) :
  col_len (col_skipn k c) = col_len c - k.
Proof. destruct c; simpl; apply length_skipn. Qed.

Lemma NoDup_In_lookup (l : list (string * column)) (n : string) (c : column) :
  NoDup (map fst l) -> In (n, c) l -> lookup n l = Some c.
Proof.
  induction l as [|[m a] r IH]; simpl; [tauto|].
  intros Hnd Hin. inversion Hnd as [|? ? Hm Hr]; subst.
  destruct Hin as [E|Hin].
  - injection E as -> ->. now rewrite String.eqb_refl.
  - destruct (String.eqb_spec n m) as [->|Hne]; [|auto].
    exfalso. apply Hm. now apply (in_map fst) in Hin.
Qed.

Lemma NoDup_filter {A : Type} (f : A -> bool) (l : list A) :
  NoDup l -> NoDup (filter f l).
Proof.
  induction 1 as [|a l Ha Hl IH]; simpl; [constructor|].
  destruct (f a); [constructor|]; auto.
  intros Hin. apply filter_In in Hin. tauto.
Qed.

Lemma concat_frames_same_schema (a b : DataFrame) :
  schema_eqb (cols a) (cols b) = true ->
  exists c,
    concat_frames a b = Ok c
    /\ nrows c = nrows a + nrows b
    /\ names c = names a
    /\ forall l,
        match lookup l (cols a) with
        | Some x =>
            exists y z,
              lookup l (cols b) = Some y
              /\ dtype_of x = dtype_of y
              /\ concat_col (nrows a) (nrows b) (Some x) (Some y) = Ok z
              /\ lookup l (cols c) = Some z
        | None => lookup l (cols c) = None /\ lookup l (cols b) = None
        end.
Proof.
  intros Hs. unfold concat_frames.
  pose proof (schema_names _ _ Hs) as Hn.
  assert (Hf : filter (fun n => negb (has_col a n)) (names b) = []).
  { apply filter_none. intros n Hin. apply negb_false_iff.
    apply has_col_In. unfold names in *. congruence. }
  rewrite Hf, app_nil_r.
  set (g := fun n => concat_col (nrows a) (nrows b)
                                (lookup n (cols a)) (lookup n (cols b))).
  assert (Hg : forall n x, lookup n (cols a) = Some x ->
                 exists y z, lookup n (cols b) = Some y
                             /\ dtype_of x = dtype_of y
                             /\ g n = Ok z
                             /\ concat_col (nrows a) (nrows b) (Some x) (Some y)
                                = Ok z).
  { intros n x Hx. destruct (schema_lookup _ _ n x Hs Hx) as (y & Hy & Hd).
    destruct (concat_col_same (nrows a) (nrows b) x y Hd) as (z & Hz & _).
    exists y, z. unfold g. now rewrite Hx, Hy. }
  destruct (mapM_total (fun n => c <- g n ;; Ok (n, c)) (names a)) as [r Hr].
  { intros n Hin. apply has_col_In, has_col_lookup in Hin as [x Hx].
    destruct (Hg n x Hx) as (y & z & _ & _ & Hz & _).
    rewrite Hz. now eexists. }
  destruct (mapM_labelled g (names a) r Hr) as [Hnr Hlr].
  unfold g in Hr. rewrite Hr. cbn [bind]. eexists. split; [reflexivity|].
  split; [reflexivity|]. split; [exact Hnr|].
  intros l. simpl. rewrite Hlr.
  destruct (lookup l (cols a)) as [x|] eqn:Hx.
  - destruct (Hg l x Hx) as (y & z & Hy & Hd & Hz & Hc).
    exists y, z. rewrite (proj2 (mem_In l (names a))), Hz.
    + auto.
    + apply has_col_In. unfold has_col. now rewrite Hx.
  - assert (Hm : mem l (names a) = false)
      by (apply mem_false; intros Hin; now apply lookup_None in Hx).
    rewrite Hm. split; [reflexivity|].
    apply lookup_None. apply lookup_None in Hx. congruence.
Qed.

Lemma has_dtype_transfer (p : column -> bool) (a b : DataFrame) (n : string) :
  (forall x y, dtype_of x = dtype_of y -> p x = p y) ->
  (forall x, lookup n (cols a) = Some x ->
             exists y, lookup n (cols b) = Some y /\ dtype_of y = dtype_of x) ->
  has_dtype p a n = true -> has_dtype p b n = true.
Proof.
  intros Hp Hl. unfold has_dtype.
  destruct (lookup n (cols a)) as [x|]; [|discriminate].
  destruct (Hl x eq_refl) as (y & -> & Hd). intros <-. auto.
Qed.

Lemma raw_ok_transfer (a b : DataFrame) :
  (forall n x, lookup n (cols a) = Some x ->
               exists y, lookup n (cols b) = Some y /\ dtype_of y = dtype_of x) ->
  raw_ok a = true -> raw_ok b = true.
Proof.
  intros Hl. unfold raw_ok. rewrite !andb_true_iff, !forallb_forall.
  intros [[H1 H2] H3]. repeat split; intros n Hn.
  - specialize (H1 n Hn). apply has_col_lookup in H1 as [x Hx].
    destruct (Hl n x Hx) as (y & Hy & _). unfold has_col. now rewrite Hy.
  - apply (has_dtype_transfer is_object a b); auto.
    intros [] []; simpl; congruence.
  - apply (has_dtype_transfer is_numeric a b); auto.
    intros [] []; simpl; congruence.
Qed.

(** ** The pipeline *)

Lemma lookup_drop_label (l : string) (cs : list (string * column)) :
  lookup l (remove_cols ["exam_score"] cs) =
  if String.eqb l "exam_score" then None else lookup l cs.
Proof. rewrite lookup_remove_cols. simpl. now rewrite orb_false_r. Qed.

Lemma pipeline_stages (train_df test_df : DataFrame) :
  pipeline_ok train_df test_df = true ->
  exists target C F c1 c2 c3 g co ia sm ca sh sl den q p s1 s2,
    pipeline train_df test_df target C F
    /\ stages C c1 c2 c3 g co ia sm ca sh sl den q p s1 s2 F.
Proof.
  unfold pipeline_ok. rewrite !andb_true_iff.
  intros [[[[[Wtr Wte] Hlab] Hnolab] Hs] Hraw].
  apply negb_true_iff in Hnolab.
  apply has_col_lookup in Hlab as [target Ltarget].
  pose proof (wf_lens _ Wtr) as Ltr. pose proof (wf_lens _ Wte) as Lte.
  set (T := mkDF (nrows train_df) (remove_cols ["exam_score"] (cols train_df))).
  destruct (concat_frames_same_schema T test_df Hs)
    as (C & HC & Hrows & Hnames & Hcols).
  simpl in Hrows.
  assert (HT : forall l, lookup l (cols T) =
                         if String.eqb l "exam_score" then None
                         else lookup l (cols train_df))
    by (intros l; apply lookup_drop_label).
  assert (Hcol : forall l x,
             l <> "exam_score" -> lookup l (cols train_df) = Some x ->
             exists y z,
               lookup l (cols test_df) = Some y /\ lookup l (cols C) = Some z
               /\ dtype_of z = dtype_of y
               /\ col_len z = nrows train_df + nrows test_df
               /\ col_firstn (nrows train_df) z = x
               /\ col_skipn (nrows train_df) z = y
               /\ col_cells z = col_cells x ++ col_cells y).
  { intros l x Hne Hx. specialize (Hcols l). rewrite HT in Hcols.
    apply String.eqb_neq in Hne. rewrite Hne, Hx in Hcols.
    destruct Hcols as (y & z & Hy & Hd & Hz & Hlz).
    destruct (concat_col_same (nrows T) (nrows test_df) x y Hd)
      as (z' & Hz' & Hdz & Hlen & Hcells & Hfst & Hskp).
    assert (z' = z) by congruence. subst z'.
    pose proof (lens_lookup _ _ _ Ltr Hx) as Nx.
    pose proof (lens_lookup _ _ _ Lte Hy) as Ny.
    exists y, z. rewrite <- Nx at 2 3.
    repeat split; auto; congruence. }
  assert (Htest : forall l y,
             lookup l (cols test_df) = Some y ->
             exists x, l <> "exam_score" /\ lookup l (cols train_df) = Some x).
  { intros l y Hy.
    destruct (schema_lookup _ _ l y (schema_sym _ _ Hs) Hy) as (x & Hx & _).
    rewrite HT in Hx. destruct (String.eqb_spec l "exam_score");
      [discriminate|]. now exists x. }
  assert (Hno : lookup "exam_score" (cols C) = None).
  { specialize (Hcols "exam_score"). rewrite HT in Hcols. simpl in Hcols.
    tauto. }
  assert (Hnd : NoDup (names C)).
  { rewrite Hnames. unfold names, T. simpl. rewrite names_remove_cols.
    apply NoDup_filter, nodupb_NoDup.
    unfold wf in Wtr. now apply andb_true_iff in Wtr as [Wtr _]. }
  assert (HlC : lens_ok C).
  { intros l z Hin. apply (NoDup_In_lookup _ _ _ Hnd) in Hin.
    rewrite Hrows. specialize (Hcols l). rewrite HT in Hcols.
    destruct (String.eqb l "exam_score") eqn:Hne.
    - destruct Hcols as [Hc _]. congruence.
    - apply String.eqb_neq in Hne.
      destruct (lookup l (cols train_df)) as [x|] eqn:Hx.
      + destruct (Hcol l x Hne Hx) as (y & z' & _ & Hz' & _ & Hlen & _).
        congruence.
      + destruct Hcols as [Hc _]. congruence. }
  assert (HrC : raw_ok C = true).
  { apply (raw_ok_transfer test_df C); [|exact Hraw].
    intros l y Hy. destruct (Htest l y Hy) as (x & Hne & Hx).
    destruct (Hcol l x Hne Hx) as (y' & z & Hy' & Hz & Hd & _).
    exists z. split; [exact Hz | congruence]. }
  destruct (create_features_stages C HrC)
    as (c1 & c2 & c3 & g & co & ia & sm & ca & sh & sl & den & q & p & s1
        & s2 & F & St & HF).
  exists target, C, F, c1, c2, c3, g, co, ia, sm, ca, sh, sl, den, q, p, s1, s2.
  split; [|exact St].
  pose proof (lens_lookup _ _ _ Ltr Ltarget) as Ntarget.
  destruct (stages_rows _ _ _ _ _ _ _ _ _ _ _ _ _ _ _ _ _ St HlC) as [NF _].
  constructor; auto.
  - unfold names in *. rewrite Hnames. unfold T. simpl.
    now apply schema_names.
  - intros l x Hne Hx. destruct (Hcol l x Hne Hx)
      as (y & z & Hy & Hz & _ & _ & H1 & H2 & H3).
    now exists y, z.
  - unfold main. rewrite (getitem_lookup _ _ _ Ltarget). cbn [bind].
    unfold drop. cbn [filter]. rewrite (has_col_of_lookup _ _ _ Ltarget).
    cbn [negb bind]. fold T. rewrite HC. cbn [bind]. rewrite HF. cbn [bind].
    unfold setitem_values. simpl nrows. rewrite NF, Hrows, Ntarget.
    replace (Nat.min (nrows train_df) (nrows train_df + nrows test_df))
      with (nrows train_df) by lia.
    now rewrite Nat.eqb_refl.
Qed.

Lemma stages_absent (df : DataFrame) (c1 c2 c3 : column) (g co ia sm : list obj)
      (ca sh sl den q p s1 s2 : column) (out : DataFrame) (n : string) :
  stages df c1 c2 c3 g co ia sm ca sh sl den q p s1 s2 out ->
  mem n written_cols = false -> starts_with_nominal n = false ->
  lookup n (cols df) = None -> lookup n (cols out) = None.
Proof.
  intros St Hm Hs Hl. destruct St as [? ? ? ? ? ? ? ? ? ? ? ? ? ? ? ->].
  assert (Hmem : mem n ordinal_cols = false /\ mem n nominal_cols = false
                 /\ mem n derived_cols = false).
  { unfold written_cols in Hm. repeat split; apply mem_false; intros Hin;
      apply mem_false in Hm; apply Hm; rewrite !in_app_iff; tauto. }
  destruct Hmem as (Ho & Hn & Hd).
  rewrite lookup_derive_other by exact Hd.
  rewrite lookup_one_hot_no_prefix by exact Hs.
  rewrite Hn. now rewrite lookup_encode_other.
Qed.

Lemma lens_iloc_to (k : nat) (df : DataFrame) :
  lens_ok df -> lens_ok (iloc_to k df).
Proof.
  intros H n c Hin. unfold iloc_to in *. simpl in *.
  apply in_map_iff in Hin as ([m c'] & E & Hin). injection E as <- <-.
  simpl. rewrite col_len_firstn. now rewrite (H m c' Hin).
Qed.

Lemma lens_iloc_from (k : nat) (df : DataFrame) :
  lens_ok df -> lens_ok (iloc_from k df).
Proof.
  intros H n c Hin. unfold iloc_from in *. simpl in *.
  apply in_map_iff in Hin as ([m c'] & E & Hin). injection E as <- <-.
  simpl. rewrite col_len_skipn. now rewrite (H m c' Hin).
Qed.




(** C5.  When the train table is the test table plus the label exam_score,
    the train frame [main] writes has as many rows as the train table and
    carries the label column exactly as it was read, cell by cell in the same
    order; the test frame it writes has no exam_score column. *)
Theorem main_label_reattached (train_df test_df : DataFrame) :
  pipeline_ok train_df test_df = true ->
  exists train_featured test_featured L,
    main train_df test_df = Ok (train_featured, test_featured)
    /\ lookup "exam_score" (cols train_df) = Some L
    /\ col_len L = nrows train_df
    /\ nrows train_featured = nrows train_df
    /\ lookup "exam_score" (cols train_featured) = Some L
    /\ has_col test_featured "exam_score" = false.
Proof.
  intros Hok.
  destruct (pipeline_stages _ _ Hok)
    as (target & C & F & c1 & c2 & c3 & g & co & ia & sm & ca & sh & sl & den
        & q & p & s1 & s2 & Pl & St).
  destruct (stages_rows _ _ _ _ _ _ _ _ _ _ _ _ _ _ _ _ _ St (pl_lens _ _ _ _ _ Pl))
    as [NF _].
  destruct Pl as [Lt Nt _ Hrows _ _ _ Hno _ _ _ Hmain].
  eexists _, _, target. split; [exact Hmain|].
  repeat split; auto.
  - rewrite nrows_setitem. simpl. lia.
  - apply lookup_setitem_same.
  - unfold has_col. rewrite lookup_iloc_from.
    now rewrite (stages_absent _ _ _ _ _ _ _ _ _ _ _ _ _ _ _ _ _ _ St).
Qed.

(** C10.  In the train frame [main] writes, exam_score is the last column,
    wherever it stood in the train table: it is put behind every column of
    the featured frame, the four derived columns among them. *)
Theorem main_label_last (train_df test_df : DataFrame) :
  pipeline_ok train_df test_df = true ->
  exists train_featured test_featured pre,
    main train_df test_df = Ok (train_featured, test_featured)
    /\ names train_featured = pre ++ ["exam_score"]
    /\ ~ In "exam_score" pre
    /\ (forall n, In n derived_cols -> In n pre)
    /\ last (names train_featured) "" = "exam_score".
Proof.
  intros Hok.
  destruct (pipeline_stages _ _ Hok)
    as (target & C & F & c1 & c2 & c3 & g & co & ia & sm & ca & sh & sl & den
        & q & p & s1 & s2 & Pl & St).
  destruct Pl as [Lt Nt _ Hrows _ _ _ Hno _ _ _ Hmain].
  assert (HnoF : lookup "exam_score" (cols F) = None)
    by (now apply (stages_absent _ _ _ _ _ _ _ _ _ _ _ _ _ _ _ _ _ _ St)).
  assert (Hnames : names (setitem (iloc_to (nrows train_df) F) "exam_score"
                                  target)
                   = names F ++ ["exam_score"]).
  { rewrite names_setitem_new, names_iloc_to; [reflexivity|].
    unfold has_col. now rewrite lookup_iloc_to, HnoF. }
  eexists _, _, (names F). split; [exact Hmain|].
  split; [exact Hnames|]. split; [|split].
  - now apply lookup_None in HnoF.
  - intros n Hn. apply has_col_In. unfold has_col.
    destruct St as [? ? ? ? ? ? ? ? ? ? ? ? ? ? ? ->].
    destruct (lookup_derive
                (one_hot (encode_ordinals C c1 c2 c3) g co ia sm) q p s1 s2)
      as (L1 & L2 & L3 & L4).
    destruct Hn as [<-|[<-|[<-|[<-|[]]]]];
      [rewrite L1|rewrite L2|rewrite L3|rewrite L4]; reflexivity.
  - rewrite Hnames. apply last_last.
Qed.

(** C4.  [create_features] returns a frame over the same index: as many rows
    as its input, every column of that length, and every column it does not
    write carried over with its cells in their order.  The same holds from the
    two tables [main] reads to the two frames it writes. *)
Theorem rows_preserved :
  (forall df,
      wf df = true -> raw_ok df = true ->
      exists out,
        create_features df = Ok out
        /\ nrows out = nrows df
        /\ lens_ok out
        /\ forall n c,
            mem n written_cols = false -> lookup n (cols df) = Some c ->
            lookup n (cols out) = Some c)
  /\ (forall train_df test_df,
         pipeline_ok train_df test_df = true ->
         exists train_featured test_featured,
           main train_df test_df = Ok (train_featured, test_featured)
           /\ nrows train_featured = nrows train_df
           /\ nrows test_featured = nrows test_df
           /\ lens_ok train_featured
           /\ lens_ok test_featured
           /\ (forall n c,
                  mem n written_cols = false ->
                  lookup n (cols train_df) = Some c ->
                  lookup n (cols train_featured) = Some c)
           /\ (forall n c,
                  mem n written_cols = false ->
                  lookup n (cols test_df) = Some c ->
                  lookup n (cols test_featured) = Some c)).
Proof.
  split.
  - intros df Hwf Hraw.
    destruct (create_features_stages df Hraw)
      as (c1 & c2 & c3 & g & co & ia & sm & ca & sh & sl & den & q & p & s1
          & s2 & out & St & Hout).
    destruct (stages_rows _ _ _ _ _ _ _ _ _ _ _ _ _ _ _ _ _ St (wf_lens _ Hwf))
      as [Hn Hl].
    exists out. repeat split; auto.
    intros n c Hm Hc.
    now apply (stages_passthrough _ _ _ _ _ _ _ _ _ _ _ _ _ _ _ _ _ _ _ St).
  - intros train_df test_df Hok.
    destruct (pipeline_stages _ _ Hok)
      as (target & C & F & c1 & c2 & c3 & g & co & ia & sm & ca & sh & sl
          & den & q & p & s1 & s2 & Pl & St).
    destruct (stages_rows _ _ _ _ _ _ _ _ _ _ _ _ _ _ _ _ _ St
                          (pl_lens _ _ _ _ _ Pl)) as [NF LF].
    destruct Pl as [Lt Nt _ Hrows _ Hcols Htest Hno _ _ _ Hmain].
    eexists _, _. split; [exact Hmain|].
    assert (Nto : nrows (iloc_to (nrows train_df) F) = nrows train_df)
      by (simpl; lia).
    repeat split.
    + now rewrite nrows_setitem.
    + simpl. lia.
    + apply lens_setitem; [now apply lens_iloc_to | congruence].
    + now apply lens_iloc_from.
    + intros n c Hm Hc.
      destruct (String.eqb_spec n "exam_score") as [->|Hne].
      * rewrite lookup_setitem_same. congruence.
      * rewrite lookup_setitem_other by exact Hne.
        destruct (Hcols n c Hne Hc) as (y & z & _ & Hz & Hfst & _).
        rewrite lookup_iloc_to.
        rewrite (stages_passthrough _ _ _ _ _ _ _ _ _ _ _ _ _ _ _ _ _ _ _
                                    St Hm Hz).
        simpl. now rewrite Hfst.
    + intros n c Hm Hc.
      destruct (Htest n c Hc) as (x & Hne & Hx).
      destruct (Hcols n x Hne Hx) as (y & z & Hy & Hz & _ & Hskp & _).
      rewrite lookup_iloc_from.
      rewrite (stages_passthrough _ _ _ _ _ _ _ _ _ _ _ _ _ _ _ _ _ _ _
                                  St Hm Hz).
      simpl. rewrite Hskp. congruence.
Qed.


(** ** The efficiency ratio at zero study hours *)

Lemma float_eqb_zero (f : float) :
  (f =? 0)%float = true -> f = 0%float \/ f = (-0)%float.
Proof.
  intros H. rewrite FloatAxioms.eqb_spec in H.
  rewrite <- (FloatAxioms.SF2Prim_Prim2SF f).
  destruct (Prim2SF f) as [s|s| |s m e].
  - destruct s; [right | left]; reflexivity.
  - destruct s; vm_compute in H; discriminate H.
  - vm_compute in H; discriminate H.
  - destruct s; vm_compute in H; discriminate H.
Qed.

Lemma zero_plus_eps (h : cell) (y : float) :
  is_zero h = true -> as_float h = Some y -> (y + eps)%float = eps.
Proof.
  destruct h as [s|z|f|b]; simpl; try discriminate.
  - intros Hz E. apply Z.eqb_eq in Hz. subst z. injection E as <-.
    reflexivity.
  - intros Hz E. injection E as <-.
    destruct (float_eqb_zero f Hz) as [->| ->]; reflexivity.
Qed.

(** C7, as the code has it.  In every row whose study_hours is 0 (as an
    int64, or as a float64 of either sign) the denominator is exactly the
    float 1e-6, which is not 0, and study_efficiency is class_attendance
    divided by it; at class_attendance 10 that is 10000000, a finite
    number. *)
Theorem study_efficiency_zero_hours (df : DataFrame) :
  wf df = true -> raw_ok df = true ->
  exists out ca sh e,
    create_features df = Ok out
    /\ lookup "class_attendance" (cols df) = Some ca
    /\ lookup "study_hours" (cols df) = Some sh
    /\ lookup "study_efficiency" (cols out) = Some e
    /\ (forall i a h,
           cell_at ca i = Some a -> cell_at sh i = Some h ->
           is_zero h = true ->
           exists x, as_float a = Some x
                     /\ cell_at e i = Some (CFloat (x / eps)))
    /\ (eps =? 0)%float = false
    /\ (10 / eps)%float = 10000000%float
    /\ is_finite (10 / eps) = true.
Proof.
  intros _ Hraw.
  destruct (create_features_stages df Hraw)
    as (c1 & c2 & c3 & g & co & ia & sm & ca & sh & sl & den & q & p & s1
        & s2 & out & St & Hout).
  exists out, ca, sh, q.
  destruct St as [? ? ? ? ? ? ? Lca Lsh Lsl Hden Hq Hp Hs1 Hs2 ->].
  destruct (lookup_derive
              (one_hot (encode_ordinals df c1 c2 c3) g co ia sm) q p s1 s2)
    as (Le & _).
  repeat (split; [first [assumption | reflexivity]|]).
  split; [|repeat split; reflexivity].
  intros i a h Ha Hh Hz.
  destruct (add_scalar_cell _ _ _ _ _ Hden Hh) as (y & Hy & Hd).
  destruct (col_div_cell _ _ _ _ _ _ Hq Ha Hd) as (x & y' & Hx & Hy' & Hqi).
  simpl in Hy'. injection Hy' as <-.
  rewrite (zero_plus_eps h y Hz Hy) in Hqi. now exists x.
Qed.

(** C7 as stated fails: with study_hours 0 the ratio is NaN when the
    attendance is missing, infinite when the attendance is huge, and 0, not
    large, when the attendance is 0. *)
Lemma study_efficiency_not_always_finite :
  wf zero_hours_table = true
  /\ raw_ok zero_hours_table = true
  /\ lookup "study_hours" (cols zero_hours_table)
     = Some (ColFloat [0; 0; 0]%float)
  /\ is_zero (CFloat 0) = true
  /\ lookup "class_attendance" (cols zero_hours_table)
     = Some (ColFloat [nan; 0x1p1020; 0]%float)
  /\ exists out e,
      create_features zero_hours_table = Ok out
      /\ lookup "study_efficiency" (cols out) = Some e
      /\ cell_at e 0 = Some (CFloat nan)
      /\ cell_at e 1 = Some (CFloat infinity)
      /\ cell_at e 2 = Some (CFloat 0)
      /\ is_finite nan = false /\ is_finite infinity = false.
Proof.
  repeat (split; [reflexivity|]).
  eexists. exists (ColFloat [nan; infinity; 0]%float).
  split; [vm_compute; reflexivity|].
  repeat split; reflexivity.
Qed.


(** C9 as stated fails: an extra column labelled study_hours_sq does not
    come out unchanged, it is overwritten with the squares of study_hours. *)
Lemma extra_column_overwritten :
  wf clash_table = true
  /\ raw_ok clash_table = true
  /\ mem "study_hours_sq" source_cols = false
  /\ lookup "study_hours" (cols clash_table) = Some (ColFloat [1; 0]%float)
  /\ lookup "study_hours_sq" (cols clash_table) = Some (ColFloat [7; 7]%float)
  /\ exists out,
      create_features clash_table = Ok out
      /\ lookup "study_hours_sq" (cols out) = Some (ColFloat [1; 0]%float)
      /\ lookup "study_hours_sq" (cols out)
         <> lookup "study_hours_sq" (cols clash_table).
Proof.
  repeat (split; [reflexivity|]).
  eexists. split; [vm_compute; reflexivity|]. split; [reflexivity|].
  intros E.
  apply (f_equal (fun o => match o with
                           | Some (ColFloat (x :: _)) => PrimFloat.eqb x 7
                           | _ => false
                           end)) in E.
  vm_compute in E. discriminate E.
Qed.

(** C2 as stated fails: "male" is an observed gender other than the
    lexically first, yet no column is labelled gendermale (its indicator is
    gender_male); and in row 1, whose gender is missing and so is not the
    dropped category "female", the only gender indicator is unset. *)
Lemma one_hot_label_and_missing_row :
  wf missing_gender_table = true
  /\ raw_ok missing_gender_table = true
  /\ fresh_labels missing_gender_table = true
  /\ lookup "gender" (cols missing_gender_table)
     = Some (ColObj [OStr "male"; ONaN; OStr "female"])
  /\ levels [OStr "male"; ONaN; OStr "female"] = ["female"; "male"]
  /\ baseline [OStr "male"; ONaN; OStr "female"] = Some "female"
  /\ exists out ind,
      create_features missing_gender_table = Ok out
      /\ has_col out ("gender" ++ "male") = false
      /\ filter (String.prefix "gender") (names out) = ["gender_male"]
      /\ lookup "gender_male" (cols out) = Some ind
      /\ nth_error [OStr "male"; ONaN; OStr "female"] 1 = Some ONaN
      /\ ONaN <> OStr "female"
      /\ cell_at ind 1 = Some (CBool false).
Proof.
  repeat (split; [reflexivity|]).
  eexists. exists (ColBool [true; false; false]).
  split; [vm_compute; reflexivity|].
  repeat split; try reflexivity. discriminate.
Qed.

(** ** Missing source columns *)

Lemma filter_nil {A : Type} (f : A -> bool) (l : list A) :
  filter f l = [] -> forall a, In a l -> f a = false.
Proof.
  induction l as [|x r IH]; simpl; [tauto|].
  destruct (f x) eqn:E; [discriminate|].
  intros H a [<-|Hin]; auto.
Qed.

Lemma get_dummies_inv (df out : DataFrame) :
  get_dummies df nominal_cols = Ok out ->
  exists g co ia sm,
    lookup "gender" (cols df) = Some (ColObj g)
    /\ lookup "course" (cols df) = Some (ColObj co)
    /\ lookup "internet_access" (cols df) = Some (ColObj ia)
    /\ lookup "study_method" (cols df) = Some (ColObj sm)
    /\ out = one_hot df g co ia sm.
Proof.
  unfold get_dummies.
  destruct (filter (fun n => negb (has_col df n)) nominal_cols) eqn:Hf;
    [|discriminate].
  pose proof (filter_nil _ _ Hf) as Hall.
  assert (Hc : forall n, In n nominal_cols ->
                         exists c, lookup n (cols df) = Some c).
  { intros n Hn. apply has_col_lookup.
    specialize (Hall n Hn). now apply negb_false_iff in Hall. }
  destruct (Hc "gender") as [c1 L1]; [simpl; tauto|].
  destruct (Hc "course") as [c2 L2]; [simpl; tauto|].
  destruct (Hc "internet_access") as [c3 L3]; [simpl; tauto|].
  destruct (Hc "study_method") as [c4 L4]; [simpl; tauto|].
  unfold nominal_cols. cbn [mapM].
  rewrite (getitem_lookup _ _ _ L1), (getitem_lookup _ _ _ L2),
    (getitem_lookup _ _ _ L3), (getitem_lookup _ _ _ L4).
  cbn [bind].
  destruct c1 as [g| | |]; try discriminate.
  rewrite get_dummies_1d_obj. cbn [bind].
  destruct c2 as [co| | |]; try discriminate.
  rewrite get_dummies_1d_obj. cbn [bind].
  destruct c3 as [ia| | |]; try discriminate.
  rewrite get_dummies_1d_obj. cbn [bind].
  destruct c4 as [sm| | |]; try discriminate.
  rewrite get_dummies_1d_obj. cbn [bind List.concat].
  rewrite app_nil_r. intros E. injection E as <-.
  exists g, co, ia, sm. repeat split; auto.
Qed.

Ltac bind_step H E :=
  match type of H with
  | bind ?r _ = Ok _ => destruct r eqn:E; [cbn [bind] in H | discriminate H]
  end.

(** [create_features] returns a frame only if the nine source columns are
    there. *)
Lemma create_features_needs (df out : DataFrame) (n : string) :
  create_features df = Ok out -> In n source_cols -> has_col df n = true.
Proof.
  intros H Hn. unfold create_features in H.
  bind_step H G1. bind_step H G2. bind_step H G3. bind_step H Gd.
  apply get_dummies_inv in Gd
    as (g & co & ia & sm & Lg & Lco & Lia & Lsm & ->).
  match type of Lg with
  | lookup _ (cols ?E) = _ => set (E' := E) in *
  end.
  assert (HE : forall m, mem m ordinal_cols = false ->
                         lookup m (cols E') = lookup m (cols df))
    by (intros m Hm; unfold E'; now apply lookup_encode_other).
  rewrite HE in Lg, Lco, Lia, Lsm by reflexivity.
  bind_step H Gca. bind_step H Gsh. bind_step H Gden. bind_step H Gq.
  bind_step H Gsh'. bind_step H Gsl.
  apply getitem_Ok in G1, G2, G3, Gca, Gsh, Gsl.
  rewrite lookup_setitem_other in G2 by neq_lit.
  rewrite !lookup_setitem_other in G3 by neq_lit.
  rewrite lookup_setitem_other in Gsl by neq_lit.
  rewrite lookup_one_hot_no_prefix in Gca, Gsh, Gsl by reflexivity.
  simpl mem in Gca, Gsh, Gsl. cbv iota in Gca, Gsh, Gsl.
  rewrite HE in Gca, Gsh, Gsl by reflexivity.
  unfold source_cols, ordinal_cols, nominal_cols, numeric_cols in Hn.
  simpl in Hn.
  destruct Hn as [<-|[<-|[<-|[<-|[<-|[<-|[<-|[<-|[<-|[<-|[]]]]]]]]]]];
    eapply has_col_of_lookup; eassumption.
Qed.

Lemma dtype_if_present_lookup (p : column -> bool) (df : DataFrame)
      (l : list string) (n : string) (c : column) :
  forallb (dtype_if_present p df) l = true -> In n l ->
  lookup n (cols df) = Some c -> p c = true.
Proof.
  rewrite forallb_forall. intros H Hn Hl. specialize (H n Hn).
  unfold dtype_if_present in H. now rewrite Hl in H.
Qed.

Lemma get_dummies_missing (df : DataFrame) (c1 c2 c3 : column) :
  filter (fun n => negb (has_col (encode_ordinals df c1 c2 c3) n)) nominal_cols
  = filter (fun n => negb (has_col df n)) nominal_cols.
Proof.
  apply filter_ext_in. intros n Hn. unfold has_col.
  rewrite lookup_encode_other; [reflexivity|].
  destruct Hn as [<-|[<-|[<-|[<-|[]]]]]; reflexivity.
Qed.

(** On a table that lacks a source column and whose columns have the dtypes
    of the data model, the first failing step of [create_features] is a label
    lookup, and the labels it reports are source columns the table lacks. *)
Lemma create_features_key_error (df : DataFrame) (n : string) :
  typed_where_present df = true ->
  In n source_cols -> has_col df n = false ->
  exists missing,
    create_features df = Err (KeyError missing)
    /\ missing <> []
    /\ forall m, In m missing -> In m source_cols /\ has_col df m = false.
Proof.
  intros Ht Hn Hmiss. unfold typed_where_present in Ht.
  apply andb_true_iff in Ht as [Tnom Tnum].
  assert (Hone : forall m, In m source_cols -> lookup m (cols df) = None ->
                 forall k, In k [m] -> In k source_cols /\ has_col df k = false).
  { intros m Hm Hl k [<-|[]]. split; [exact Hm|]. unfold has_col.
    now rewrite Hl. }
  unfold create_features.
  destruct (lookup "sleep_quality" (cols df)) as [c1|] eqn:L1.
  2:{ exists ["sleep_quality"]. unfold getitem. rewrite L1.
      split; [reflexivity|]. split; [discriminate|].
      apply Hone; [simpl; tauto | exact L1]. }
  rewrite (getitem_lookup _ _ _ L1). cbn [bind].
  destruct (lookup "facility_rating" (cols df)) as [c2|] eqn:L2.
  2:{ exists ["facility_rating"]. unfold getitem.
      rewrite lookup_setitem_other by neq_lit. rewrite L2.
      split; [reflexivity|]. split; [discriminate|].
      apply Hone; [simpl; tauto | exact L2]. }
  erewrite getitem_lookup
    by (rewrite ?lookup_setitem_other by neq_lit; eassumption).
  cbn [bind].
  destruct (lookup "exam_difficulty" (cols df)) as [c3|] eqn:L3.
  2:{ exists ["exam_difficulty"]. unfold getitem.
      rewrite !lookup_setitem_other by neq_lit. rewrite L3.
      split; [reflexivity|]. split; [discriminate|].
      apply Hone; [simpl; tauto | exact L3]. }
  erewrite getitem_lookup
    by (rewrite ?lookup_setitem_other by neq_lit; eassumption).
  cbn [bind].
  fold (encode_ordinals df c1 c2 c3).
  set (E := encode_ordinals df c1 c2 c3).
  assert (HE : forall m, mem m ordinal_cols = false ->
                         lookup m (cols E) = lookup m (cols df))
    by (intros m Hm; unfold E; now apply lookup_encode_other).
  destruct (get_dummies E nominal_cols) as [D|e] eqn:Gd.
  2:{ unfold get_dummies in Gd. unfold E in Gd at 1.
      rewrite get_dummies_missing in Gd.
      destruct (filter (fun n => negb (has_col df n)) nominal_cols)
        as [|m ms] eqn:Hf.
      - exfalso. pose proof (filter_nil _ _ Hf) as Hall.
        assert (Hc : forall k, In k nominal_cols ->
                       exists xs, lookup k (cols E) = Some (ColObj xs)).
        { intros k Hk. specialize (Hall k Hk). apply negb_false_iff in Hall.
          apply has_col_lookup in Hall as [c Hc].
          pose proof (dtype_if_present_lookup _ _ _ _ _ Tnom Hk Hc) as Ho.
          apply is_object_inv in Ho as [xs ->]. exists xs.
          rewrite HE; [exact Hc|].
          destruct Hk as [<-|[<-|[<-|[<-|[]]]]]; reflexivity. }
        destruct (Hc "gender") as [g Lg]; [simpl; tauto|].
        destruct (Hc "course") as [co Lco]; [simpl; tauto|].
        destruct (Hc "internet_access") as [ia Lia]; [simpl; tauto|].
        destruct (Hc "study_method") as [sm Lsm]; [simpl; tauto|].
        unfold nominal_cols in Gd. cbn [mapM] in Gd.
        rewrite (getitem_lookup _ _ _ Lg), (getitem_lookup _ _ _ Lco),
          (getitem_lookup _ _ _ Lia), (getitem_lookup _ _ _ Lsm) in Gd.
        cbn [bind] in Gd. rewrite !get_dummies_1d_obj in Gd.
        cbn [bind] in Gd. discriminate Gd.
      - injection Gd as <-. exists (m :: ms). cbn [bind].
        split; [reflexivity|]. split; [discriminate|].
        intros k Hk. rewrite <- Hf in Hk. apply filter_In in Hk as [Hk Hh].
        apply negb_true_iff in Hh. split; [|exact Hh].
        unfold source_cols. rewrite !in_app_iff. tauto. }
  cbn [bind].
  apply get_dummies_inv in Gd
    as (g & co & ia & sm & Lg & Lco & Lia & Lsm & ->).
  rewrite HE in Lg, Lco, Lia, Lsm by reflexivity.
  set (D := one_hot E g co ia sm).
  assert (HD : forall m, mem m nominal_cols = false ->
                         starts_with_nominal m = false ->
                         mem m ordinal_cols = false ->
                         lookup m (cols D) = lookup m (cols df)).
  { intros m H1 H2 H3. unfold D. rewrite lookup_one_hot_no_prefix by exact H2.
    rewrite H1. now apply HE. }
  destruct (lookup "class_attendance" (cols df)) as [ca|] eqn:Lca.
  2:{ exists ["class_attendance"]. unfold getitem at 1.
      rewrite HD by reflexivity. rewrite Lca.
      split; [reflexivity|]. split; [discriminate|].
      apply Hone; [simpl; tauto | exact Lca]. }
  rewrite (getitem_lookup D "class_attendance" ca)
    by (now rewrite HD by reflexivity).
  cbn [bind].
  destruct (lookup "study_hours" (cols df)) as [sh|] eqn:Lsh.
  2:{ exists ["study_hours"]. unfold getitem at 1.
      rewrite HD by reflexivity. rewrite Lsh.
      split; [reflexivity|]. split; [discriminate|].
      apply Hone; [simpl; tauto | exact Lsh]. }
  rewrite (getitem_lookup D "study_hours" sh)
    by (now rewrite HD by reflexivity).
  cbn [bind].
  assert (Nca : is_numeric ca = true)
    by (apply (dtype_if_present_lookup _ _ _ _ _ Tnum) in Lca;
        [exact Lca | simpl; tauto]).
  assert (Nsh : is_numeric sh = true)
    by (apply (dtype_if_present_lookup _ _ _ _ _ Tnum) in Lsh;
        [exact Lsh | simpl; tauto]).
  destruct (add_scalar_numeric sh eps Nsh) as (den & -> & Nden).
  cbn [bind].
  destruct (col_div_numeric ca den Nca Nden) as (q & ->).
  cbn [bind].
  rewrite (getitem_lookup _ "study_hours" sh)
    by (rewrite lookup_setitem_other by neq_lit; now rewrite HD by reflexivity).
  cbn [bind].
  destruct (lookup "sleep_hours" (cols df)) as [sl|] eqn:Lsl.
  2:{ exists ["sleep_hours"]. unfold getitem at 1.
      rewrite lookup_setitem_other by neq_lit.
      rewrite HD by reflexivity. rewrite Lsl.
      split; [reflexivity|]. split; [discriminate|].
      apply Hone; [simpl; tauto | exact Lsl]. }
  exfalso. unfold has_col in Hmiss.
  unfold source_cols, ordinal_cols, nominal_cols, numeric_cols in Hn.
  simpl in Hn.
  destruct Hn as [<-|[<-|[<-|[<-|[<-|[<-|[<-|[<-|[<-|[<-|[]]]]]]]]]]];
    match type of Hmiss with
    | context [lookup ?k _] =>
        match goal with
        | L : lookup k (cols df) = Some _ |- _ => rewrite L in Hmiss
        end
    end; discriminate Hmiss.
Qed.

(** C8.  On a table that lacks one of the nine source columns
    [create_features] returns no frame at all, only an error; when the
    columns that are there have the dtypes of the data model that error is
    the KeyError of a label lookup and names source columns the table
    lacks. *)
Theorem create_features_missing_column (df : DataFrame) (n : string) :
  wf df = true -> In n source_cols -> has_col df n = false ->
  (exists e, create_features df = Err e)
  /\ (typed_where_present df = true ->
      exists missing,
        create_features df = Err (KeyError missing)
        /\ missing <> []
        /\ forall m, In m missing -> In m source_cols /\ has_col df m = false).
Proof.
  intros _ Hn Hmiss. split.
  - destruct (create_features df) as [out|e] eqn:Hc; [|now exists e].
    pose proof (create_features_needs df out n Hc Hn). congruence.
  - intros Ht. now apply (create_features_key_error df n).
Qed.

(** ** The theorems at the sample tables *)

Lemma create_features_ordinal_codes_witness :
  wf sample_test = true /\ raw_ok sample_test = true
  /\ lookup "sleep_quality" (cols sample_test)
     = Some (ColObj [OStr "average"; OStr "great"])
  /\ exists out c',
      create_features sample_test = Ok out
      /\ lookup "sleep_quality" (cols out) = Some c'
      /\ col_len c' = 2
      /\ (cell_at c' 0 = Some (CInt 1) \/ cell_at c' 0 = Some (CFloat 1))
      /\ cell_at c' 1 = Some (CFloat nan).
Proof.
  split; [reflexivity|]. split; [reflexivity|]. split; [reflexivity|].
  destruct (create_features_ordinal_codes sample_test eq_refl eq_refl)
    as (out & Hout & H & _).
  destruct (H "sleep_quality" "poor" "average" "good"
              (ColObj [OStr "average"; OStr "great"])
              (or_introl eq_refl) eq_refl) as (c' & Hc & Hlen & Hcell).
  exists out, c'.
  split; [exact Hout|]. split; [exact Hc|]. split; [exact Hlen|]. split.
  - destruct (Hcell 0 (CStr "average") eq_refl) as (_ & H1 & _).
    exact (H1 eq_refl).
  - destruct (Hcell 1 (CStr "great") eq_refl) as (_ & _ & _ & H3).
    apply H3; discriminate.
Defined.

Lemma create_features_one_hot_witness :
  wf sample_train = true /\ raw_ok sample_train = true
  /\ fresh_labels sample_train = true
  /\ exists out,
      create_features sample_train = Ok out
      /\ filter (String.prefix ("gender" ++ "_")) (names out)
         = map (dummy_name "gender")
               (tl (levels [OStr "male"; OStr "female"; OStr "other"])).
Proof.
  split; [reflexivity|]. split; [reflexivity|]. split; [reflexivity|].
  destruct (create_features_one_hot sample_train eq_refl eq_refl eq_refl)
    as (out & Hout & _ & H).
  destruct (H "gender" [OStr "male"; OStr "female"; OStr "other"]
              (or_introl eq_refl) eq_refl) as (_ & Hf & _).
  exists out. split; assumption.
Defined.


Lemma rows_preserved_witness :
  wf sample_test = true /\ raw_ok sample_test = true
  /\ pipeline_ok sample_train sample_test = true
  /\ (exists out, create_features sample_test = Ok out /\ nrows out = 2)
  /\ exists train_featured test_featured,
      main sample_train sample_test = Ok (train_featured, test_featured)
      /\ nrows train_featured = 3 /\ nrows test_featured = 2.
Proof.
  split; [reflexivity|]. split; [reflexivity|]. split; [reflexivity|].
  destruct rows_preserved as [H1 H2]. split.
  - destruct (H1 sample_test eq_refl eq_refl) as (out & Hout & Hn & _).
    exists out. split; assumption.
  - destruct (H2 sample_train sample_test eq_refl)
      as (tr & te & Hm & Hn1 & Hn2 & _).
    exists tr, te. repeat split; assumption.
Defined.

Lemma main_label_reattached_witness :
  pipeline_ok sample_train sample_test = true
  /\ exists train_featured test_featured,
      main sample_train sample_test = Ok (train_featured, test_featured)
      /\ lookup "exam_score" (cols train_featured)
         = Some (ColFloat [70; 85; 90]%float)
      /\ has_col test_featured "exam_score" = false.
Proof.
  split; [reflexivity|].
  destruct (main_label_reattached sample_train sample_test eq_refl)
    as (tr & te & L & Hm & HL & _ & _ & Htr & Hte).
  exists tr, te. repeat split; [assumption | | assumption].
  rewrite Htr, <- HL. reflexivity.
Defined.


Lemma study_efficiency_zero_hours_witness :
  wf sample_train = true /\ raw_ok sample_train = true
  /\ exists out e,
      create_features sample_train = Ok out
      /\ lookup "study_efficiency" (cols out) = Some e
      /\ exists x, as_float (CFloat 10) = Some x
                   /\ cell_at e 0 = Some (CFloat (x / eps)).
Proof.
  split; [reflexivity|]. split; [reflexivity|].
  destruct (study_efficiency_zero_hours sample_train eq_refl eq_refl)
    as (out & ca & sh & e & Hout & Hca & Hsh & He & H & _).
  exists out, e. split; [assumption|]. split; [assumption|].
  apply (H 0 (CFloat 10) (CFloat 0)).
  - injection Hca as <-. reflexivity.
  - injection Hsh as <-. reflexivity.
  - reflexivity.
Defined.

Lemma create_features_missing_column_witness :
  wf no_sleep_hours_table = true
  /\ In "sleep_hours" source_cols
  /\ has_col no_sleep_hours_table "sleep_hours" = false
  /\ typed_where_present no_sleep_hours_table = true
  /\ exists missing,
      create_features no_sleep_hours_table = Err (KeyError missing)
      /\ missing <> [].
Proof.
  assert (Hin : In "sleep_hours" source_cols) by (simpl; tauto).
  split; [reflexivity|]. split; [exact Hin|]. split; [reflexivity|].
  split; [reflexivity|].
  destruct (create_features_missing_column no_sleep_hours_table "sleep_hours"
              eq_refl Hin eq_refl) as [_ H].
  destruct (H eq_refl) as (missing & Hc & Hne & _).
  exists missing. split; assumption.
Defined.

Lemma create_features_extra_columns_witness :
  wf sample_train = true /\ raw_ok sample_train = true
  /\ exists out,
      create_features sample_train = Ok out
      /\ lookup "id" (cols out) = Some (ColInt [0; 1; 2]%Z).
Proof.
  split; [reflexivity|]. split; [reflexivity|].
  destruct (create_features_extra_columns sample_train eq_refl eq_refl)
    as (out & Hout & H).
  exists out. split; [assumption|].
  apply H; reflexivity.
Defined.

Lemma main_label_last_witness :
  pipeline_ok sample_train sample_test = true
  /\ exists train_featured test_featured,
      main sample_train sample_test = Ok (train_featured, test_featured)
      /\ last (names train_featured) "" = "exam_score".
Proof.
  split; [reflexivity|].
  destruct (main_label_last sample_train sample_test eq_refl)
    as (tr & te & pre & Hm & _ & _ & _ & Hl).
  exists tr, te. split; assumption.
Defined.

(** * Further properties of [features.py] *)

(** ** Whenever [create_features] returns *)

(** A frame returned by [create_features] is the closed form of the three
    stages, whatever the input was. *)
Lemma create_features_inv (df out : DataFrame) :
  create_features df = Ok out ->
  exists c1 c2 c3 g co ia sm ca sh sl den q p s1 s2,
    stages df c1 c2 c3 g co ia sm ca sh sl den q p s1 s2 out.
Proof.
  intros H. unfold create_features in H.
  bind_step H G1. bind_step H G2. bind_step H G3. bind_step H Gd.
  apply get_dummies_inv in Gd
    as (g & co & ia & sm & Lg & Lco & Lia & Lsm & ->).
  match type of Lg with
  | lookup _ (cols ?E) = _ => set (E' := E) in *
  end.
  assert (HE : forall m, mem m ordinal_cols = false ->
                         lookup m (cols E') = lookup m (cols df))
    by (intros m Hm; unfold E'; now apply lookup_encode_other).
  rewrite HE in Lg, Lco, Lia, Lsm by reflexivity.
  set (D := one_hot E' g co ia sm) in *.
  assert (HD : forall m, mem m nominal_cols = false ->
                         starts_with_nominal m = false ->
                         mem m ordinal_cols = false ->
                         lookup m (cols D) = lookup m (cols df)).
  { intros m H1 H2 H3. unfold D. rewrite lookup_one_hot_no_prefix by exact H2.
    rewrite H1. now apply HE. }
  bind_step H Gca. bind_step H Gsh. bind_step H Gden. bind_step H Gq.
  bind_step H Gsh1. bind_step H Gsl. bind_step H Gp.
  bind_step H Gsh2. bind_step H Gs1. bind_step H Gca2. bind_step H Gs2.
  apply getitem_Ok in G1, G2, G3, Gca, Gsh, Gsh1, Gsl, Gsh2, Gca2.
  rewrite lookup_setitem_other in G2 by neq_lit.
  rewrite !lookup_setitem_other in G3 by neq_lit.
  rewrite !lookup_setitem_other in Gsh1 by neq_lit.
  rewrite !lookup_setitem_other in Gsl by neq_lit.
  rewrite !lookup_setitem_other in Gsh2 by neq_lit.
  rewrite !lookup_setitem_other in Gca2 by neq_lit.
  rewrite HD in Gca, Gsh, Gsh1, Gsl, Gsh2, Gca2 by reflexivity.
  assert (a6 = a3) by congruence. assert (a9 = a3) by congruence.
  assert (a11 = a2) by congruence. subst a6 a9 a11.
  injection H as <-.
  exists a, a0, a1, g, co, ia, sm, a2, a3, a7, a4, a5, a8, a10, a12.
  constructor; auto.
Qed.

Lemma stages_nrows (df : DataFrame) (c1 c2 c3 : column) (g co ia sm : list obj)
      (ca sh sl den q p s1 s2 : column) (out : DataFrame) :
  stages df c1 c2 c3 g co ia sm ca sh sl den q p s1 s2 out ->
  nrows out = nrows df.
Proof.
  intros St. destruct St as [? ? ? ? ? ? ? ? ? ? ? ? ? ? ? ->].
  rewrite nrows_derive. simpl. apply nrows_encode.
Qed.

Lemma stages_nominal_gone (df : DataFrame) (c1 c2 c3 : column)
      (g co ia sm : list obj) (ca sh sl den q p s1 s2 : column)
      (out : DataFrame) (n : string) :
  stages df c1 c2 c3 g co ia sm ca sh sl den q p s1 s2 out ->
  In n nominal_cols -> has_col out n = false.
Proof.
  intros St Hp. destruct St as [? ? ? ? ? ? ? ? ? ? ? ? ? ? ? ->].
  unfold has_col.
  rewrite lookup_derive_other
    by (destruct Hp as [<-|[<-|[<-|[<-|[]]]]]; reflexivity).
  rewrite lookup_one_hot_no_prefix
    by (destruct Hp as [<-|[<-|[<-|[<-|[]]]]]; reflexivity).
  apply mem_In in Hp. now rewrite Hp.
Qed.

(** ** Applying [create_features] again *)

(** X1.  [create_features] cannot be applied to its own result: the four
    nominal columns are gone from every frame it returns, so a second call
    fails in [get_dummies] with a KeyError that names all four. *)
Theorem create_features_not_reentrant (df out : DataFrame) :
  create_features df = Ok out ->
  create_features out = Err (KeyError nominal_cols).
Proof.
  intros H.
  destruct (create_features_inv df out H)
    as (c1 & c2 & c3 & g & co & ia & sm & ca & sh & sl & den & q & p & s1
        & s2 & St).
  pose proof (stages_ordinal _ _ _ _ _ _ _ _ _ _ _ _ _ _ _ _ _
                "sleep_quality" sleep_quality_mapping c1 St
                (or_introl eq_refl) (st_l1 _ _ _ _ _ _ _ _ _ _ _ _ _ _ _ _ _ St))
    as O1.
  pose proof (stages_ordinal _ _ _ _ _ _ _ _ _ _ _ _ _ _ _ _ _
                "facility_rating" facility_rating_mapping c2 St
                (or_intror (or_introl eq_refl))
                (st_l2 _ _ _ _ _ _ _ _ _ _ _ _ _ _ _ _ _ St)) as O2.
  pose proof (stages_ordinal _ _ _ _ _ _ _ _ _ _ _ _ _ _ _ _ _
                "exam_difficulty" exam_difficulty_mapping c3 St
                (or_intror (or_intror (or_introl eq_refl)))
                (st_l3 _ _ _ _ _ _ _ _ _ _ _ _ _ _ _ _ _ St)) as O3.
  assert (Hg : forall n, In n nominal_cols -> has_col out n = false)
    by (intros n Hn; eapply stages_nominal_gone; eauto).
  clear St H. unfold create_features.
  rewrite (getitem_lookup _ _ _ O1). cbn [bind].
  erewrite getitem_lookup
    by (rewrite ?lookup_setitem_other by neq_lit; eassumption).
  cbn [bind].
  erewrite getitem_lookup
    by (rewrite ?lookup_setitem_other by neq_lit; eassumption).
  cbn [bind].
  match goal with
  | |- context [get_dummies ?E _] => fold (encode_ordinals out
      (series_map sleep_quality_mapping c1)
      (series_map facility_rating_mapping c2)
      (series_map exam_difficulty_mapping c3))
  end.
  unfold get_dummies. rewrite get_dummies_missing.
  unfold nominal_cols at 1. cbn [filter].
  rewrite !Hg by (simpl; tauto). reflexivity.
Qed.

Lemma create_features_not_reentrant_witness :
  exists out,
    create_features sample_train = Ok out
    /\ create_features out = Err (KeyError nominal_cols).
Proof.
  destruct (create_features sample_train) as [out|e] eqn:E;
    [|vm_compute in E; discriminate E].
  exists out. split; [reflexivity|].
  exact (create_features_not_reentrant sample_train out E).
Defined.

(** ** The errors of [main] *)

Lemma mapM_err {A B : Type} (f : A -> result B) (l : list A) (e : error) :
  mapM f l = Err e -> exists a, In a l /\ f a = Err e.
Proof.
  induction l as [|a l IH]; simpl; [discriminate|].
  destruct (f a) as [b|e'] eqn:Fa; cbn [bind].
  - destruct (mapM f l) as [bs|e'] eqn:M; cbn [bind]; [discriminate|].
    intros E. injection E as ->. destruct (IH eq_refl) as (x & Hx & Fx).
    exists x. split; [now right | exact Fx].
  - intros E. injection E as ->. exists a. split; [now left | exact Fa].
Qed.

Lemma getitem_not_value (df : DataFrame) (n : string) :
  getitem df n <> Err ValueError.
Proof. unfold getitem. destruct (lookup n (cols df)); discriminate. Qed.

Lemma get_dummies_1d_not_value (p : string) (c : column) :
  get_dummies_1d p c <> Err ValueError.
Proof. destruct c as [xs| | |]; simpl; try discriminate.
       destruct (levels xs); discriminate. Qed.

Lemma get_dummies_not_value (df : DataFrame) (ls : list string) :
  get_dummies df ls <> Err ValueError.
Proof.
  unfold get_dummies.
  destruct (filter (fun n => negb (has_col df n)) ls); [|discriminate].
  destruct (mapM _ ls) as [bs|e] eqn:M; cbn [bind]; [discriminate|].
  intros E. injection E as ->.
  apply mapM_err in M as (n & _ & Hn).
  destruct (getitem df n) as [c|e] eqn:G; cbn [bind] in Hn.
  - now apply get_dummies_1d_not_value in Hn.
  - injection Hn as ->. now apply getitem_not_value in G.
Qed.

Lemma add_scalar_not_value (c : column) (e : float) :
  add_scalar c e <> Err ValueError.
Proof. destruct c; discriminate. Qed.

Lemma col_div_not_value (a b : column) : col_div a b <> Err ValueError.
Proof.
  unfold col_div. destruct (as_floats a), (as_floats b); discriminate.
Qed.

Lemma col_mul_not_value (a b : column) : col_mul a b <> Err ValueError.
Proof. destruct a, b; discriminate. Qed.

Lemma col_sq_not_value (a : column) : col_sq a <> Err ValueError.
Proof. destruct a; discriminate. Qed.

Lemma concat_col_not_value (n m : nat) (a b : option column) :
  concat_col n m a b <> Err ValueError.
Proof. destruct a as [[]|], b as [[]|]; discriminate. Qed.

Lemma concat_frames_not_value (a b : DataFrame) :
  concat_frames a b <> Err ValueError.
Proof.
  unfold concat_frames.
  destruct (mapM _ _) as [cs|e] eqn:M; cbn [bind]; [discriminate|].
  intros E. injection E as ->. apply mapM_err in M as (n & _ & Hn).
  destruct (concat_col _ _ _ _) as [c|e] eqn:G; cbn [bind] in Hn;
    [discriminate|].
  injection Hn as ->. now apply concat_col_not_value in G.
Qed.

Ltac err_step H :=
  match type of H with
  | bind ?r _ = Err ValueError =>
      let E := fresh "G" in
      destruct r eqn:E; cbn [bind] in H;
      [| injection H as ->;
         first [ now apply getitem_not_value in E
               | now apply get_dummies_not_value in E
               | now apply add_scalar_not_value in E
               | now apply col_div_not_value in E
               | now apply col_mul_not_value in E
               | now apply col_sq_not_value in E
               | now apply concat_frames_not_value in E ] ]
  end.

Lemma create_features_not_value (df : DataFrame) :
  create_features df <> Err ValueError.
Proof.
  intros H. unfold create_features in H.
  repeat err_step H. discriminate H.
Qed.

Lemma concat_frames_inv (a b C : DataFrame) :
  concat_frames a b = Ok C ->
  nrows C = nrows a + nrows b
  /\ names C = names a ++ filter (fun n => negb (has_col a n)) (names b).
Proof.
  unfold concat_frames.
  destruct (mapM _ _) as [cs|e] eqn:M; cbn [bind]; [|discriminate].
  intros E. injection E as <-. split; [reflexivity|].
  exact (proj1 (mapM_labelled _ _ _ M)).
Qed.

(** X2.  The length check of the label assignment in [main] never fails: on
    a train table read by [read_csv] no run ends in a ValueError, whatever
    the test table is. *)
Theorem main_never_value_error (train_df test_df : DataFrame) :
  wf train_df = true -> main train_df test_df <> Err ValueError.
Proof.
  intros Hwf H. unfold main in H.
  destruct (getitem train_df "exam_score") as [target|e] eqn:Gt;
    cbn [bind] in H;
    [|injection H as ->; now apply getitem_not_value in Gt].
  apply getitem_Ok in Gt.
  unfold drop in H. cbn [filter] in H.
  rewrite (has_col_of_lookup _ _ _ Gt) in H. cbn [negb bind] in H.
  destruct (concat_frames _ test_df) as [C|e] eqn:GC; cbn [bind] in H;
    [|injection H as ->; now apply concat_frames_not_value in GC].
  destruct (create_features C) as [F|e] eqn:GF; cbn [bind] in H;
    [|injection H as ->; now apply create_features_not_value in GF].
  apply concat_frames_inv in GC as [NC _]. simpl in NC.
  destruct (create_features_inv C F GF)
    as (c1 & c2 & c3 & g & co & ia & sm & ca & sh & sl & den & q & p & s1
        & s2 & St).
  apply stages_nrows in St.
  pose proof (lens_lookup _ _ _ (wf_lens _ Hwf) Gt) as Nt.
  unfold setitem_values in H. simpl nrows in H.
  rewrite St, NC, Nt in H.
  replace (Nat.min (nrows train_df) (nrows train_df + nrows test_df))
    with (nrows train_df) in H by lia.
  rewrite Nat.eqb_refl in H. discriminate H.
Qed.

Lemma main_never_value_error_witness :
  wf sample_train = true /\ main sample_train sample_test <> Err ValueError.
Proof.
  split; [reflexivity|].
  exact (main_never_value_error sample_train sample_test eq_refl).
Defined.

(** X3.  [main] returns its two frames only if the train table has the
    label column and each of the nine source columns is in the train table
    or in the test table. *)
Theorem main_needs (train_df test_df tr te : DataFrame) :
  main train_df test_df = Ok (tr, te) ->
  has_col train_df "exam_score" = true
  /\ forall n, In n source_cols ->
               has_col train_df n = true \/ has_col test_df n = true.
Proof.
  intros H. unfold main in H.
  bind_step H Gl. apply getitem_Ok in Gl.
  unfold drop in H. cbn [filter] in H.
  rewrite (has_col_of_lookup _ _ _ Gl) in H. cbn [negb bind] in H.
  bind_step H GC. bind_step H GF.
  split; [now apply (has_col_of_lookup _ _ _ Gl)|].
  intros n Hn.
  pose proof (create_features_needs _ _ n GF Hn) as Hc.
  apply has_col_In in Hc.
  apply concat_frames_inv in GC as [_ NC]. rewrite NC in Hc.
  apply in_app_or in Hc as [Hc|Hc].
  - left. apply has_col_In. unfold names in Hc. simpl in Hc.
    rewrite names_remove_cols in Hc. now apply filter_In in Hc as [Hc _].
  - right. apply has_col_In. now apply filter_In in Hc as [Hc _].
Qed.

Lemma main_needs_witness :
  exists tr te,
    main sample_train sample_test = Ok (tr, te)
    /\ has_col sample_train "exam_score" = true.
Proof.
  destruct (main sample_train sample_test) as [[tr te]|e] eqn:E;
    [|vm_compute in E; discriminate E].
  exists tr, te. split; [reflexivity|].
  exact (proj1 (main_needs sample_train sample_test tr te E)).
Defined.

(** ** The label and the features *)

Lemma names_setitem_indep (df : DataFrame) (n : string) (c c' : column) :
  names (setitem df n c) = names (setitem df n c').
Proof.
  unfold setitem, names. destruct (has_col df n); simpl.
  - now rewrite !names_replace.
  - now rewrite !map_app.
Qed.

(** X4.  The values of the label never reach a feature: two train tables
    that differ only in the cells of exam_score give the same test frame and
    train frames that agree on every column but exam_score, which holds the
    label of its own table. *)
Theorem main_ignores_label_values
        (t1 t2 test_df tr1 te1 : DataFrame) (L2 : column) :
  nrows t1 = nrows t2 ->
  remove_cols ["exam_score"] (cols t1) = remove_cols ["exam_score"] (cols t2) ->
  lookup "exam_score" (cols t2) = Some L2 -> col_len L2 = nrows t2 ->
  main t1 test_df = Ok (tr1, te1) ->
  exists tr2,
    main t2 test_df = Ok (tr2, te1)
    /\ names tr2 = names tr1
    /\ lookup "exam_score" (cols tr2) = Some L2
    /\ forall n, n <> "exam_score" ->
                 lookup n (cols tr2) = lookup n (cols tr1).
Proof.
  intros Hn Hc L2t N2 H. unfold main in *.
  bind_step H Gl. apply getitem_Ok in Gl.
  unfold drop in *. cbn [filter] in *.
  rewrite (has_col_of_lookup _ _ _ Gl) in H.
  rewrite (has_col_of_lookup _ _ _ L2t), (getitem_lookup _ _ _ L2t).
  cbn [negb bind] in *. rewrite <- Hn, <- Hc.
  bind_step H GC. cbn [bind]. bind_step H GF. cbn [bind].
  apply concat_frames_inv in GC as [NC _]. simpl in NC.
  destruct (create_features_inv _ _ GF)
    as (c1 & c2 & c3 & g & co & ia & sm & ca & sh & sl & den & q & p & s1
        & s2 & St).
  apply stages_nrows in St.
  unfold setitem_values in *. simpl nrows in *.
  rewrite St, NC in *.
  replace (Nat.min (nrows t1) (nrows t1 + nrows test_df))
    with (nrows t1) in * by lia.
  rewrite N2, <- Hn, Nat.eqb_refl.
  destruct (Nat.eqb (col_len a) (nrows t1)); cbn [bind] in H; [|discriminate].
  injection H as <- <-.
  eexists. split; [reflexivity|]. split; [apply names_setitem_indep|].
  split; [apply lookup_setitem_same|].
  intros n Hne. now rewrite !lookup_setitem_other.
Qed.

Lemma main_ignores_label_values_witness :
  exists tr1 te1 tr2,
    main sample_train sample_test = Ok (tr1, te1)
    /\ main (setitem sample_train "exam_score" (ColFloat [1; 2; 3]%float))
            sample_test = Ok (tr2, te1)
    /\ names tr2 = names tr1.
Proof.
  destruct (main sample_train sample_test) as [[tr1 te1]|e] eqn:E;
    [|vm_compute in E; discriminate E].
  destruct (main_ignores_label_values
              sample_train
              (setitem sample_train "exam_score" (ColFloat [1; 2; 3]%float))
              sample_test tr1 te1 (ColFloat [1; 2; 3]%float)
              eq_refl eq_refl eq_refl eq_refl E) as (tr2 & H2 & Hn & _).
  exists tr1, te1, tr2. repeat split; assumption.
Defined.

(** ** One vocabulary for both tables *)

Lemma fresh_labels_names (a b : DataFrame) :
  names a = names b -> fresh_labels a = fresh_labels b.
Proof. unfold fresh_labels. now intros ->. Qed.

Lemma col_obj_split (n : nat) (z : column) (xa xb : list obj) :
  col_firstn n z = ColObj xa -> col_skipn n z = ColObj xb ->
  z = ColObj (xa ++ xb).
Proof.
  destruct z as [zs| | |]; simpl; try discriminate.
  intros E1 E2. injection E1 as <-. injection E2 as <-.
  now rewrite firstn_skipn.
Qed.

Lemma indicator_firstn (l : string) (xa xb : list obj) :
  col_firstn (List.length xa) (indicator l (xa ++ xb)) = indicator l xa.
Proof.
  unfold indicator. simpl. rewrite map_app, firstn_app, length_map.
  rewrite Nat.sub_diag. simpl. rewrite app_nil_r.
  now rewrite <- (length_map (obj_is l) xa), firstn_all.
Qed.

Lemma indicator_skipn (l : string) (xa xb : list obj) :
  col_skipn (List.length xa) (indicator l (xa ++ xb)) = indicator l xb.
Proof.
  unfold indicator. simpl. rewrite map_app, skipn_app, length_map.
  rewrite Nat.sub_diag. simpl.
  now rewrite <- (length_map (obj_is l) xa), skipn_all.
Qed.

Lemma dummy_not_label (p l : string) :
  In p nominal_cols -> dummy_name p l <> "exam_score".
Proof.
  intros [<-|[<-|[<-|[<-|[]]]]]; discriminate.
Qed.

(** X5.  The indicator columns of the two frames [main] writes are the same
    and come from the categories of both tables together: a category observed
    in either table (but the lexically first of all of them) has its
    indicator in both frames, each holding the indicator of its own rows, so
    a category seen only in the test table is an all-False column of the
    train frame. *)
Theorem main_shared_vocabulary (train_df test_df : DataFrame) :
  pipeline_ok train_df test_df = true -> fresh_labels test_df = true ->
  exists train_featured test_featured,
    main train_df test_df = Ok (train_featured, test_featured)
    /\ forall p xa xb,
        In p nominal_cols ->
        lookup p (cols train_df) = Some (ColObj xa) ->
        lookup p (cols test_df) = Some (ColObj xb) ->
        (forall l, In l (levels (xa ++ xb))
                   <-> In (OStr l) xa \/ In (OStr l) xb)
        /\ filter (String.prefix (p ++ "_")) (names train_featured)
           = map (dummy_name p) (tl (levels (xa ++ xb)))
        /\ filter (String.prefix (p ++ "_")) (names test_featured)
           = map (dummy_name p) (tl (levels (xa ++ xb)))
        /\ forall l,
            In l (tl (levels (xa ++ xb))) ->
            lookup (dummy_name p l) (cols train_featured)
            = Some (indicator l xa)
            /\ lookup (dummy_name p l) (cols test_featured)
               = Some (indicator l xb).
Proof.
  intros Hok Hfresh.
  destruct (pipeline_stages _ _ Hok)
    as (target & C & F & c1 & c2 & c3 & g & co & ia & sm & ca & sh & sl
        & den & q & r & s1 & s2 & Pl & St).
  pose proof Hok as Hwf. unfold pipeline_ok in Hwf.
  rewrite !andb_true_iff in Hwf.
  destruct Hwf as [[[[[Wtr _] _] _] _] _].
  pose proof (wf_lens _ Wtr) as Ltr.
  destruct Pl as [Lt Nt HC Hrows Hnames Hcols Htest Hno _ _ HF Hmain].
  assert (HfC : fresh_labels C = true)
    by (now rewrite (fresh_labels_names C test_df Hnames)).
  eexists _, _. split; [exact Hmain|].
  intros p xa xb Hp Lxa Lxb.
  assert (Hne : p <> "exam_score")
    by (destruct Hp as [<-|[<-|[<-|[<-|[]]]]]; discriminate).
  destruct (Hcols p _ Hne Lxa) as (y & z & Hy & Hz & Hfst & Hskp & _).
  assert (Ey : y = ColObj xb) by congruence. rewrite Ey in Hskp.
  pose proof (col_obj_split _ _ _ _ Hfst Hskp) as ->.
  pose proof (lens_lookup _ _ _ Ltr Lxa) as Nxa. simpl in Nxa.
  pose proof (stages_dummy_labels_exact _ _ _ _ _ _ _ _ _ _ _ _ _ _ _ _ _ p
                St HfC Hp) as Hex.
  unfold dummy_labels in Hex. rewrite Hz in Hex.
  pose proof (stages_nominal _ _ _ _ _ _ _ _ _ _ _ _ _ _ _ _ _ _ _ St Hp Hz)
    as Hpx.
  split; [|split; [|split]].
  - intros l. rewrite In_levels, in_app_iff. tauto.
  - rewrite names_setitem_new, names_iloc_to.
    + rewrite filter_app, Hex.
      replace (filter (String.prefix (p ++ "_")) ["exam_score"])
        with (@nil string)
        by (destruct Hp as [<-|[<-|[<-|[<-|[]]]]]; reflexivity).
      apply app_nil_r.
    + unfold has_col. rewrite lookup_iloc_to.
      now rewrite (stages_absent _ _ _ _ _ _ _ _ _ _ _ _ _ _ _ _ _ _ St).
  - now rewrite names_iloc_from.
  - intros l Hl.
    assert (HlF : lookup (dummy_name p l) (cols F)
                  = Some (indicator l (xa ++ xb))).
    { destruct St as [? ? ? ? ? ? ? ? ? ? ? ? ? ? ? ->].
      rewrite lookup_derive_other
        by (destruct Hp as [<-|[<-|[<-|[<-|[]]]]]; reflexivity).
      apply lookup_dummy_one_hot; auto.
      intros n Hn. rewrite lookup_encode_other.
      - now apply fresh_no_dummy.
      - destruct (mem n ordinal_cols) eqn:Em; [|reflexivity].
        apply mem_In in Em.
        destruct Em as [<-|[<-|[<-|[]]]]; discriminate Hn. }
    split.
    + rewrite lookup_setitem_other by (now apply dummy_not_label).
      rewrite lookup_iloc_to, HlF. cbn [option_map].
      now rewrite <- Nxa, indicator_firstn.
    + rewrite lookup_iloc_from, HlF. cbn [option_map].
      now rewrite <- Nxa, indicator_skipn.
Qed.

Lemma main_shared_vocabulary_witness :
  pipeline_ok sample_train sample_test = true
  /\ fresh_labels sample_test = true
  /\ exists train_featured test_featured,
      main sample_train sample_test = Ok (train_featured, test_featured)
      /\ lookup (dummy_name "course" "ba") (cols train_featured)
         = Some (indicator "ba" [OStr "b.sc"; OStr "b.sc"; OStr "b.tech"]).
Proof.
  split; [reflexivity|]. split; [reflexivity|].
  destruct (main_shared_vocabulary sample_train sample_test eq_refl eq_refl)
    as (tr & te & Hm & H).
  exists tr, te. split; [exact Hm|].
  destruct (H "course" [OStr "b.sc"; OStr "b.sc"; OStr "b.tech"]
              [OStr "ba"; OStr "b.sc"]
              (or_intror (or_introl eq_refl)) eq_refl eq_refl)
    as (_ & _ & _ & Hl).
  apply Hl. vm_compute. tauto.
Defined.

(** ** Derivation and split commute *)

Lemma zip_with_firstn {A B C : Type} (f : A -> B -> C) (n : nat) (l : list A)
      (l' : list B) :
  firstn n (zip_with f l l') = zip_with f (firstn n l) (firstn n l').
Proof.
  revert l l'. induction n as [|n IH]; intros [|a l] [|b l']; simpl; auto.
  now rewrite IH.
Qed.

Lemma zip_with_skipn {A B C : Type} (f : A -> B -> C) (n : nat) (l : list A)
      (l' : list B) :
  List.length l = List.length l' ->
  skipn n (zip_with f l l') = zip_with f (skipn n l) (skipn n l').
Proof.
  revert l l'. induction n as [|n IH]; intros [|a l] [|b l']; simpl; auto;
    discriminate.
Qed.

Lemma as_floats_firstn (n : nat) (c : column) :
  as_floats (col_firstn n c) = option_map (firstn n) (as_floats c).
Proof. destruct c; simpl; now rewrite ?firstn_map. Qed.

Lemma as_floats_skipn (n : nat) (c : column) :
  as_floats (col_skipn n c) = option_map (skipn n) (as_floats c).
Proof. destruct c; simpl; now rewrite ?skipn_map. Qed.

Lemma add_scalar_firstn (n : nat) (c d : column) (e : float) :
  add_scalar c e = Ok d ->
  add_scalar (col_firstn n c) e = Ok (col_firstn n d).
Proof.
  destruct c; simpl; try discriminate; intros E; injection E as <-;
    simpl; now rewrite firstn_map.
Qed.

Lemma add_scalar_skipn (n : nat) (c d : column) (e : float) :
  add_scalar c e = Ok d ->
  add_scalar (col_skipn n c) e = Ok (col_skipn n d).
Proof.
  destruct c; simpl; try discriminate; intros E; injection E as <-;
    simpl; now rewrite skipn_map.
Qed.

Lemma col_div_firstn (n : nat) (a b q : column) :
  col_div a b = Ok q ->
  col_div (col_firstn n a) (col_firstn n b) = Ok (col_firstn n q).
Proof.
  unfold col_div. rewrite !as_floats_firstn.
  destruct (as_floats a), (as_floats b); simpl; try discriminate.
  intros E. injection E as <-. simpl. now rewrite zip_with_firstn.
Qed.

Lemma col_div_skipn (n : nat) (a b q : column) :
  col_len a = col_len b -> col_div a b = Ok q ->
  col_div (col_skipn n a) (col_skipn n b) = Ok (col_skipn n q).
Proof.
  unfold col_div. rewrite !as_floats_skipn. intros Hl.
  destruct (as_floats a) as [xs|] eqn:Ea, (as_floats b) as [ys|] eqn:Eb;
    simpl; try discriminate.
  intros E. injection E as <-. simpl. rewrite zip_with_skipn; [reflexivity|].
  now rewrite (as_floats_len _ _ Ea), (as_floats_len _ _ Eb).
Qed.

Lemma col_mul_firstn (n : nat) (a b q : column) :
  col_mul a b = Ok q ->
  col_mul (col_firstn n a) (col_firstn n b) = Ok (col_firstn n q).
Proof.
  destruct a, b; simpl; try discriminate; intros E; injection E as <-;
    simpl; now rewrite zip_with_firstn, ?firstn_map.
Qed.

Lemma col_mul_skipn (n : nat) (a b q : column) :
  col_len a = col_len b -> col_mul a b = Ok q ->
  col_mul (col_skipn n a) (col_skipn n b) = Ok (col_skipn n q).
Proof.
  destruct a, b; simpl; try discriminate; intros Hl E; injection E as <-;
    simpl in *; rewrite zip_with_skipn, ?skipn_map; try reflexivity;
    now rewrite ?length_map in *.
Qed.

Lemma col_sq_firstn (n : nat) (a q : column) :
  col_sq a = Ok q -> col_sq (col_firstn n a) = Ok (col_firstn n q).
Proof.
  destruct a; simpl; try discriminate; intros E; injection E as <-;
    simpl; now rewrite firstn_map.
Qed.

Lemma col_sq_skipn (n : nat) (a q : column) :
  col_sq a = Ok q -> col_sq (col_skipn n a) = Ok (col_skipn n q).
Proof.
  destruct a; simpl; try discriminate; intros E; injection E as <-;
    simpl; now rewrite skipn_map.
Qed.

Lemma ok_inj {A : Type} (a b : A) : Ok a = Ok b -> a = b.
Proof. now intros E; injection E. Qed.

(** X6.  The four derived columns of the frames [main] writes do not depend
    on the other table: for the train frame they are the ones
    [create_features] computes from the train table alone (label removed), for
    the test frame the ones it computes from the test table alone. *)
Theorem main_derived_columns_local (train_df test_df : DataFrame) :
  pipeline_ok train_df test_df = true ->
  exists train_featured test_featured Fa Fb,
    main train_df test_df = Ok (train_featured, test_featured)
    /\ create_features
         (mkDF (nrows train_df) (remove_cols ["exam_score"] (cols train_df)))
       = Ok Fa
    /\ create_features test_df = Ok Fb
    /\ forall d,
        In d derived_cols ->
        lookup d (cols train_featured) = lookup d (cols Fa)
        /\ lookup d (cols test_featured) = lookup d (cols Fb).
Proof.
  intros Hok.
  destruct (pipeline_stages _ _ Hok)
    as (target & C & F & c1 & c2 & c3 & g & co & ia & sm & ca & sh & sl
        & den & q & p & s1 & s2 & Pl & St).
  pose proof Hok as Hwf. unfold pipeline_ok in Hwf.
  rewrite !andb_true_iff in Hwf.
  destruct Hwf as [[[[[Wtr Wte] _] _] Hs] Hraw].
  pose proof (wf_lens _ Wtr) as Ltr.
  set (T := mkDF (nrows train_df) (remove_cols ["exam_score"] (cols train_df)))
    in *.
  assert (HrT : raw_ok T = true).
  { apply (raw_ok_transfer test_df T); [|exact Hraw].
    intros n y Hy.
    destruct (schema_lookup _ _ n y (schema_sym _ _ Hs) Hy) as (x & Hx & Hd).
    now exists x. }
  destruct (create_features_stages T HrT)
    as (a1 & a2 & a3 & ag & aco & aia & asm & aca & ash & asl & aden & aq & ap
        & as1 & as2 & Fa & Sa & HFa).
  destruct (create_features_stages test_df Hraw)
    as (b1 & b2 & b3 & bg & bco & bia & bsm & bca & bsh & bsl & bden & bq & bp
        & bs1 & bs2 & Fb & Sb & HFb).
  destruct Pl as [Lt Nt HC Hrows Hnames Hcols Htest Hno HlC _ HF Hmain].
  eexists _, _, Fa, Fb. repeat (split; [eassumption|]).
  assert (Hop : forall n x y,
             n <> "exam_score" -> lookup n (cols T) = Some x ->
             lookup n (cols test_df) = Some y ->
             exists z, lookup n (cols C) = Some z
                       /\ col_len z = nrows C
                       /\ x = col_firstn (nrows train_df) z
                       /\ y = col_skipn (nrows train_df) z).
  { intros n x y Hne Hx Hy. unfold T in Hx. simpl in Hx.
    rewrite lookup_drop_label in Hx. apply String.eqb_neq in Hne as Hne'.
    rewrite Hne' in Hx.
    destruct (Hcols n x Hne Hx) as (y' & z & Hy' & Hz & Hfst & Hskp & _).
    exists z. repeat split; auto; try congruence.
    eapply lens_lookup; eauto. }
  destruct St as [_ _ _ _ _ _ _ Lca Lsh Lsl Hden Hq Hp Hs1 Hs2 ->].
  destruct Sa as [_ _ _ _ _ _ _ Aca Ash Asl Aden Aq Ap As1 As2 ->].
  destruct Sb as [_ _ _ _ _ _ _ Bca Bsh Bsl Bden Bq Bp Bs1 Bs2 ->].
  destruct (Hop "class_attendance" aca bca) as (z1 & Z1 & N1 & -> & ->);
    [neq_lit | assumption | assumption |].
  destruct (Hop "study_hours" ash bsh) as (z2 & Z2 & N2 & -> & ->);
    [neq_lit | assumption | assumption |].
  destruct (Hop "sleep_hours" asl bsl) as (z3 & Z3 & N3 & -> & ->);
    [neq_lit | assumption | assumption |].
  assert (z1 = ca) by congruence. assert (z2 = sh) by congruence.
  assert (z3 = sl) by congruence. subst z1 z2 z3.
  set (n := nrows train_df) in *.
  pose proof (col_len_add_scalar _ _ _ Hden) as Nden.
  rewrite (add_scalar_firstn n _ _ _ Hden) in Aden. apply ok_inj in Aden.
  rewrite (add_scalar_skipn n _ _ _ Hden) in Bden. apply ok_inj in Bden.
  subst aden bden.
  rewrite (col_div_firstn n _ _ _ Hq) in Aq. apply ok_inj in Aq.
  assert (Ncd : col_len ca = col_len den) by congruence.
  assert (Nhl : col_len sh = col_len sl) by congruence.
  rewrite (col_div_skipn n ca den q Ncd Hq) in Bq.
  apply ok_inj in Bq.
  rewrite (col_mul_firstn n _ _ _ Hp) in Ap. apply ok_inj in Ap.
  rewrite (col_mul_skipn n sh sl p Nhl Hp) in Bp.
  apply ok_inj in Bp.
  rewrite (col_sq_firstn n _ _ Hs1) in As1. apply ok_inj in As1.
  rewrite (col_sq_skipn n _ _ Hs1) in Bs1. apply ok_inj in Bs1.
  rewrite (col_sq_firstn n _ _ Hs2) in As2. apply ok_inj in As2.
  rewrite (col_sq_skipn n _ _ Hs2) in Bs2. apply ok_inj in Bs2.
  subst aq bq ap bp as1 bs1 as2 bs2.
  intros d Hd.
  rewrite lookup_setitem_other
    by (destruct Hd as [<-|[<-|[<-|[<-|[]]]]]; discriminate).
  rewrite lookup_iloc_to, lookup_iloc_from.
  match goal with
  | |- context [derive ?D q p s1 s2] =>
      destruct (lookup_derive D q p s1 s2) as (E1 & E2 & E3 & E4)
  end.
  match goal with
  | |- context [derive ?D (col_firstn n q) _ _ _] =>
      destruct (lookup_derive D (col_firstn n q) (col_firstn n p)
                              (col_firstn n s1) (col_firstn n s2))
        as (A1 & A2 & A3 & A4)
  end.
  match goal with
  | |- context [derive ?D (col_skipn n q) _ _ _] =>
      destruct (lookup_derive D (col_skipn n q) (col_skipn n p)
                              (col_skipn n s1) (col_skipn n s2))
        as (B1 & B2 & B3 & B4)
  end.
  destruct Hd as [<-|[<-|[<-|[<-|[]]]]].
  - rewrite E1, A1, B1. split; reflexivity.
  - rewrite E2, A2, B2. split; reflexivity.
  - rewrite E3, A3, B3. split; reflexivity.
  - rewrite E4, A4, B4. split; reflexivity.
Qed.

Lemma main_derived_columns_local_witness :
  pipeline_ok sample_train sample_test = true
  /\ exists train_featured test_featured Fb,
      main sample_train sample_test = Ok (train_featured, test_featured)
      /\ create_features sample_test = Ok Fb
      /\ lookup "study_efficiency" (cols test_featured)
         = lookup "study_efficiency" (cols Fb).
Proof.
  split; [reflexivity|].
  destruct (main_derived_columns_local sample_train sample_test eq_refl)
    as (tr & te & Fa & Fb & Hm & _ & HFb & H).
  exists tr, te, Fb. repeat split; try assumption.
  apply (H "study_efficiency"). now left.
Defined.

(** ** int64 squares *)

Lemma wrap64_small (z : Z) :
  (- 2 ^ 63 <= z < 2 ^ 63)%Z -> wrap64 z = z.
Proof.
  intros H. unfold wrap64. rewrite Z.mod_small; lia.
Qed.

Lemma square_small (x : Z) :
  (Z.abs x <= 3037000499)%Z -> (- 2 ^ 63 <= x * x < 2 ^ 63)%Z.
Proof.
  intros H. assert (H0 : (0 <= x * x)%Z) by apply Z.square_nonneg.
  assert (H1 : (x * x <= 3037000499 * 3037000499)%Z).
  { rewrite <- Z.abs_square. apply Z.mul_le_mono_nonneg; lia. }
  split; [lia|]. eapply Z.le_lt_trans; [exact H1|]. reflexivity.
Qed.

(** X7.  On an int64 study_hours or class_attendance column the square stays
    int64 and is computed modulo 2^64: it is the exact square for every cell
    of magnitude at most 3037000499, and that bound is sharp, the square of
    3037000500 comes out negative. *)
Theorem create_features_int64_squares (df : DataFrame) (src dst : string)
        (xs : list Z) :
  raw_ok df = true ->
  In (src, dst) [("study_hours", "study_hours_sq");
                 ("class_attendance", "class_attendance_sq")] ->
  lookup src (cols df) = Some (ColInt xs) ->
  exists out s,
    create_features df = Ok out
    /\ lookup dst (cols out) = Some (ColInt s)
    /\ List.length s = List.length xs
    /\ (forall i x,
           nth_error xs i = Some x ->
           nth_error s i = Some (wrap64 (x * x))
           /\ ((Z.abs x <= 3037000499)%Z ->
               nth_error s i = Some (x * x)%Z))
    /\ (wrap64 (3037000500 * 3037000500) < 0)%Z.
Proof.
  intros Hraw Hin Hl.
  destruct (create_features_stages df Hraw)
    as (c1 & c2 & c3 & g & co & ia & sm & ca & sh & sl & den & q & p & s1
        & s2 & out & St & Hout).
  destruct St as [_ _ _ _ _ _ _ Lca Lsh Lsl Hden Hq Hp Hs1 Hs2 ->].
  destruct (lookup_derive
              (one_hot (encode_ordinals df c1 c2 c3) g co ia sm) q p s1 s2)
    as (_ & _ & E3 & E4).
  exists (derive (one_hot (encode_ordinals df c1 c2 c3) g co ia sm) q p s1 s2),
    (map (fun x => wrap64 (x * x)) xs).
  split; [exact Hout|].
  assert (Hsq : forall i x,
             nth_error xs i = Some x ->
             nth_error (map (fun x => wrap64 (x * x)) xs) i
             = Some (wrap64 (x * x))
             /\ ((Z.abs x <= 3037000499)%Z ->
                 nth_error (map (fun x => wrap64 (x * x)) xs) i
                 = Some (x * x)%Z)).
  { intros i x Hx. rewrite nth_error_map, Hx. simpl. split; [reflexivity|].
    intros Hb. now rewrite wrap64_small by (now apply square_small). }
  destruct Hin as [E|[E|[]]]; injection E as <- <-.
  - assert (sh = ColInt xs) by congruence. subst sh.
    simpl in Hs1. injection Hs1 as <-.
    repeat split; auto; [apply length_map | apply Hsq; auto
                         | apply Hsq; auto].
  - assert (ca = ColInt xs) by congruence. subst ca.
    simpl in Hs2. injection Hs2 as <-.
    repeat split; auto; [apply length_map | apply Hsq; auto
                         | apply Hsq; auto].
Qed.

(** ** The dtype of an encoded ordinal column *)

Lemma forallb_is_some_map {A B : Type} (f : A -> option B) (l : list A) :
  forallb is_some (map f l) = true <-> forall a, In a l -> f a <> None.
Proof.
  rewrite forallb_forall. split.
  - intros H a Ha E. specialize (H (f a) (in_map f l a Ha)).
    rewrite E in H. discriminate.
  - intros H o Ho. apply in_map_iff in Ho as (a & <- & Ha).
    specialize (H a Ha). now destruct (f a).
Qed.

Lemma dict_get_key_inv (k0 k1 k2 s : string) :
  dict_get [(k0, 0%Z); (k1, 1%Z); (k2, 2%Z)] s <> None ->
  s = k0 \/ s = k1 \/ s = k2.
Proof.
  cbn [dict_get].
  destruct (String.eqb_spec s k0); [auto|].
  destruct (String.eqb_spec s k1); [auto|].
  destruct (String.eqb_spec s k2); [auto|]. congruence.
Qed.

Lemma In_col_cells (c : column) (v : cell) :
  In v (col_cells c) <-> exists i, cell_at c i = Some v.
Proof.
  split.
  - intros H. apply In_nth_error in H as [i H]. exists i.
    now rewrite cell_at_cells.
  - intros [i H]. rewrite cell_at_cells in H. now apply nth_error_In in H.
Qed.

(** X8.  An encoded ordinal column is int64 exactly when every cell of the
    input column is one of the three keys of its mapping table; a single cell
    that is none of them (another string, a missing value) turns the whole
    column into float64, so that every row, codes included, holds a float. *)
Theorem create_features_ordinal_dtype (df : DataFrame) :
  raw_ok df = true ->
  exists out,
    create_features df = Ok out
    /\ forall n k0 k1 k2 c,
        In (n, [k0; k1; k2])
           [("sleep_quality", ["poor"; "average"; "good"]);
            ("facility_rating", ["low"; "medium"; "high"]);
            ("exam_difficulty", ["easy"; "moderate"; "hard"])] ->
        lookup n (cols df) = Some c ->
        exists c',
          lookup n (cols out) = Some c'
          /\ (dtype_of c' = DInt64 \/ dtype_of c' = DFloat64)
          /\ (dtype_of c' = DInt64
              <-> forall i v, cell_at c i = Some v ->
                              v = CStr k0 \/ v = CStr k1 \/ v = CStr k2)
          /\ (forall i v,
                 cell_at c i = Some v ->
                 v <> CStr k0 -> v <> CStr k1 -> v <> CStr k2 ->
                 dtype_of c' = DFloat64
                 /\ forall j, j < col_len c ->
                              exists f, cell_at c' j = Some (CFloat f)).
Proof.
  intros Hraw.
  destruct (create_features_stages df Hraw)
    as (c1 & c2 & c3 & g & co & ia & sm & ca & sh & sl & den & q & p & s1
        & s2 & out & St & Hout).
  exists out. split; [exact Hout|].
  intros n k0 k1 k2 c Hin Hl.
  assert (Hd : In (n, [(k0, 0%Z); (k1, 1%Z); (k2, 2%Z)]) ordinal_mappings).
  { destruct Hin as [E|[E|[E|[]]]]; injection E as <- <- <- <-; simpl; auto. }
  set (d := [(k0, 0%Z); (k1, 1%Z); (k2, 2%Z)]) in *.
  exists (series_map d c).
  split; [eapply stages_ordinal; eauto|].
  assert (Hkey : forall v, cell_code d v <> None
                           <-> v = CStr k0 \/ v = CStr k1 \/ v = CStr k2).
  { intros v. split.
    - destruct v as [s| | |]; cbn [cell_code]; try congruence.
      intros H. apply dict_get_key_inv in H.
      destruct H as [-> | [-> | ->]]; auto.
    - intros H E.
      assert (Hs : exists s, v = CStr s /\ (s = k0 \/ s = k1 \/ s = k2))
        by (destruct H as [-> | [-> | ->]]; eauto).
      destruct Hs as (s & -> & Hs). cbn [cell_code] in E.
      destruct (String.eqb_spec s k0) as [E0|N0];
        [unfold d in E; cbn [dict_get] in E;
         rewrite E0, String.eqb_refl in E; discriminate|].
      destruct (String.eqb_spec s k1) as [E1|N1];
        [unfold d in E; cbn [dict_get] in E;
         apply String.eqb_neq in N0;
         rewrite N0, E1, String.eqb_refl in E; discriminate|].
      destruct Hs as [?|[?|E2]]; try contradiction.
      unfold d in E; cbn [dict_get] in E.
      apply String.eqb_neq in N0, N1.
      rewrite N0, N1, E2, String.eqb_refl in E. discriminate. }
  assert (Hall : forallb is_some (map (cell_code d) (col_cells c)) = true
                 <-> forall i v, cell_at c i = Some v ->
                                 v = CStr k0 \/ v = CStr k1 \/ v = CStr k2).
  { rewrite forallb_is_some_map. split.
    - intros H i v Hv. apply Hkey, H, In_col_cells. now exists i.
    - intros H v Hv. apply In_col_cells in Hv as [i Hv].
      apply Hkey. now apply (H i). }
  unfold series_map.
  destruct (forallb is_some (map (cell_code d) (col_cells c))) eqn:E.
  - split; [now left|]. split.
    + split; [intros _; now apply Hall|reflexivity].
    + intros i v Hv H0 H1 H2. exfalso.
      destruct (proj1 Hall eq_refl i v Hv) as [?|[?|?]]; contradiction.
  - split; [now right|]. split.
    + split; [discriminate|]. intros H. apply Hall in H. discriminate.
    + intros i v Hv H0 H1 H2. split; [reflexivity|].
      intros j Hj. rewrite col_len_cells in Hj.
      cbn [cell_at]. rewrite nth_error_map.
      destruct (nth_error (map (cell_code d) (col_cells c)) j) as [o|] eqn:Ej.
      * now eexists.
      * apply nth_error_None in Ej. rewrite length_map in Ej. lia.
Qed.

Lemma create_features_int64_squares_witness :
  exists out s,
    create_features
      (setitem sample_test "study_hours" (ColInt [3; -4]%Z)) = Ok out
    /\ lookup "study_hours_sq" (cols out) = Some (ColInt s)
    /\ List.length s = 2.
Proof.
  destruct (create_features_int64_squares
              (setitem sample_test "study_hours" (ColInt [3; -4]%Z))
              "study_hours" "study_hours_sq" [3; -4]%Z
              eq_refl (or_introl eq_refl) eq_refl)
    as (out & s & Hout & Hs & Hlen & _).
  exists out, s. repeat split; assumption.
Defined.

Lemma create_features_ordinal_dtype_witness :
  raw_ok sample_test = true
  /\ lookup "sleep_quality" (cols sample_test)
     = Some (ColObj [OStr "average"; OStr "great"])
  /\ lookup "facility_rating" (cols sample_test)
     = Some (ColObj [OStr "low"; OStr "high"])
  /\ exists out c' c'',
      create_features sample_test = Ok out
      /\ lookup "sleep_quality" (cols out) = Some c'
      /\ dtype_of c' = DFloat64
      /\ lookup "facility_rating" (cols out) = Some c''
      /\ dtype_of c'' = DInt64.
Proof.
  split; [reflexivity|]. split; [reflexivity|]. split; [reflexivity|].
  destruct (create_features_ordinal_dtype sample_test eq_refl)
    as (out & Hout & H).
  destruct (H "sleep_quality" "poor" "average" "good"
              (ColObj [OStr "average"; OStr "great"])
              (or_introl eq_refl) eq_refl) as (c' & Hc & _ & _ & Hf).
  destruct (H "facility_rating" "low" "medium" "high"
              (ColObj [OStr "low"; OStr "high"])
              (or_intror (or_introl eq_refl)) eq_refl)
    as (c'' & Hc' & _ & Hi & _).
  exists out, c', c''.
  split; [exact Hout|]. split; [exact Hc|]. split.
  - apply (Hf 1 (CStr "great") eq_refl); discriminate.
  - split; [exact Hc'|]. apply Hi.
    intros [|[|[|i]]] v Hv; simpl in Hv; try discriminate;
      injection Hv as <-; auto.
Defined.

(** ** Tables without rows, tables without nominal columns *)

Lemma dummy_labels_empty (df : DataFrame) (p : string) :
  lens_ok df -> nrows df = 0 -> dummy_labels df p = [].
Proof.
  intros Hl H0. unfold dummy_labels.
  destruct (lookup p (cols df)) as [[xs| | |]|] eqn:E; try reflexivity.
  pose proof (lens_lookup _ _ _ Hl E) as N. simpl in N. rewrite H0 in N.
  destruct xs; [reflexivity | discriminate].
Qed.

(** X9.  On a raw table without rows [create_features] still returns a
    frame: it has no rows and no indicator column at all, its labels are the
    labels of the input that are not nominal followed by the four derived
    labels. *)
Theorem create_features_no_rows (df : DataFrame) :
  wf df = true -> raw_ok df = true -> no_derived_labels df = true ->
  nrows df = 0 ->
  exists out,
    create_features df = Ok out
    /\ nrows out = 0
    /\ names out =
       filter (fun n => negb (mem n nominal_cols)) (names df) ++ derived_cols
    /\ forall n c, In (n, c) (cols out) -> col_len c = 0.
Proof.
  intros Hwf Hraw Hnd H0.
  destruct (create_features_stages df Hraw)
    as (c1 & c2 & c3 & g & co & ia & sm & ca & sh & sl & den & q & p & s1
        & s2 & out & St & Hout).
  destruct (stages_rows _ _ _ _ _ _ _ _ _ _ _ _ _ _ _ _ _ St (wf_lens _ Hwf))
    as [Hn Hl].
  exists out. split; [exact Hout|]. split; [congruence|]. split.
  - rewrite (stages_names _ _ _ _ _ _ _ _ _ _ _ _ _ _ _ _ _ St Hnd).
    unfold nominal_cols at 2, flat_map.
    now rewrite !(dummy_labels_empty df _ (wf_lens _ Hwf) H0).
  - intros n c Hin. rewrite (Hl n c Hin). congruence.
Qed.

Lemma create_features_no_rows_witness :
  exists out,
    create_features (iloc_to 0 sample_test) = Ok out /\ nrows out = 0.
Proof.
  destruct (create_features_no_rows (iloc_to 0 sample_test)
              eq_refl eq_refl eq_refl eq_refl) as (out & Hout & Hn & _).
  exists out. split; assumption.
Defined.

(** X10.  When the three ordinal columns are there and nominal columns are
    not, [create_features] fails with one KeyError that names every missing
    nominal column, in the order of the list in the source, whatever the
    dtypes of the other columns are. *)
Theorem create_features_missing_nominal (df : DataFrame) :
  forallb (has_col df) ordinal_cols = true ->
  filter (fun n => negb (has_col df n)) nominal_cols <> [] ->
  create_features df =
  Err (KeyError (filter (fun n => negb (has_col df n)) nominal_cols)).
Proof.
  intros Ho Hm. simpl in Ho. rewrite !andb_true_iff in Ho.
  destruct Ho as (H1 & H2 & H3 & _).
  apply has_col_lookup in H1 as [c1 L1], H2 as [c2 L2], H3 as [c3 L3].
  unfold create_features.
  rewrite (getitem_lookup _ _ _ L1). cbn [bind].
  erewrite getitem_lookup
    by (rewrite ?lookup_setitem_other by neq_lit; eassumption).
  cbn [bind].
  erewrite getitem_lookup
    by (rewrite ?lookup_setitem_other by neq_lit; eassumption).
  cbn [bind].
  fold (encode_ordinals df c1 c2 c3).
  unfold get_dummies. rewrite get_dummies_missing.
  destruct (filter (fun n => negb (has_col df n)) nominal_cols);
    [contradiction | reflexivity].
Qed.

Lemma create_features_missing_nominal_witness :
  create_features
    (mkDF 2 (remove_cols ["course"; "gender"] (cols sample_test)))
  = Err (KeyError ["gender"; "course"]).
Proof.
  apply (create_features_missing_nominal
           (mkDF 2 (remove_cols ["course"; "gender"] (cols sample_test)))).
  - reflexivity.
  - discriminate.
Defined.

(** * Properties of the report script *)

(** ** The feature lists *)

Lemma In_features (df : DataFrame) (c : string) :
  In c (Eda.features df)
  <-> In c (names df) /\ c <> Eda.TARGET /\ c <> Eda.ID_COL.
Proof.
  unfold Eda.features. rewrite filter_In. simpl.
  rewrite orb_false_r, negb_true_iff, orb_false_iff, !String.eqb_neq.
  tauto.
Qed.

Lemma In_select_dtypes (p : column -> bool) (df : DataFrame)
      (ls : list string) (c : string) :
  In c (Eda.select_dtypes p df ls)
  <-> In c ls /\ exists col, lookup c (cols df) = Some col /\ p col = true.
Proof.
  unfold Eda.select_dtypes. rewrite filter_In. unfold has_dtype.
  destruct (lookup c (cols df)) as [col|].
  - split; intros [H1 H2]; split; auto.
    + now exists col.
    + destruct H2 as (col' & E & Hp). congruence.
  - split; intros [H1 H2]; [discriminate|].
    destruct H2 as (col' & E & _). discriminate.
Qed.

(** [filter] keeps the order of a list. *)
Lemma filter_keeps_order {A : Type} (f : A -> bool) (l : list A)
      (i j : nat) (a b : A) :
  i < j ->
  nth_error (filter f l) i = Some a -> nth_error (filter f l) j = Some b ->
  exists i' j',
    i' < j' /\ nth_error l i' = Some a /\ nth_error l j' = Some b.
Proof.
  revert i j. induction l as [|x l IH]; intros i j Hij Ha Hb.
  - destruct i; discriminate.
  - cbn [filter] in Ha, Hb. destruct (f x).
    + destruct j as [|j]; [lia|]. destruct i as [|i].
      * cbn [nth_error] in Ha, Hb. apply nth_error_In in Hb.
        apply filter_In in Hb as [Hb _].
        apply In_nth_error in Hb as [k Hk].
        exists 0, (S k). repeat split; [lia|exact Ha|exact Hk].
      * cbn [nth_error] in Ha, Hb.
        destruct (IH i j ltac:(lia) Ha Hb) as (i' & j' & H & H1 & H2).
        exists (S i'), (S j'). repeat split; [lia|exact H1|exact H2].
    + destruct (IH i j Hij Ha Hb) as (i' & j' & H & H1 & H2).
      exists (S i'), (S j'). repeat split; [lia|exact H1|exact H2].
Qed.

Lemma select_features_keep_order (p : column -> bool) (df : DataFrame)
      (i j : nat) (a b : string) :
  i < j ->
  nth_error (Eda.select_dtypes p df (Eda.features df)) i = Some a ->
  nth_error (Eda.select_dtypes p df (Eda.features df)) j = Some b ->
  exists i' j',
    i' < j' /\ nth_error (names df) i' = Some a
    /\ nth_error (names df) j' = Some b.
Proof.
  intros Hij Ha Hb. unfold Eda.select_dtypes in Ha, Hb.
  destruct (filter_keeps_order _ _ _ _ _ _ Hij Ha Hb)
    as (i1 & j1 & H1 & Ha1 & Hb1).
  unfold Eda.features in Ha1, Hb1.
  exact (filter_keeps_order _ _ _ _ _ _ H1 Ha1 Hb1).
Qed.

(** X11.  The two feature lists of the report are taken from the columns of
    the table in their order, without repetition and without exam_score and
    id: a column is a numerical feature exactly when it is int64 or float64,
    a categorical feature exactly when it is object; no column is both, and a
    bool column is in neither list, so it is in no figure.  In their order:
    of two features of a list, the one that comes first in the list is a
    column that comes first in the table. *)
Theorem eda_feature_lists (df : DataFrame) :
  wf df = true ->
  NoDup (Eda.numerical_features df)
  /\ NoDup (Eda.categorical_features df)
  /\ (forall c,
         In c (Eda.numerical_features df)
         <-> c <> "exam_score" /\ c <> "id"
             /\ exists col, lookup c (cols df) = Some col
                            /\ (dtype_of col = DInt64
                                \/ dtype_of col = DFloat64))
  /\ (forall c,
         In c (Eda.categorical_features df)
         <-> c <> "exam_score" /\ c <> "id"
             /\ exists col, lookup c (cols df) = Some col
                            /\ dtype_of col = DObject)
  /\ (forall c, In c (Eda.numerical_features df) ->
                ~ In c (Eda.categorical_features df))
  /\ (forall c col, lookup c (cols df) = Some col -> dtype_of col = DBool ->
                    ~ In c (Eda.numerical_features df)
                    /\ ~ In c (Eda.categorical_features df))
  /\ (forall l,
         l = Eda.numerical_features df \/ l = Eda.categorical_features df ->
         forall i j a b,
           i < j -> nth_error l i = Some a -> nth_error l j = Some b ->
           exists i' j',
             i' < j' /\ nth_error (names df) i' = Some a
             /\ nth_error (names df) j' = Some b).
Proof.
  intros Hwf.
  assert (Hord : forall l,
             l = Eda.numerical_features df
             \/ l = Eda.categorical_features df ->
             forall i j a b,
               i < j -> nth_error l i = Some a -> nth_error l j = Some b ->
               exists i' j',
                 i' < j' /\ nth_error (names df) i' = Some a
                 /\ nth_error (names df) j' = Some b).
  { intros l [->| ->] i j a b; apply select_features_keep_order. }
  assert (Hnd : NoDup (names df)).
  { unfold wf in Hwf. apply andb_true_iff in Hwf as [Hwf _].
    now apply nodupb_NoDup. }
  assert (Hnum : forall c,
             In c (Eda.numerical_features df)
             <-> c <> "exam_score" /\ c <> "id"
                 /\ exists col, lookup c (cols df) = Some col
                                /\ (dtype_of col = DInt64
                                    \/ dtype_of col = DFloat64)).
  { intros c. unfold Eda.numerical_features.
    rewrite In_select_dtypes, In_features. split.
    - intros [(_ & H1 & H2) (col & Hl & Hp)]. repeat split; auto.
      exists col. split; [exact Hl|]. destruct col; try discriminate; auto.
    - intros (H1 & H2 & col & Hl & Hp). split.
      + repeat split; auto. apply has_col_In. unfold has_col. now rewrite Hl.
      + exists col. split; [exact Hl|].
        destruct col; simpl in *; destruct Hp; try discriminate; auto. }
  assert (Hcat : forall c,
             In c (Eda.categorical_features df)
             <-> c <> "exam_score" /\ c <> "id"
                 /\ exists col, lookup c (cols df) = Some col
                                /\ dtype_of col = DObject).
  { intros c. unfold Eda.categorical_features.
    rewrite In_select_dtypes, In_features. split.
    - intros [(_ & H1 & H2) (col & Hl & Hp)]. repeat split; auto.
      exists col. split; [exact Hl|]. destruct col; try discriminate; auto.
    - intros (H1 & H2 & col & Hl & Hp). split.
      + repeat split; auto. apply has_col_In. unfold has_col. now rewrite Hl.
      + exists col. split; [exact Hl|].
        destruct col; simpl in *; try discriminate; auto. }
  split; [|split; [|split; [|split; [|split; [|split]]]]]; auto.
  - now repeat apply NoDup_filter.
  - now repeat apply NoDup_filter.
  - intros c H1 H2. apply Hnum in H1 as (_ & _ & col & Hl & Hd).
    apply Hcat in H2 as (_ & _ & col' & Hl' & Hd').
    assert (col' = col) by congruence. subst col'.
    destruct Hd; congruence.
  - intros c col Hl Hd. split; intros H.
    + apply Hnum in H as (_ & _ & col' & Hl' & Hd').
      assert (col' = col) by congruence. subst col'. destruct Hd'; congruence.
    + apply Hcat in H as (_ & _ & col' & Hl' & Hd').
      assert (col' = col) by congruence. subst col'. congruence.
Qed.

Lemma eda_feature_lists_witness :
  wf sample_train = true
  /\ NoDup (Eda.numerical_features sample_train)
  /\ ~ In "id" (Eda.numerical_features sample_train)
  /\ exists i' j',
      i' < j' /\ nth_error (names sample_train) i' = Some "study_hours"
      /\ nth_error (names sample_train) j' = Some "sleep_hours".
Proof.
  split; [reflexivity|].
  destruct (eda_feature_lists sample_train eq_refl)
    as (H1 & _ & H3 & _ & _ & _ & H7).
  split; [exact H1|]. split.
  - intros H. apply H3 in H as (_ & H & _). now apply H.
  - apply (H7 _ (or_introl eq_refl) 0 2); [lia|reflexivity|reflexivity].
Defined.

(** ** Figures saved, figures placed *)

Lemma saved_app (l l' : list Eda.plot_call) :
  Eda.saved (l ++ l') = Eda.saved l ++ Eda.saved l'.
Proof. unfold Eda.saved. apply flat_map_app. Qed.

Lemma placed_app (l l' : list Eda.pdf_call) :
  Eda.placed (l ++ l') = Eda.placed l ++ Eda.placed l'.
Proof. unfold Eda.placed. apply flat_map_app. Qed.

Lemma saved_for_each (body : string -> list Eda.plot_call * Eda.path)
      (cs : list string) :
  (forall c, Eda.saved (fst (body c)) = [snd (body c)]) ->
  Eda.saved (fst (Eda.for_each body cs)) = snd (Eda.for_each body cs).
Proof.
  intros H. unfold Eda.for_each. simpl.
  induction cs as [|c r IH]; simpl; [reflexivity|].
  now rewrite saved_app, H, IH.
Qed.

Lemma saved_plots (cs : list string) (t : string) (fp : Eda.path) :
  Eda.saved (fst (Eda.plot_numerical_distributions cs fp))
  = snd (Eda.plot_numerical_distributions cs fp)
  /\ Eda.saved (fst (Eda.plot_categorical_distributions cs fp))
     = snd (Eda.plot_categorical_distributions cs fp)
  /\ Eda.saved (fst (Eda.plot_numerical_vs_target cs t fp))
     = snd (Eda.plot_numerical_vs_target cs t fp)
  /\ Eda.saved (fst (Eda.plot_categorical_vs_target cs t fp))
     = snd (Eda.plot_categorical_vs_target cs t fp)
  /\ Eda.saved (fst (Eda.plot_correlation_matrix cs t fp))
     = snd (Eda.plot_correlation_matrix cs t fp).
Proof.
  repeat split; try (apply saved_for_each; intros; reflexivity).
Qed.

Lemma placed_chapter_body (images : list Eda.path) :
  Eda.placed (Eda.chapter_body images) = images.
Proof.
  unfold Eda.chapter_body. induction images as [|p r IH]; simpl;
    [reflexivity|].
  unfold Eda.placed in *. simpl. now rewrite IH.
Qed.

Lemma placed_section (keys : list string) (item : string * list Eda.path) :
  Eda.placed (Eda.section_calls keys item) = snd item.
Proof.
  unfold Eda.section_calls. rewrite !placed_app, placed_chapter_body.
  destruct (negb _); simpl; now rewrite app_nil_r.
Qed.

Lemma placed_report (secs : list (string * list Eda.path)) (op : Eda.path) :
  Eda.placed (Eda.generate_pdf_report true secs op)
  = List.concat (map snd secs).
Proof.
  unfold Eda.generate_pdf_report. rewrite !placed_app.
  change (Eda.placed [Eda.SetAutoPageBreak true 15; Eda.AddPage]) with (@nil Eda.path).
  change (Eda.placed [Eda.Output (Eda.joinpath op "eda_report.pdf")])
    with (@nil Eda.path).
  rewrite app_nil_r. cbn [app]. generalize (map fst secs) as keys. intros keys.
  induction secs as [|s r IH]; [reflexivity|].
  cbn [flat_map map List.concat].
  now rewrite placed_app, placed_section, IH.
Qed.

(** X12.  In a run of [main] that comes to its end, the figures the report
    places are exactly the image files the plotting functions have saved,
    each once and in the order they were drawn: two per numerical feature,
    two per categorical feature, and the correlation matrix. *)
Theorem eda_report_places_saved_figures (df : DataFrame)
        (figures_path outputs_path : Eda.path) :
  Eda.placed (snd (Eda.main true df figures_path outputs_path))
  = Eda.saved (fst (Eda.main true df figures_path outputs_path))
  /\ List.length (Eda.saved (fst (Eda.main true df figures_path outputs_path)))
     = 2 * List.length (Eda.numerical_features df)
       + 2 * List.length (Eda.categorical_features df) + 1.
Proof.
  unfold Eda.main. cbn [fst snd]. rewrite placed_report.
  unfold Eda.sections. cbn [map flat_map List.concat fst snd].
  rewrite !saved_app.
  destruct (saved_plots (Eda.numerical_features df) Eda.TARGET figures_path)
    as (N1 & _ & N3 & _ & N5).
  destruct (saved_plots (Eda.categorical_features df) Eda.TARGET figures_path)
    as (_ & C2 & _ & C4 & _).
  rewrite N1, N3, N5, C2, C4. rewrite !app_nil_r.
  split; [reflexivity|].
  rewrite !length_app. unfold Eda.plot_numerical_distributions,
    Eda.plot_categorical_distributions, Eda.plot_numerical_vs_target,
    Eda.plot_categorical_vs_target, Eda.plot_correlation_matrix, Eda.for_each.
  cbn [snd]. rewrite !length_map. simpl. lia.
Qed.

(** ** The pages of the report *)

Lemma pages_app (l l' : list Eda.pdf_call) :
  Eda.pages (l ++ l') = Eda.pages l + Eda.pages l'.
Proof. unfold Eda.pages. now rewrite filter_app, length_app. Qed.

Lemma pages_chapter_body (images : list Eda.path) :
  Eda.pages (Eda.chapter_body images) = 0.
Proof.
  unfold Eda.chapter_body, Eda.pages.
  induction images as [|p r IH]; simpl; auto.
Qed.

Lemma pages_section (keys : list string) (item : string * list Eda.path) :
  Eda.pages (Eda.section_calls keys item)
  = if String.eqb (fst item) (last keys "") then 0 else 1.
Proof.
  unfold Eda.section_calls. rewrite !pages_app, pages_chapter_body.
  destruct (String.eqb _ _); reflexivity.
Qed.

(** Before the last section of a dict, whose keys are distinct, every
    section is followed by a new page. *)
Lemma pages_before_last (k : string) (pre : list (string * list Eda.path)) :
  ~ In k (map fst pre) ->
  forall keys, last keys "" = k ->
  Eda.pages (flat_map (Eda.section_calls keys) pre) = List.length pre.
Proof.
  intros Hk keys Hl. induction pre as [|it r IH]; [reflexivity|].
  cbn [flat_map]. rewrite pages_app, pages_section, Hl.
  simpl in Hk. destruct (String.eqb_spec (fst it) k) as [E|_].
  - exfalso. apply Hk. now left.
  - rewrite IH; [reflexivity|]. intros H. apply Hk. now right.
Qed.

Lemma not_in_before_last {A : Type} (l : list A) (a : A) :
  NoDup (l ++ [a]) -> ~ In a l.
Proof.
  intros H. apply NoDup_remove in H. destruct H as [_ H].
  now rewrite app_nil_r in H.
Qed.

(** The calls of the report when the dict has a last item. *)
Lemma report_with_last (pre : list (string * list Eda.path))
      (it : string * list Eda.path) (op : Eda.path) :
  Eda.generate_pdf_report true (pre ++ [it]) op
  = [Eda.SetAutoPageBreak true 15; Eda.AddPage]
    ++ flat_map (Eda.section_calls (map fst (pre ++ [it]))) pre
    ++ Eda.chapter_title (fst it) ++ Eda.chapter_body (snd it)
    ++ [Eda.Output (Eda.joinpath op "eda_report.pdf")].
Proof.
  unfold Eda.generate_pdf_report. rewrite flat_map_app. cbn [flat_map].
  unfold Eda.section_calls at 2. rewrite map_app. cbn [map].
  rewrite last_last, String.eqb_refl. cbn [negb].
  now rewrite !app_nil_r, <- !app_assoc.
Qed.

(** X13.  For a dict of sections (its keys are distinct) [generate_pdf_report]
    opens one page per section and one page when there is no section: the
    calls of [add_page] are as many as the sections, at least one.  With a
    section in the dict, the call before [output] is a call of a chapter, not
    [add_page]: no page is opened after the last section. *)
Theorem generate_pdf_report_pages (image_sections : list (string * list Eda.path))
        (output_path : Eda.path) :
  NoDup (map fst image_sections) ->
  Eda.pages (Eda.generate_pdf_report true image_sections output_path)
  = Nat.max 1 (List.length image_sections)
  /\ (image_sections <> [] ->
      exists calls c,
        Eda.generate_pdf_report true image_sections output_path
        = calls ++ [c; Eda.Output (Eda.joinpath output_path "eda_report.pdf")]
        /\ c <> Eda.AddPage).
Proof.
  intros ND.
  destruct image_sections as [|s0 r0]; [split; [reflexivity|congruence]|].
  destruct (exists_last (l:=s0 :: r0)) as (pre & it & E); [discriminate|].
  rewrite E in *. clear E s0 r0. rewrite report_with_last.
  assert (Hk : ~ In (fst it) (map fst pre)).
  { rewrite map_app in ND. now apply not_in_before_last in ND. }
  split.
  - rewrite !pages_app, (pages_before_last (fst it)), pages_chapter_body;
      [|assumption|rewrite map_app; apply last_last].
    rewrite length_app. cbn [List.length]. rewrite Nat.max_r by lia.
    change (Eda.pages [Eda.SetAutoPageBreak true 15; Eda.AddPage]) with 1.
    change (Eda.pages (Eda.chapter_title (fst it))) with 0.
    change (Eda.pages [Eda.Output (Eda.joinpath output_path "eda_report.pdf")])
      with 0.
    lia.
  - intros _. destruct (snd it) as [|i0 ir].
    + exists ([Eda.SetAutoPageBreak true 15; Eda.AddPage]
              ++ flat_map (Eda.section_calls (map fst (pre ++ [it]))) pre
              ++ [Eda.SetFont "Arial" "B" 12; Eda.Cell 0 10 (fst it) 0 1 "L"]),
        (Eda.Ln 5).
      split; [|discriminate].
      cbn [Eda.chapter_title Eda.chapter_body flat_map].
      now rewrite <- !app_assoc.
    + destruct (exists_last (l:=i0 :: ir)) as (ims & im & Ei); [discriminate|].
      rewrite Ei. unfold Eda.chapter_body. rewrite flat_map_app.
      cbn [flat_map]. rewrite app_nil_r.
      exists ([Eda.SetAutoPageBreak true 15; Eda.AddPage]
              ++ flat_map (Eda.section_calls (map fst (pre ++ [it]))) pre
              ++ Eda.chapter_title (fst it)
              ++ flat_map (fun image_path =>
                             [Eda.SetFont "Arial" "" 10; Eda.Ln 5;
                              Eda.Cell 0 10 (Eda.caption image_path) 0 1 "L";
                              Eda.Image image_path 10 190]) ims
              ++ [Eda.SetFont "Arial" "" 10; Eda.Ln 5;
                  Eda.Cell 0 10 (Eda.caption im) 0 1 "L"]),
        (Eda.Image im 10 190).
      split; [|discriminate].
      now rewrite <- !app_assoc.
Qed.

Lemma generate_pdf_report_pages_witness :
  NoDup (map fst [("Numerical Feature Distributions", [["figures"; "a.png"]]);
                  ("Correlation Matrix", [])])
  /\ Eda.pages (Eda.generate_pdf_report true
                  [("Numerical Feature Distributions", [["figures"; "a.png"]]);
                   ("Correlation Matrix", [])] ["outputs"]) = 2.
Proof.
  assert (ND : NoDup (map fst [("Numerical Feature Distributions",
                                [["figures"; "a.png"]]);
                               ("Correlation Matrix", @nil Eda.path)])).
  { repeat constructor; simpl; intuition discriminate. }
  split; [exact ND|].
  exact (proj1 (generate_pdf_report_pages _ ["outputs"] ND)).
Defined.

(** ** Figures opened, figures closed *)

Lemma figures_ok_app (l l' : list Eda.plot_call) (open : bool) :
  Eda.figures_ok open l = true ->
  Eda.figures_ok open (l ++ l') = Eda.figures_ok false l'.
Proof.
  revert open. induction l as [|c r IH]; intros open H.
  - destruct open; [discriminate|reflexivity].
  - destruct c, open; simpl in *; try discriminate; auto.
Qed.

Lemma figures_ok_for_each (body : string -> list Eda.plot_call * Eda.path)
      (cs : list string) :
  (forall c, Eda.figures_ok false (fst (body c)) = true) ->
  Eda.figures_ok false (fst (Eda.for_each body cs)) = true.
Proof.
  intros H. unfold Eda.for_each. cbn [fst].
  induction cs as [|c r IH]; [reflexivity|].
  cbn [flat_map]. now rewrite figures_ok_app.
Qed.

(** X16.  The plotting functions keep to one figure at a time: in the calls
    of [main], every drawing call, label and [savefig] finds the figure that
    [plt.figure] or [sns.jointplot] has opened for it, no figure is opened
    while another is open, and every figure is closed, so that none is left
    open at the end, whatever the table. *)
Theorem eda_one_figure_at_a_time (fpdf : bool) (df : DataFrame)
        (figures_path outputs_path : Eda.path) :
  Eda.figures_ok false (fst (Eda.main fpdf df figures_path outputs_path))
  = true.
Proof.
  unfold Eda.main, Eda.sections. cbn [fst snd flat_map].
  repeat (rewrite figures_ok_app;
          [|try (apply figures_ok_for_each; intros; reflexivity)]).
  all: reflexivity.
Qed.

(** ** The files of the figures *)

Lemma has_char_app (c : ascii) (a b : string) :
  Eda.has_char c (a ++ b) = Eda.has_char c a || Eda.has_char c b.
Proof.
  induction a as [|x a IH]; simpl; [reflexivity|].
  now rewrite IH, orb_assoc.
Qed.

Lemma split_on_plain (c : ascii) (s : string) :
  Eda.has_char c s = false -> Eda.split_on c s = [s].
Proof.
  induction s as [|x s IH]; simpl; [reflexivity|].
  intros H. apply orb_false_iff in H. destruct H as [H1 H2].
  now rewrite H1, (IH H2).
Qed.

Lemma parts_plain (s : string) :
  Eda.has_char "/" s = false -> s <> "" -> s <> "." -> Eda.parts s = [s].
Proof.
  intros H H1 H2. unfold Eda.parts. rewrite split_on_plain by exact H.
  apply String.eqb_neq in H1, H2. simpl. now rewrite H1, H2.
Qed.

Lemma string_length_app (a b : string) :
  String.length (a ++ b) = String.length a + String.length b.
Proof. induction a as [|x a IH]; simpl; auto. Qed.

Lemma string_app_inv_head (p a b : string) :
  (p ++ a = p ++ b)%string -> a = b.
Proof. induction p as [|x p IH]; simpl; intros H; [exact H|]. injection H. auto. Qed.

Lemma string_app_inv_tail (s a b : string) :
  (a ++ s = b ++ s)%string -> a = b.
Proof.
  revert b. induction a as [|x a IH]; intros [|y b] H; simpl in H.
  - reflexivity.
  - apply (f_equal String.length) in H. simpl in H.
    rewrite string_length_app in H. lia.
  - apply (f_equal String.length) in H. simpl in H.
    rewrite string_length_app in H. lia.
  - injection H as -> H. f_equal. now apply IH.
Qed.

(** The file of a figure of a column whose label has no slash is in the
    directory of the figures. *)
Lemma joinpath_figure (fp : Eda.path) (pre col : string) :
  In pre Eda.file_prefixes ->
  Eda.has_char "/" col = false ->
  Eda.joinpath fp (pre ++ col ++ ".png") = fp ++ [(pre ++ col ++ ".png")%string].
Proof.
  intros Hp Hc. unfold Eda.joinpath. f_equal. apply parts_plain.
  - rewrite !has_char_app, Hc.
    simpl in Hp. intuition (subst pre; reflexivity).
  - simpl in Hp. intuition (subst pre; discriminate).
  - simpl in Hp. intuition (subst pre; discriminate).
Qed.

Lemma figure_files_NoDup (fp : Eda.path) (pre : string) (cs : list string) :
  In pre Eda.file_prefixes ->
  (forall c, In c cs -> Eda.has_char "/" c = false) ->
  NoDup cs ->
  NoDup (map (fun col => Eda.joinpath fp (pre ++ col ++ ".png")) cs).
Proof.
  intros Hp Hc ND. apply NoDup_map_NoDup_ForallPairs; [|exact ND].
  intros x y Hx Hy E. rewrite !joinpath_figure in E by auto.
  apply app_inv_head in E. injection E as E.
  apply string_app_inv_head in E. now apply string_app_inv_tail in E.
Qed.

Lemma figure_files_disjoint (fp : Eda.path) (pre pre' : string)
      (cs cs' : list string) :
  In pre Eda.file_prefixes -> In pre' Eda.file_prefixes ->
  (forall x y, (pre ++ x <> pre' ++ y)%string) ->
  (forall c, In c cs -> Eda.has_char "/" c = false) ->
  (forall c, In c cs' -> Eda.has_char "/" c = false) ->
  forall p,
    In p (map (fun col => Eda.joinpath fp (pre ++ col ++ ".png")) cs) ->
    ~ In p (map (fun col => Eda.joinpath fp (pre' ++ col ++ ".png")) cs').
Proof.
  intros Hp Hp' Hd Hc Hc' p H H'.
  apply in_map_iff in H as (x & <- & Hx). apply in_map_iff in H' as (y & E & Hy).
  rewrite !joinpath_figure in E by auto.
  apply app_inv_head in E. injection E as E. symmetry in E.
  now apply Hd in E.
Qed.

Lemma correlation_file_not_figure (fp : Eda.path) (pre : string)
      (cs : list string) :
  In pre Eda.file_prefixes ->
  (forall c, In c cs -> Eda.has_char "/" c = false) ->
  ~ In (Eda.joinpath fp "correlation_matrix.png")
       (map (fun col => Eda.joinpath fp (pre ++ col ++ ".png")) cs).
Proof.
  intros Hp Hc H. apply in_map_iff in H as (x & E & Hx).
  rewrite joinpath_figure in E by auto.
  apply app_inv_head in E. injection E as E.
  simpl in Hp. intuition (subst pre; discriminate).
Qed.

Lemma plain_features (df : DataFrame) :
  Eda.plain_labels df = true ->
  (forall c, In c (Eda.numerical_features df) -> Eda.has_char "/" c = false)
  /\ (forall c, In c (Eda.categorical_features df) ->
                Eda.has_char "/" c = false).
Proof.
  intros H. unfold Eda.plain_labels in H. rewrite forallb_forall in H.
  split; intros c Hc; apply In_select_dtypes in Hc as [Hc _];
    apply In_features in Hc as [Hc _]; apply H in Hc;
    now apply negb_true_iff in Hc.
Qed.

(** The files [main] saves, by the function that saves them. *)
Lemma saved_main (fpdf : bool) (df : DataFrame) (fp op : Eda.path) :
  Eda.saved (fst (Eda.main fpdf df fp op))
  = map (fun col => Eda.joinpath fp ("numerical_dist_" ++ col ++ ".png"))
        (Eda.numerical_features df)
    ++ map (fun col => Eda.joinpath fp ("categorical_dist_" ++ col ++ ".png"))
           (Eda.categorical_features df)
    ++ map (fun col => Eda.joinpath fp ("numerical_vs_target_" ++ col ++ ".png"))
           (Eda.numerical_features df)
    ++ map (fun col => Eda.joinpath fp ("categorical_vs_target_" ++ col ++ ".png"))
           (Eda.categorical_features df)
    ++ [Eda.joinpath fp "correlation_matrix.png"].
Proof.
  unfold Eda.main, Eda.sections. cbn [map flat_map fst snd].
  rewrite !saved_app.
  destruct (saved_plots (Eda.numerical_features df) Eda.TARGET fp)
    as (N1 & _ & N3 & _ & N5).
  destruct (saved_plots (Eda.categorical_features df) Eda.TARGET fp)
    as (_ & C2 & _ & C4 & _).
  rewrite N1, N3, N5, C2, C4. now rewrite !app_nil_r.
Qed.

(** X14.  No figure overwrites another: for a table with distinct column
    labels, none of which has a slash, the files that [main] saves are
    pairwise distinct, and each is a file of the directory of the figures. *)
Theorem eda_figures_not_overwritten (fpdf : bool) (df : DataFrame)
        (figures_path outputs_path : Eda.path) :
  wf df = true ->
  Eda.plain_labels df = true ->
  NoDup (Eda.saved (fst (Eda.main fpdf df figures_path outputs_path)))
  /\ (forall p,
         In p (Eda.saved (fst (Eda.main fpdf df figures_path outputs_path))) ->
         exists file, p = figures_path ++ [file]).
Proof.
  intros Hwf Hplain. rewrite saved_main.
  destruct (plain_features df Hplain) as [Pn Pc].
  assert (NDn : NoDup (Eda.numerical_features df)).
  { unfold wf in Hwf. apply andb_true_iff in Hwf as [Hwf _].
    apply nodupb_NoDup in Hwf. now repeat apply NoDup_filter. }
  assert (NDc : NoDup (Eda.categorical_features df)).
  { unfold wf in Hwf. apply andb_true_iff in Hwf as [Hwf _].
    apply nodupb_NoDup in Hwf. now repeat apply NoDup_filter. }
  assert (I1 : In "numerical_dist_" Eda.file_prefixes) by (simpl; auto).
  assert (I2 : In "categorical_dist_" Eda.file_prefixes) by (simpl; auto).
  assert (I3 : In "numerical_vs_target_" Eda.file_prefixes) by (simpl; auto).
  assert (I4 : In "categorical_vs_target_" Eda.file_prefixes)
    by (simpl; auto 6).
  split.
  - repeat apply NoDup_app; try (apply figure_files_NoDup; assumption).
    + repeat constructor. intros [].
    + intros p H [<-|[]]. revert H. now apply correlation_file_not_figure.
    + intros p H H'. apply in_app_iff in H' as [H'|[<-|[]]].
      * revert p H H'. apply figure_files_disjoint; auto.
        intros x y. simpl. discriminate.
      * revert H. now apply correlation_file_not_figure.
    + intros p H H'.
      apply in_app_iff in H' as [H'|H'];
        [|apply in_app_iff in H' as [H'|[<-|[]]]].
      * revert p H H'. apply figure_files_disjoint; auto.
        intros x y. simpl. discriminate.
      * revert p H H'. apply figure_files_disjoint; auto.
        intros x y. simpl. discriminate.
      * revert H. now apply correlation_file_not_figure.
    + intros p H H'.
      apply in_app_iff in H' as [H'|H'];
        [|apply in_app_iff in H' as [H'|H'];
          [|apply in_app_iff in H' as [H'|[<-|[]]]]].
      * revert p H H'. apply figure_files_disjoint; auto.
        intros x y. simpl. discriminate.
      * revert p H H'. apply figure_files_disjoint; auto.
        intros x y. simpl. discriminate.
      * revert p H H'. apply figure_files_disjoint; auto.
        intros x y. simpl. discriminate.
      * revert H. now apply correlation_file_not_figure.
  - intros p H.
    repeat (apply in_app_iff in H as [H|H]);
      try (apply in_map_iff in H as (c & <- & Hc);
           rewrite joinpath_figure by auto; eauto).
    destruct H as [<-|[]]. now exists "correlation_matrix.png".
Qed.

Lemma eda_figures_not_overwritten_witness :
  wf sample_train = true
  /\ Eda.plain_labels sample_train = true
  /\ NoDup (Eda.saved (fst (Eda.main true sample_train
                                     ["reports"; "figures"]
                                     ["reports"; "outputs"]))).
Proof.
  split; [reflexivity|]. split; [reflexivity|].
  exact (proj1 (eda_figures_not_overwritten true sample_train
                  ["reports"; "figures"] ["reports"; "outputs"]
                  eq_refl eq_refl)).
Defined.

(** The labels have to be without slash: the figures of the columns [a/b]
    and [a//b] are one file. *)
Example slash_labels_share_a_file :
  wf (mkDF 1 [("a/b", ColInt [1%Z]); ("a//b", ColInt [2%Z])]) = true
  /\ ~ NoDup (Eda.saved
                (fst (Eda.main true
                        (mkDF 1 [("a/b", ColInt [1%Z]); ("a//b", ColInt [2%Z])])
                        ["figures"] ["outputs"]))).
Proof.
  split; [reflexivity|]. intros H. apply NoDup_cons_iff in H as [H _].
  apply H. left. reflexivity.
Qed.

(** ** The captions *)

Lemma name_figure (fp : Eda.path) (file : string) :
  Eda.name (fp ++ [file]) = file.
Proof. apply last_last. Qed.

(** One step of [replace] where the string is not at its end. *)
Lemma replace_from_cons (old new : string) (o c : ascii) (r : string) :
  Eda.replace_from (String o old) new 0 (String c r)
  = if String.prefix (String o old) (String c r)
    then (new ++ Eda.replace_from (String o old) new (String.length old) r)%string
    else String c (Eda.replace_from (String o old) new 0 r).
Proof.
  cbn [Eda.replace_from String.length Nat.sub]. now rewrite Nat.sub_0_r.
Qed.

Lemma prefix_char (o c : ascii) (r : string) :
  String.prefix (String o "") (String c r) = Ascii.eqb o c.
Proof.
  cbn [String.prefix]. destruct (ascii_dec o c) as [->|N].
  - rewrite Ascii.eqb_refl. now destruct r.
  - symmetry. now apply Ascii.eqb_neq.
Qed.

Lemma prefix_other (o c : ascii) (old r : string) :
  Ascii.eqb o c = false -> String.prefix (String o old) (String c r) = false.
Proof.
  intros H. cbn [String.prefix]. destruct (ascii_dec o c) as [->|N];
    [|reflexivity].
  now rewrite Ascii.eqb_refl in H.
Qed.

Lemma replace_underscore_app (a b : string) :
  Eda.replace "_" " " (a ++ b)
  = (Eda.replace "_" " " a ++ Eda.replace "_" " " b)%string.
Proof.
  unfold Eda.replace. induction a as [|c a IH]; [reflexivity|].
  cbn [append]. rewrite !replace_from_cons, !prefix_char.
  cbn [String.length]. rewrite IH. now destruct (Ascii.eqb "_" c).
Qed.

Lemma has_char_replace_underscore (s : string) :
  Eda.has_char "." (Eda.replace "_" " " s) = Eda.has_char "." s.
Proof.
  unfold Eda.replace. induction s as [|c s IH]; [reflexivity|].
  rewrite replace_from_cons, prefix_char. cbn [String.length].
  destruct (Ascii.eqb_spec "_" c) as [<-|_]; cbn [append Eda.has_char];
    now rewrite IH.
Qed.

Lemma replace_png_suffix (t : string) :
  Eda.has_char "." t = false -> Eda.replace ".png" "" (t ++ ".png") = t.
Proof.
  unfold Eda.replace. induction t as [|c t IH]; [reflexivity|].
  intros H. cbn [Eda.has_char] in H. apply orb_false_iff in H as [H1 H2].
  cbn [append]. rewrite replace_from_cons, prefix_other.
  - now rewrite IH.
  - now rewrite Ascii.eqb_sym.
Qed.

(** X15.  The caption of a figure in the report is the name of its file
    with spaces for the underscores and without the extension: for a column
    whose label has no slash and no dot, ["Figure: "], the kind of plot and
    the label, both with spaces for underscores. *)
Theorem figure_caption (figures_path : Eda.path) (pre col : string) :
  In pre Eda.file_prefixes ->
  Eda.has_char "/" col = false ->
  Eda.has_char "." col = false ->
  Eda.caption (Eda.joinpath figures_path (pre ++ col ++ ".png"))
  = ("Figure: " ++ Eda.replace "_" " " pre ++ Eda.replace "_" " " col)%string.
Proof.
  intros Hp Hs Hd. rewrite joinpath_figure by assumption.
  unfold Eda.caption. rewrite name_figure. f_equal.
  rewrite !replace_underscore_app.
  change (Eda.replace "_" " " ".png") with ".png".
  assert (E : forall a b c : string, (a ++ b ++ c = (a ++ b) ++ c)%string).
  { intros a b c. induction a as [|x a IH]; simpl; [reflexivity|].
    now rewrite IH. }
  rewrite E. apply replace_png_suffix.
  rewrite has_char_app, !has_char_replace_underscore, Hd.
  simpl in Hp. intuition (subst pre; reflexivity).
Qed.

Lemma figure_caption_witness :
  In "numerical_vs_target_" Eda.file_prefixes
  /\ Eda.has_char "/" "study_hours" = false
  /\ Eda.has_char "." "study_hours" = false
  /\ Eda.caption (Eda.joinpath ["reports"; "figures"]
                               "numerical_vs_target_study_hours.png")
     = "Figure: numerical vs target study hours".
Proof.
  assert (I : In "numerical_vs_target_" Eda.file_prefixes)
    by (simpl; auto).
  split; [exact I|]. split; [reflexivity|]. split; [reflexivity|].
  exact (figure_caption ["reports"; "figures"] "numerical_vs_target_"
           "study_hours" I eq_refl eq_refl).
Defined.
